(** * Proton web clients: WireGuard key generation and certificate cache,
      logical-properties shim, e-mail reminder widget, download provider.

    A shallow embedding of the TypeScript sources
    - packages/components/containers/vpn/WireGuardConfigurationSection/WireGuardConfigurationSection.tsx
    - packages/shared/lib/logical/logical.tsx
    - applications/.../DownloadProvider.tsx (useDownloadProvider and EmailReminderWidget)

    JavaScript values are modelled as follows: a [Uint8Array] is a
    [list byte], a [BigInt] is a [Z], a string is a [string] whose characters
    are code units below 256, a thrown [Error] is a record holding its
    message, a plain object used as a dictionary is a [gmap string _], and an
    async function is a state-passing computation over the part of the world
    it touches. *)

From Stdlib Require Import ZArith QArith String Ascii Strings.Byte List Lia Bool.
From stdpp Require Import gmap strings list fin_maps pretty.

Local Open Scope string_scope.
Local Open Scope list_scope.
Local Open Scope Z_scope.

(** ** JavaScript errors and results *)

Record Error := { message : string }.

Inductive result (A : Type) : Type :=
| Ok (a : A)
| Throw (e : Error).
Arguments Ok {A} a.
Arguments Throw {A} e.

(** An asynchronous function that reads and writes a store [S] and may
    throw: it returns its result, or what it threw, with the store as it
    was left. *)
Definition Eff (S A : Type) : Type := S -> result A * S.

Definition ret {S A} (a : A) : Eff S A := fun w => (Ok a, w).
Definition throw {S A} (msg : string) : Eff S A := fun w => (Throw {| message := msg |}, w).
Definition lift {S A} (r : result A) : Eff S A := fun w => (r, w).
Definition bind {S A B} (m : Eff S A) (k : A -> Eff S B) : Eff S B :=
  fun w =>
    match m w with
    | (Ok a, w') => k a w'
    | (Throw e, w') => (Throw e, w')
    end.
Definition try_catch {S A} (body : Eff S A) (handler : Error -> Eff S A) : Eff S A :=
  fun w =>
    match body w with
    | (Ok a, w') => (Ok a, w')
    | (Throw e, w') => handler e w'
    end.

Notation "x <-- c1 ;; c2" := (bind c1 (fun x => c2))
  (at level 100, c1 at next level, right associativity).

(** [list.forEach(f)] where [f] may throw: the first exception ends the
    loop. *)
Fixpoint forEach {S A} (f : A -> Eff S unit) (l : list A) : Eff S unit :=
  match l with
  | [] => ret tt
  | x :: rest => _ <-- f x ;; forEach f rest
  end.

(** ** Bytes and typed arrays *)

Module Bytes.

Definition to_Z (b : byte) : Z := Z.of_N (Byte.to_N b).

(** Storing a number into a [Uint8Array] slot keeps its low eight bits. *)
Definition of_Z (z : Z) : byte :=
  match Byte.of_N (Z.to_N (z mod 256)) with
  | Some b => b
  | None => x00
  end.

(** [a[i]] read as a number operand: an index outside the array reads
    [undefined], which the bit operators coerce to 0. *)
Definition get (a : list byte) (i : nat) : Z :=
  match a !! i with
  | Some b => to_Z b
  | None => 0
  end.

(** [a[i] = v] on a typed array: in range the slot takes the low eight
    bits of [v], out of range the write is dropped. *)
Definition set (a : list byte) (i : nat) (v : Z) : list byte :=
  <[i := of_Z v]> a.

End Bytes.

(** ** Reference implementations of library functions *)

(** SHA-512 as specified in FIPS 180-4, on 64-bit words held in [Z]. *)
Module SHA512.

Definition w64 (x : Z) : Z := x mod 2 ^ 64.
Definition rotr (k x : Z) : Z := Z.lor (Z.shiftr x k) (w64 (Z.shiftl x (64 - k))).
Definition xor3 (a b c : Z) : Z := Z.lxor (Z.lxor a b) c.
Definition Ch (x y z : Z) : Z := Z.lxor (Z.land x y) (Z.ldiff z x).
Definition Maj (x y z : Z) : Z := xor3 (Z.land x y) (Z.land x z) (Z.land y z).
Definition Sigma0 (x : Z) : Z := xor3 (rotr 28 x) (rotr 34 x) (rotr 39 x).
Definition Sigma1 (x : Z) : Z := xor3 (rotr 14 x) (rotr 18 x) (rotr 41 x).
Definition sigma0 (x : Z) : Z := xor3 (rotr 1 x) (rotr 8 x) (Z.shiftr x 7).
Definition sigma1 (x : Z) : Z := xor3 (rotr 19 x) (rotr 61 x) (Z.shiftr x 6).

(** The largest [r] below [2 ^ bits] with [r ^ 3 <= x], found bit by bit. *)
Fixpoint cube_root (bits : nat) (x r : Z) : Z :=
  match bits with
  | O => r
  | S b =>
      let r' := r + 2 ^ Z.of_nat b in
      cube_root b x (if r' * r' * r' <=? x then r' else r)
  end.

Definition primes : list Z :=
  [2; 3; 5; 7; 11; 13; 17; 19; 23; 29; 31; 37; 41; 43; 47; 53; 59; 61; 67; 71;
   73; 79; 83; 89; 97; 101; 103; 107; 109; 113; 127; 131; 137; 139; 149; 151;
   157; 163; 167; 173; 179; 181; 191; 193; 197; 199; 211; 223; 227; 229; 233;
   239; 241; 251; 257; 263; 269; 271; 277; 281; 283; 293; 307; 311; 313; 317;
   331; 337; 347; 349; 353; 359; 367; 373; 379; 383; 389; 397; 401; 409].

(** The round constants: the first 64 bits of the fractional parts of the
    cube roots of the first eighty primes. *)
Definition K : list Z :=
  Eval vm_compute in map (fun p => w64 (cube_root 68 (p * 2 ^ 192) 0)) primes.

(** The initial hash value: the same for the square roots of the first
    eight primes. *)
Definition H0 : list Z :=
  Eval vm_compute in map (fun p => w64 (Z.sqrt (p * 2 ^ 128))) (take 8 primes).

Definition be_bytes (width : nat) (x : Z) : list byte :=
  map (fun i => Bytes.of_Z (Z.shiftr x (8 * Z.of_nat i))) (rev (seq 0%nat width)).

Definition be_word (bs : list byte) : Z :=
  fold_left (fun acc b => acc * 256 + Bytes.to_Z b) bs 0.

Definition pad (msg : list byte) : list byte :=
  let len := length msg in
  let zeros := ((128 - (len + 17) mod 128) mod 128)%nat in
  msg ++ [x80] ++ repeat x00 zeros ++ be_bytes 16 (8 * Z.of_nat len).

Fixpoint chunks {A} (count size : nat) (l : list A) : list (list A) :=
  match count with
  | O => []
  | S c => take size l :: chunks c size (drop size l)
  end.

(** The message schedule, most recent word first. *)
Fixpoint schedule (more : nat) (ws : list Z) : list Z :=
  match more with
  | O => ws
  | S m =>
      let w := w64 (sigma1 (nth 1 ws 0) + nth 6 ws 0 + sigma0 (nth 14 ws 0) + nth 15 ws 0) in
      schedule m (w :: ws)
  end.

Definition round (st : list Z) (kw : Z * Z) : list Z :=
  match st with
  | [a; b; c; d; e; f; g; h] =>
      let T1 := h + Sigma1 e + Ch e f g + fst kw + snd kw in
      let T2 := Sigma0 a + Maj a b c in
      [w64 (T1 + T2); a; b; c; w64 (d + T1); e; f; g]
  | _ => st
  end.

Definition compress (H : list Z) (block : list byte) : list Z :=
  let W := rev (schedule 64 (rev (map be_word (chunks 16 8 block)))) in
  let st := fold_left round (combine K W) H in
  map (fun p => w64 (fst p + snd p)) (combine H st).

Definition digest (msg : list byte) : list byte :=
  let padded := pad msg in
  let blocks := chunks (length padded / 128) 128 padded in
  concat (map (be_bytes 8) (fold_left compress blocks H0)).

End SHA512.

(** Ed25519 public keys (RFC 8032): the curve [-x^2 + y^2 = 1 + d x^2 y^2]
    over the integers modulo [2 ^ 255 - 19], in extended coordinates. *)
Module Ed25519.

Definition p : Z := Eval vm_compute in 2 ^ 255 - 19.
Definition l : Z := Eval vm_compute in 2 ^ 252 + 27742317777372353535851937790883648493.
Definition mask255 : Z := Eval vm_compute in 2 ^ 255 - 1.

(** [x mod p] for [0 <= x < 2 ^ 512], using [2 ^ 255 = 19] modulo [p]. *)
Definition fold255 (x : Z) : Z := Z.land x mask255 + 19 * Z.shiftr x 255.

Definition reduce (x : Z) : Z :=
  let x := fold255 (fold255 (fold255 x)) in
  if x <? p then x else x - p.

Definition mul (a b : Z) : Z := reduce (a * b).

Fixpoint pow_mod (b : Z) (e : positive) : Z :=
  match e with
  | xH => reduce b
  | xO e' => let h := pow_mod b e' in mul h h
  | xI e' => let h := pow_mod b e' in mul (mul h h) b
  end.

(** The inverse modulo [p], by Fermat's little theorem. *)
Definition inv (x : Z) : Z := pow_mod x (Z.to_pos (p - 2)).

Definition d : Z := Eval vm_compute in mul (p - 121665) (inv 121666).
Definition d2 : Z := Eval vm_compute in reduce (2 * d).

(** A point in extended coordinates: [x = X/Z], [y = Y/Z], [x y = T/Z]. *)
Record point := { X : Z; Y : Z; Z_ : Z; T : Z }.

Definition zero : point := {| X := 0; Y := 1; Z_ := 1; T := 0 |}.

(** The unified addition (Hisil, Wong, Carter and Dawson). *)
Definition add (P Q : point) : point :=
  let A := mul (Y P + p - X P) (Y Q + p - X Q) in
  let B := mul (Y P + X P) (Y Q + X Q) in
  let C := mul (mul (T P) d2) (T Q) in
  let D := mul (2 * Z_ P) (Z_ Q) in
  let E := B + p - A in
  let F := D + p - C in
  let G := D + C in
  let H := B + A in
  {| X := mul E F; Y := mul G H; Z_ := mul F G; T := mul E H |}.

Fixpoint multiply_pos (k : positive) (P : point) : point :=
  match k with
  | xH => P
  | xO k' => let Q := multiply_pos k' P in add Q Q
  | xI k' => let Q := multiply_pos k' P in add P (add Q Q)
  end.

Definition multiply (k : Z) (P : point) : point :=
  match k with
  | Zpos k' => multiply_pos k' P
  | _ => zero
  end.

Definition BASE : point :=
  Eval vm_compute in
    (let x := 15112221349535400772501151409588531511454012693041857206046113283949847762202 in
     let y := 46316835694926478169428394003475163141307993866256225615783033603165251855960 in
     {| X := x; Y := y; Z_ := 1; T := mul x y |}).

Fixpoint bytesToNumberLE (bytes : list byte) : Z :=
  match bytes with
  | [] => 0
  | b :: rest => Bytes.to_Z b + 256 * bytesToNumberLE rest
  end.

Fixpoint numberToBytesLE (len : nat) (n : Z) : list byte :=
  match len with
  | O => []
  | S len' => Bytes.of_Z n :: numberToBytesLE len' (n / 256)
  end.

(** [toRawBytes]: [y] on 32 bytes, least significant first, with the
    parity of [x] in the top bit. *)
Definition toRawBytes (P : point) : list byte :=
  let zi := inv (Z_ P) in
  let x := mul (X P) zi in
  let y := mul (Y P) zi in
  numberToBytesLE 32 (y + 2 ^ 255 * (x mod 2)).

(** The scalar of a private key: the first half of its SHA-512 digest,
    clamped, modulo the order of the base point. *)
Definition scalar (digest : list byte) : Z :=
  let head := bytesToNumberLE (firstn 32 digest) in
  let head := Z.land head (2 ^ 255 - 8) in
  let head := Z.lor head (2 ^ 254) in
  head mod l.

(** [Point.fromPrivateKey(privateKey)] followed by [toRawBytes()]. *)
Definition fromPrivateKey_toRawBytes (privateKey : list byte) : result (list byte) :=
  if Nat.eqb (length privateKey) 32
  then Ok (toRawBytes (multiply (scalar (SHA512.digest privateKey)) BASE))
  else Throw {| message := "Expected 32 bytes of private key" |}.

End Ed25519.

(** Base64 with the standard alphabet and padding (RFC 4648); decoding
    follows [atob]: ASCII white space is skipped, padding is optional, and
    any other character makes it throw. *)
Module Base64.

Definition alphabet : string :=
  "ABCDEFGHIJKLMNOPQRSTUVWXYZabcdefghijklmnopqrstuvwxyz0123456789+/".

Definition digit (v : Z) : ascii :=
  match String.get (Z.to_nat (v mod 64)) alphabet with
  | Some c => c
  | None => "="%char
  end.

Fixpoint encode (bs : list byte) : string :=
  match bs with
  | [] => ""
  | [a] =>
      let n := Bytes.to_Z a * 16 in
      String (digit (n / 64)) (String (digit n) "==")
  | [a; b] =>
      let n := (Bytes.to_Z a * 256 + Bytes.to_Z b) * 4 in
      String (digit (n / 4096)) (String (digit (n / 64)) (String (digit n) "="))
  | a :: b :: c :: rest =>
      let n := (Bytes.to_Z a * 256 + Bytes.to_Z b) * 256 + Bytes.to_Z c in
      String (digit (n / 262144)) (String (digit (n / 4096))
        (String (digit (n / 64)) (String (digit n) (encode rest))))
  end.

Definition value (c : ascii) : option Z :=
  let k := Z.of_nat (nat_of_ascii c) in
  if (65 <=? k) && (k <=? 90) then Some (k - 65)
  else if (97 <=? k) && (k <=? 122) then Some (k - 71)
  else if (48 <=? k) && (k <=? 57) then Some (k + 4)
  else if k =? 43 then Some 62
  else if k =? 47 then Some 63
  else None.

Definition is_ascii_space (c : ascii) : bool :=
  let k := nat_of_ascii c in
  ((k =? 9) || (k =? 10) || (k =? 12) || (k =? 13) || (k =? 32))%nat.

Fixpoint strip_spaces (s : string) : list ascii :=
  match s with
  | "" => []
  | String c s' => if is_ascii_space c then strip_spaces s' else c :: strip_spaces s'
  end.

Definition strip_padding (cs : list ascii) : list ascii :=
  if (length cs mod 4 =? 0)%nat then
    match rev cs with
    | "="%char :: "="%char :: r => rev r
    | "="%char :: r => rev r
    | _ => cs
    end
  else cs.

(** [acc] holds the [bits] bits read and not yet written out. *)
Fixpoint decode_digits (cs : list ascii) (acc : Z) (bits : Z) : option (list byte) :=
  match cs with
  | [] => Some []
  | c :: rest =>
      match value c with
      | None => None
      | Some v =>
          let acc := acc * 64 + v in
          let bits := bits + 6 in
          if 8 <=? bits then
            match decode_digits rest (acc mod 2 ^ (bits - 8)) (bits - 8) with
            | Some out => Some (Bytes.of_Z (acc / 2 ^ (bits - 8)) :: out)
            | None => None
            end
          else decode_digits rest acc bits
      end
  end.

Definition InvalidCharacterError : Error :=
  {| message := "The string to be decoded is not correctly encoded." |}.

Definition decode (s : string) : result (list byte) :=
  let cs := strip_padding (strip_spaces s) in
  if (length cs mod 4 =? 1)%nat then Throw InvalidCharacterError
  else match decode_digits cs 0 0 with
       | Some out => Ok out
       | None => Throw InvalidCharacterError
       end.

End Base64.

(** ** String primitives of the JavaScript runtime used by the sources *)

Module JsString.

(** A string is truthy when it is not empty. *)
Definition truthy (s : string) : bool :=
  match s with "" => false | _ => true end.

(** [a || b] on strings. *)
Definition or (a b : string) : string := if truthy a then a else b.

(** [o || b] where [o] may be null or undefined. *)
Definition or_opt (o : option string) (b : string) : string :=
  match o with
  | Some a => or a b
  | None => b
  end.

Fixpoint startsWith (s p : string) : bool :=
  match p, s with
  | "", _ => true
  | String c p', String d s' => if Ascii.eqb c d then startsWith s' p' else false
  | String _ _, "" => false
  end.

Fixpoint drop (k : nat) (s : string) : string :=
  match k, s with
  | O, _ => s
  | S k', String _ s' => drop k' s'
  | S _, "" => ""
  end.

Definition endsWith (s p : string) : bool :=
  (String.length p <=? String.length s)%nat
  && String.eqb (drop (String.length s - String.length p) s) p.

(** [s.replace(pat, by)] with a literal pattern without the global flag:
    the leftmost occurrence is replaced, a string without occurrence is
    returned as it is. *)
Fixpoint replace_first (pat by_ s : string) : string :=
  if startsWith s pat then by_ +:+ drop (String.length pat) s
  else match s with
       | "" => ""
       | String c s' => String c (replace_first pat by_ s')
       end.

(** [\s] restricted to code units below 256: tab, line feed, vertical
    tab, form feed, carriage return, space and no-break space. *)
Definition is_space (c : ascii) : bool :=
  let k := nat_of_ascii c in
  ((9 <=? k) && (k <=? 13) || (k =? 32) || (k =? 160))%nat.

(** The characters [.] does not match, restricted to code units below
    256: line feed and carriage return. *)
Definition is_line_terminator (c : ascii) : bool :=
  let k := nat_of_ascii c in ((k =? 10) || (k =? 13))%nat.

(** [s.replace(/\s/g, '')] *)
Fixpoint remove_spaces (s : string) : string :=
  match s with
  | "" => ""
  | String c s' => if is_space c then remove_spaces s' else String c (remove_spaces s')
  end.

Definition LF : string := String (ascii_of_nat 10) "".

(** Length of the match of [.+\n] at the start of [s], if there is one:
    the run of characters other than line terminators must be non-empty
    and must be followed by a line feed. *)
Fixpoint dots_then_LF (seen : nat) (s : string) : option nat :=
  match s with
  | "" => None
  | String c s' =>
      if is_line_terminator c then
        if ((nat_of_ascii c =? 10) && (0 <? seen))%nat then Some (S seen) else None
      else dots_then_LF (S seen) s'
  end.

(** Length of the match of [/\n---.+\n/] at the start of [s]. *)
Definition armor_line_match (s : string) : option nat :=
  if startsWith s (LF +:+ "---") then
    match dots_then_LF 0 (drop 4 s) with
    | Some k => Some (4 + k)%nat
    | None => None
    end
  else None.

(** [s.replace(/\n---.+\n/g, '')]: matches are found from left to right
    and do not overlap; [skip] counts the characters of the current match
    that are still to be dropped. *)
Fixpoint remove_armor_lines (skip : nat) (s : string) : string :=
  match s with
  | "" => ""
  | String c s' =>
      match skip with
      | S k => remove_armor_lines k s'
      | O =>
          match armor_line_match s with
          | Some (S k) => remove_armor_lines k s'
          | _ => String c (remove_armor_lines 0 s')
          end
      end
  end.

(** [s.split('\n')] *)
Fixpoint lines (s : string) : list string :=
  match s with
  | "" => [""]
  | String c s' =>
      if Ascii.eqb c (ascii_of_nat 10) then "" :: lines s'
      else match lines s' with
           | l :: ls => String c l :: ls
           | [] => [String c ""]
           end
  end.

Definition is_digit (c : ascii) : bool :=
  let k := nat_of_ascii c in ((48 <=? k) && (k <=? 57))%nat.

Fixpoint skip_spaces (s : string) : string :=
  match s with
  | String c s' => if is_space c then skip_spaces s' else s
  | "" => ""
  end.

(** The value of the longest prefix of decimal digits, if it is not
    empty. *)
Fixpoint digits (acc : Z) (any : bool) (s : string) : option Z :=
  match s with
  | String c s' =>
      if is_digit c
      then digits (acc * 10 + (Z.of_nat (nat_of_ascii c) - 48)) true s'
      else if any then Some acc else None
  | "" => if any then Some acc else None
  end.

(** [parseInt(s, 10)]; [None] stands for NaN.  The result is exact, the
    rounding of integers beyond 2^53 is not modelled. *)
Definition parseInt10 (s : string) : option Z :=
  match skip_spaces s with
  | String "-" s' => option_map Z.opp (digits 0 false s')
  | String "+" s' => digits 0 false s'
  | s' => digits 0 false s'
  end.

(** [l] is a whole line of every string that ends with [s]. *)
Definition inner_line (l s : string) : Prop :=
  forall pre, In l (lines (pre +:+ s)).

(** [p] holds of every character of [s]. *)
Fixpoint forall_chars (p : ascii -> bool) (s : string) : bool :=
  match s with
  | "" => true
  | String c s' => p c && forall_chars p s'
  end.

Definition is_dash (c : ascii) : bool := (nat_of_ascii c =? 45)%nat.

(** ASCII lower case: only [A] to [Z] change. *)
Definition ascii_lower (c : ascii) : ascii :=
  let n := nat_of_ascii c in
  if (65 <=? n)%nat && (n <=? 90)%nat then ascii_of_nat (n + 32) else c.

Fixpoint to_ascii_lower (s : string) : string :=
  match s with
  | "" => ""
  | String c s' => String (ascii_lower c) (to_ascii_lower s')
  end.

(** Equality up to the case of the ASCII letters. *)
Definition eqb_ascii_case_insensitive (a b : string) : bool :=
  String.eqb (to_ascii_lower a) (to_ascii_lower b).

End JsString.

(** ** WireGuardConfigurationSection.tsx *)

Module WireGuard.

(** [CURVE] is imported from [./curve]; it is undefined on platforms
    without BigInt.  Only its group order [n] is used here. *)
Module CURVE.
Record t := { n : Z }.
End CURVE.

Inductive PLATFORM := MACOS | LINUX | WINDOWS | ANDROID | IOS | ROUTER.

Definition PLATFORM_value (p : PLATFORM) : string :=
  match p with
  | MACOS => "macOS"
  | LINUX => "Linux"
  | WINDOWS => "Windows"
  | ANDROID => "Android"
  | IOS => "iOS"
  | ROUTER => "Router"
  end.

Module Peer.
Record t := { name : string; publicKey : string; ip : string }.
End Peer.

(** A value stored under a key of a features object. *)
Inductive FeatureValue :=
| FStr (s : string)
| FNum (z : Z)
| FBool (b : bool)
| FNull.

(** A features object: its own keys in enumeration order. *)
Definition Features := list (string * FeatureValue).

Fixpoint feature (features : Features) (key : string) : option FeatureValue :=
  match features with
  | [] => None
  | (k, v) :: rest => if String.eqb k key then Some v else feature rest key
  end.

(** [features?.key] *)
Definition opt_feature (features : option Features) (key : string) : option FeatureValue :=
  match features with
  | Some f => feature f key
  | None => None
  end.

Definition FeatureValue_truthy (v : FeatureValue) : bool :=
  match v with
  | FStr s => JsString.truthy s
  | FNum z => negb (z =? 0)
  | FBool b => b
  | FNull => false
  end.

(** The text a template literal interpolates for a value. *)
Definition FeatureValue_toString (v : FeatureValue) : string :=
  match v with
  | FStr s => s
  | FNum z => pretty z
  | FBool true => "true"
  | FBool false => "false"
  | FNull => "null"
  end.

(** [${features?.key || fallback}] *)
Definition feature_or (features : option Features) (key : string) (fallback : string) : string :=
  match opt_feature features key with
  | Some v => if FeatureValue_truthy v then FeatureValue_toString v else fallback
  | None => fallback
  end.

Module CertificateDTO.
Record t := {
  id : option string;
  DeviceName : option string;
  Features : option Features;
  SerialNumber : string;
  ClientKey : string;
  ClientKeyFingerprint : string;
  ExpirationTime : Z;
}.
Definition with_id (d : t) (i : string) : t :=
  {| id := Some i; DeviceName := DeviceName d; Features := Features d;
     SerialNumber := SerialNumber d; ClientKey := ClientKey d;
     ClientKeyFingerprint := ClientKeyFingerprint d;
     ExpirationTime := ExpirationTime d |}.
End CertificateDTO.

Module Certificate.
Record t := {
  id : string;
  name : option string;
  features : option Features;
  serialNumber : string;
  privateKey : string;
  publicKey : string;
  publicKeyFingerprint : string;
  expirationTime : Z;
  config : string;
}.
End Certificate.

Inductive CertificateDeletionParams :=
| SerialNumber (v : string)
| ClientPublicKeyFingerprint (v : string)
| ClientPublicKey (v : string).

Module KeyPair.
Record t := { PrivateKey : string; PublicKey : string }.
End KeyPair.

(** Functions the component imports from libraries and from modules of
    the repository that are not part of the sources at hand. *)
Class Externals := {
  (** [utils.sha512] of @noble/ed25519 *)
  sha512 : list byte -> list byte;
  (** [Point.fromPrivateKey(k)] followed by [toRawBytes()] *)
  Point_fromPrivateKey_toRawBytes : list byte -> result (list byte);
  (** the two helpers of [@proton/shared/lib/helpers/encoding] *)
  base64StringToUint8Array : string -> result (list byte);
  uint8ArrayToBase64String : list byte -> string;
  (** [getObjectKeys] of [helpers] and the helpers of [./feature] *)
  getObjectKeys : option Features -> list string;
  getKeyOfCheck : list string -> string -> bool;
  formatFeatureShortName : string -> string;
  formatFeatureValue : option Features -> string -> string;
}.

Inductive ConsoleEntry :=
| console_warn (e : Error)
| console_info (text : string).

(** The part of the world the key-generation code touches: the bytes the
    platform random generator is going to hand out, the console, and the
    server's answer to the [getKey] request together with the number of
    such requests sent so far. *)
Record World := {
  entropy : nat -> byte;
  console : list ConsoleEntry;
  getKey_reply : result KeyPair.t;
  getKey_requests : nat;
}.

Definition M : Type -> Type := Eff World.

(** [getRandomValues(buf)] fills the buffer with fresh random bytes and
    returns it. *)
Definition getRandomValues (len : nat) : M (list byte) :=
  fun w =>
    (Ok (map (entropy w) (seq 0%nat len)),
     {| entropy := fun k => entropy w (len + k)%nat; console := console w;
        getKey_reply := getKey_reply w; getKey_requests := getKey_requests w |}).

Definition log (entry : ConsoleEntry) : M unit :=
  fun w =>
    (Ok tt,
     {| entropy := entropy w; console := console w ++ [entry];
        getKey_reply := getKey_reply w; getKey_requests := getKey_requests w |}).

(** [api<KeyPair>(getKey())] *)
Definition api_getKey : M KeyPair.t :=
  fun w =>
    (getKey_reply w,
     {| entropy := entropy w; console := console w;
        getKey_reply := getKey_reply w; getKey_requests := S (getKey_requests w) |}).

Fixpoint bytesToNumberLE_from (i : Z) (value : Z) (uint8a : list byte) : Z :=
  match uint8a with
  | [] => value
  | b :: rest => bytesToNumberLE_from (i + 1) (value + Z.shiftl (Bytes.to_Z b) (8 * i)) rest
  end.

Definition bytesToNumberLE (uint8a : list byte) : Z := bytesToNumberLE_from 0 0 uint8a.

Definition unarmor (key : string) : string :=
  JsString.remove_spaces
    (JsString.remove_armor_lines 0 (JsString.LF +:+ key +:+ JsString.LF)).

Definition valid_scalar (n : Z) (num : Z) : bool := (1 <? num) && (num <? n).

(** [while (i--) { ... }]: the body runs once for each of the [i] tries
    that are left. *)
Fixpoint randomPrivateKey_loop (n : Z) (i : nat) : M (list byte) :=
  match i with
  | O => throw "Valid private key was not found in 1024 iterations. PRNG is broken"
  | S i' =>
      b32 <-- getRandomValues 32 ;;
      let num := bytesToNumberLE b32 in
      if valid_scalar n num then ret b32 else randomPrivateKey_loop n i'
  end.

Definition randomPrivateKey (curve : option CURVE.t) : M (list byte) :=
  match curve with
  | None => throw "BigInt not supported"
  | Some c => randomPrivateKey_loop (CURVE.n c) 1024
  end.

(** What the loop throws when it gives up. *)
Definition PRNG_broken : Error :=
  {| message := "Valid private key was not found in 1024 iterations. PRNG is broken" |}.

(** The [k]-th 32-byte sample the generator will produce from [w]. *)
Definition sample (w : World) (k : nat) : list byte :=
  map (entropy w) (seq (32 * k)%nat 32).

Definition getPublicKey `{Externals} (privateKey : list byte) : M (list byte) :=
  lift (Point_fromPrivateKey_toRawBytes privateKey).

(** *** Config template and certificate model *)

Definition isExtraFeatureKey `{Externals} : string -> bool :=
  getKeyOfCheck ["peerIp"; "peerName"; "peerPublicKey"; "platform"].

(** [features?.platform === PLATFORM.WINDOWS] *)
Definition platform_is_windows (features : option Features) : bool :=
  match opt_feature features "platform" with
  | Some (FStr s) => String.eqb s (PLATFORM_value WINDOWS)
  | _ => false
  end.

Definition AllowedIPs (features : option Features) : string :=
  if platform_is_windows features then "0.0.0.0/1, 128.0.0.0/1" else "0.0.0.0/0".

Definition name_truthy (name : option string) : bool :=
  match name with
  | Some s => JsString.truthy s
  | None => false
  end.

Definition getConfigTemplate `{Externals} (interfacePrivateKey : string)
    (name : option string) (features : option Features) (peer : Peer.t) : string :=
  let nl := JsString.LF in
  "[Interface]"
  +:+ (if name_truthy name then nl +:+ "# Key for " +:+ default "" name else "")
  +:+ String.concat ""
        (map (fun key =>
                if isExtraFeatureKey key then ""
                else nl +:+ "# " +:+ formatFeatureShortName key +:+ " = "
                     +:+ formatFeatureValue features key)
             (getObjectKeys features))
  +:+ nl +:+ "PrivateKey = " +:+ interfacePrivateKey
  +:+ nl +:+ "Address = 10.2.0.2/32"
  +:+ nl +:+ "DNS = 10.2.0.1"
  +:+ nl
  +:+ nl +:+ "[Peer]"
  +:+ nl +:+ "# " +:+ feature_or features "peerName" (Peer.name peer)
  +:+ nl +:+ "PublicKey = " +:+ feature_or features "peerPublicKey" (Peer.publicKey peer)
  +:+ nl +:+ "AllowedIPs = " +:+ AllowedIPs features
  +:+ nl +:+ "Endpoint = " +:+ feature_or features "peerIp" (Peer.ip peer) +:+ ":51820".

Definition privateKeyPlaceholder : string := "*****".

(** [fresh] is what [`c${Date.now()}-${Math.random()}`] evaluates to if
    it is needed; the DTO is returned too because the function assigns
    its [id] in place. *)
Definition getCertificateModel `{Externals} (fresh : string)
    (certificateDto : CertificateDTO.t) (peer : Peer.t)
    (privateKey : option string) (id : option string)
    : Certificate.t * CertificateDTO.t :=
  let certificateDto :=
    if negb (name_truthy id) && negb (name_truthy (CertificateDTO.id certificateDto))
    then CertificateDTO.with_id certificateDto fresh
    else certificateDto in
  let name := CertificateDTO.DeviceName certificateDto in
  let features := CertificateDTO.Features certificateDto in
  let key := JsString.or_opt privateKey privateKeyPlaceholder in
  ({| Certificate.id :=
        if name_truthy id then default "" id
        else default "undefined" (CertificateDTO.id certificateDto);
      Certificate.name := name;
      Certificate.features := features;
      Certificate.serialNumber := CertificateDTO.SerialNumber certificateDto;
      Certificate.privateKey := key;
      Certificate.publicKey := CertificateDTO.ClientKey certificateDto;
      Certificate.publicKeyFingerprint := CertificateDTO.ClientKeyFingerprint certificateDto;
      Certificate.expirationTime := CertificateDTO.ExpirationTime certificateDto;
      Certificate.config := getConfigTemplate key name features peer |},
   certificateDto).

(** *** Key derivation *)

Definition getX25519PrivateKey `{Externals} (privateKey : string) : result string :=
  match base64StringToUint8Array privateKey with
  | Throw e => Throw e
  | Ok decoded =>
      let sha512 := take 32 (sha512 decoded) in
      let sha512 := Bytes.set sha512 0 (Z.land (Bytes.get sha512 0) 0xf8) in
      let sha512 := Bytes.set sha512 31 (Z.land (Bytes.get sha512 31) 0x7f) in
      let sha512 := Bytes.set sha512 31 (Z.lor (Bytes.get sha512 31) 0x40) in
      Ok (uint8ArrayToBase64String sha512)
  end.

Module Keys.
Record t := { privateKey : string; publicKey : string }.
End Keys.

(** The [try] block of [getKeyPair]: generation on the client. *)
Definition getKeyPair_try `{Externals} (curve : option CURVE.t) : M Keys.t :=
  privateKey <-- randomPrivateKey curve ;;
  publicKey <-- getPublicKey privateKey ;;
  ret {| Keys.privateKey := uint8ArrayToBase64String privateKey;
         Keys.publicKey := uint8ArrayToBase64String publicKey |}.

(** Its [catch] block. *)
Definition getKeyPair_catch (e : Error) : M Keys.t :=
  _ <-- log (console_warn e) ;;
  _ <-- log (console_info "Fallback to server-side generated key. Upgrade to a modern browser, to generate right from your device.") ;;
  keyPair <-- api_getKey ;;
  ret {| Keys.privateKey := unarmor (KeyPair.PrivateKey keyPair);
         Keys.publicKey := unarmor (KeyPair.PublicKey keyPair) |}.

Definition getKeyPair `{Externals} (curve : option CURVE.t) : M Keys.t :=
  try_catch (getKeyPair_try curve) getKeyPair_catch.

Definition fallback_notice : ConsoleEntry :=
  console_info "Fallback to server-side generated key. Upgrade to a modern browser, to generate right from your device.".

(** What [getKeyPair] makes of the server's answer to [getKey]. *)
Definition served_keys (reply : result KeyPair.t) : result Keys.t :=
  match reply with
  | Ok keyPair => Ok {| Keys.privateKey := unarmor (KeyPair.PrivateKey keyPair);
                        Keys.publicKey := unarmor (KeyPair.PublicKey keyPair) |}
  | Throw e => Throw e
  end.

(** The last sentence of the error-handling claim, word for word: when
    generation on the client fails, [getKeyPair] produces no key pair. *)
Definition no_substitute_key_pair : Prop :=
  forall (platform : Externals) (curve : option CURVE.t) (w w1 : World) (e : Error),
    getKeyPair_try curve w = (Throw e, w1) ->
    forall (keys : Keys.t) (w2 : World), getKeyPair curve w <> (Ok keys, w2).

(** The scalar [getX25519PrivateKey] encodes, as a function of the
    digest. *)
Definition clamped (digest : list byte) : list byte :=
  let key := take 32 digest in
  let key := Bytes.set key 0 (Z.land (Bytes.get key 0) 0xf8) in
  let key := Bytes.set key 31 (Z.land (Bytes.get key 31) 0x7f) in
  Bytes.set key 31 (Z.lor (Bytes.get key 31) 0x40).

(** *** Component state *)

(** The React state a render reads and the callbacks created by that
    render keep in their closures. *)
Record State := {
  removing : gmap string bool;
  removedCertificates : list string;
  certificates : list Certificate.t;
}.

Record Notification := { type : option string; text : string }.

(** What lives across renders: the certificate cache held in a ref, the
    DTO objects returned by [useCertificates], the identifiers
    [`c${Date.now()}-${Math.random()}`] is going to produce, the React
    state the next render will read, the notifications raised and the
    deletion requests sent. *)
Record Component := {
  certificateCache : gmap string Certificate.t;
  certificatesResult : list CertificateDTO.t;
  fresh_ids : nat -> string;
  state : State;
  notifications : list Notification;
  deletions : list CertificateDeletionParams;
}.

Definition with_cache (cache : gmap string Certificate.t) (c : Component) : Component :=
  {| certificateCache := cache; certificatesResult := certificatesResult c;
     fresh_ids := fresh_ids c; state := state c;
     notifications := notifications c; deletions := deletions c |}.

Definition with_state (s : State) (c : Component) : Component :=
  {| certificateCache := certificateCache c; certificatesResult := certificatesResult c;
     fresh_ids := fresh_ids c; state := s;
     notifications := notifications c; deletions := deletions c |}.

Definition setRemoving (v : gmap string bool) (c : Component) : Component :=
  with_state {| removing := v; removedCertificates := removedCertificates (state c);
                certificates := certificates (state c) |} c.

Definition setRemovedCertificates (v : list string) (c : Component) : Component :=
  with_state {| removing := removing (state c); removedCertificates := v;
                certificates := certificates (state c) |} c.

Definition setCertificates (v : list Certificate.t) (c : Component) : Component :=
  with_state {| removing := removing (state c);
                removedCertificates := removedCertificates (state c);
                certificates := v |} c.

Definition createNotification (n : Notification) (c : Component) : Component :=
  {| certificateCache := certificateCache c; certificatesResult := certificatesResult c;
     fresh_ids := fresh_ids c; state := state c;
     notifications := notifications c ++ [n]; deletions := deletions c |}.

(** [api(deleteCertificates(filter))]: the request is sent. *)
Definition send_deletion (filter : CertificateDeletionParams) (c : Component) : Component :=
  {| certificateCache := certificateCache c; certificatesResult := certificatesResult c;
     fresh_ids := fresh_ids c; state := state c;
     notifications := notifications c; deletions := deletions c ++ [filter] |}.

(** [a || b] on numbers. *)
Definition num_or (a b : Z) : Z := if a =? 0 then b else a.

(** [certificateCache[fingerprint]?.expirationTime || 0] *)
Definition cached_expiration (cache : gmap string Certificate.t) (fingerprint : string) : Z :=
  match cache !! fingerprint with
  | Some c => num_or (Certificate.expirationTime c) 0
  | None => 0
  end.

(** [removedCertificates.indexOf(fingerprint) !== -1] *)
Definition is_removed (removedCertificates : list string) (fingerprint : string) : bool :=
  existsb (String.eqb fingerprint) removedCertificates.

(** [certificatesResult.forEach(...)]: the loop over the DTOs, which
    threads the cache, the identifier supply and the DTOs it has
    visited (they may have been given an [id]). *)
Fixpoint cache_results `{Externals} (removedCertificates : list string) (peer : Peer.t)
    (dtos : list CertificateDTO.t) (cache : gmap string Certificate.t)
    (ids : nat -> string)
    : gmap string Certificate.t * list CertificateDTO.t * (nat -> string) :=
  match dtos with
  | [] => (cache, [], ids)
  | certificateDto :: rest =>
      let fingerprint := CertificateDTO.ClientKeyFingerprint certificateDto in
      if is_removed removedCertificates fingerprint
         || (CertificateDTO.ExpirationTime certificateDto <? cached_expiration cache fingerprint)
      then
        let '(cache', rest', ids') := cache_results removedCertificates peer rest cache ids in
        (cache', certificateDto :: rest', ids')
      else
        let '(certificate, certificateDto') :=
          getCertificateModel (ids 0%nat) certificateDto peer None None in
        let '(cache', rest', ids') :=
          cache_results removedCertificates peer rest
            (<[fingerprint := certificate]> cache) (fun k => ids (S k)) in
        (cache', certificateDto' :: rest', ids')
  end.

(** [certificates.forEach(...)] *)
Fixpoint cache_certificates (removedCertificates : list string)
    (certs : list Certificate.t) (cache : gmap string Certificate.t)
    : gmap string Certificate.t :=
  match certs with
  | [] => cache
  | certificate :: rest =>
      let fingerprint := Certificate.publicKeyFingerprint certificate in
      if is_removed removedCertificates fingerprint
         || (Certificate.expirationTime certificate <? cached_expiration cache fingerprint)
      then cache_certificates removedCertificates rest cache
      else cache_certificates removedCertificates rest (<[fingerprint := certificate]> cache)
  end.

(** [Object.values(certificateCache)].  The cache is a plain object used
    as a map from fingerprints to certificates, and is modelled as a finite
    map: the enumeration order of the keys is not modelled, nor is the key
    [__proto__], under which an assignment sets the prototype of the object
    and [Object.values] lists nothing; statements that depend on it assume
    [ordinary_keys]. *)
Definition Object_values (cache : gmap string Certificate.t) : list Certificate.t :=
  (map_to_list cache).*2.

(** Called while rendering, so [removedCertificates] and [certificates]
    are those of the current state. *)
Definition getCertificates `{Externals} (peer : Peer.t) (c : Component)
    : list Certificate.t * Component :=
  let removed := removedCertificates (state c) in
  let '(cache, dtos, ids) :=
    cache_results removed peer (certificatesResult c) (certificateCache c) (fresh_ids c) in
  let cache := cache_certificates removed (certificates (state c)) cache in
  (Object_values cache,
   {| certificateCache := cache; certificatesResult := dtos; fresh_ids := ids;
      state := state c; notifications := notifications c; deletions := deletions c |}).

(** *** Revocation *)

Definition getDeleteFilter (certificate : Certificate.t) : CertificateDeletionParams :=
  if JsString.truthy (Certificate.serialNumber certificate)
  then SerialNumber (Certificate.serialNumber certificate)
  else if JsString.truthy (Certificate.publicKeyFingerprint certificate)
  then ClientPublicKeyFingerprint (Certificate.publicKeyFingerprint certificate)
  else ClientPublicKey (Certificate.publicKey certificate).

Definition revokeCertificate (name : string) : Component -> Component :=
  createNotification {| type := None; text := "Certificate " +:+ name +:+ " revoked" |}.

(** The callback [askForRevocation(certificate)] created by a render
    whose state was [render].  [confirmation] is the outcome of the
    confirmation modal (resolved on confirm, rejected on close) and
    [server] the outcome of the deletion request, whose payload is the
    [Count] field of the answer. *)
Definition askForRevocation (render : State) (certificate : Certificate.t)
    (confirmation : result unit) (server : CertificateDeletionParams -> result Z)
    (c : Component) : Component :=
  let fingerprint := Certificate.publicKeyFingerprint certificate in
  let key :=
    JsString.or (JsString.or fingerprint (Certificate.publicKey certificate))
                (Certificate.id certificate) in
  let c := setRemoving (<[key := true]> (removing render)) c in
  let end_ := setRemoving (delete key (removing render)) in
  let name :=
    JsString.or
      (JsString.or (JsString.or_opt (Certificate.name certificate) fingerprint)
                   (Certificate.publicKey certificate)) "" in
  match confirmation with
  | Throw _ => end_ c
  | Ok _ =>
      let params := getDeleteFilter certificate in
      let c := send_deletion params c in
      match server params with
      | Throw _ => end_ c
      | Ok Count =>
          if Count =? 0 then
            let c :=
              createNotification
                {| type := Some "warning";
                   text := "Certificate " +:+ name +:+ " not found or already revoked" |} c in
            end_ (end_ c)
          else
            let c := with_cache (delete fingerprint (certificateCache c)) c in
            let c := setRemovedCertificates (removedCertificates render ++ [fingerprint]) c in
            let c :=
              setCertificates
                (List.filter
                   (fun c' => negb (String.eqb (Certificate.id c') (Certificate.id certificate)))
                   (certificates render)) c in
            let c := revokeCertificate name c in
            end_ c
      end
  end.

(** The certificate state a revocation may change. *)
Definition same_certificates (c c' : Component) : Prop :=
  certificateCache c' = certificateCache c
  /\ removedCertificates (state c') = removedCertificates (state c)
  /\ certificates (state c') = certificates (state c).

Definition revocation_name (certificate : Certificate.t) : string :=
  JsString.or
    (JsString.or
       (JsString.or_opt (Certificate.name certificate)
                        (Certificate.publicKeyFingerprint certificate))
       (Certificate.publicKey certificate)) "".

Definition not_found_warning (certificate : Certificate.t) : Notification :=
  {| type := Some "warning";
     text := "Certificate " +:+ revocation_name certificate
             +:+ " not found or already revoked" |}.

Definition revoked_notice (certificate : Certificate.t) : Notification :=
  {| type := None; text := "Certificate " +:+ revocation_name certificate +:+ " revoked" |}.

(** No cached certificate has a revoked fingerprint. *)
Definition cache_clean (removedCertificates : list string)
    (cache : gmap string Certificate.t) : bool :=
  forallb (fun cert => negb (is_removed removedCertificates
                               (Certificate.publicKeyFingerprint cert)))
          (Object_values cache).

(** [cache'] comes from [cache] by insertions that respect the revoked
    fingerprints and the expiration times: an entry is kept, or replaced
    by a certificate filed under its own fingerprint, which is not
    revoked, and which expires no earlier. *)
Definition cache_grows (removedCertificates : list string)
    (cache cache' : gmap string Certificate.t) : Prop :=
  forall k,
    match cache' !! k with
    | None => cache !! k = None
    | Some new =>
        match cache !! k with
        | Some old =>
            new = old
            \/ (Certificate.publicKeyFingerprint new = k
                /\ ~ In k removedCertificates
                /\ Certificate.expirationTime old <= Certificate.expirationTime new)
        | None => Certificate.publicKeyFingerprint new = k /\ ~ In k removedCertificates
        end
    end.

(** Every entry of the cache is filed under the fingerprint of its
    certificate. *)
Definition cache_keyed (cache : gmap string Certificate.t) : Prop :=
  forall k cert, cache !! k = Some cert -> Certificate.publicKeyFingerprint cert = k.

(** The component before its first render. *)
Definition mounted (ids : nat -> string) : Component :=
  {| certificateCache := ∅; certificatesResult := []; fresh_ids := ids;
     state := {| removing := ∅; removedCertificates := []; certificates := [] |};
     notifications := []; deletions := [] |}.

(** [useCertificates] returning another list. *)
Definition with_results (dtos : list CertificateDTO.t) (c : Component) : Component :=
  {| certificateCache := certificateCache c; certificatesResult := dtos;
     fresh_ids := fresh_ids c; state := state c;
     notifications := notifications c; deletions := deletions c |}.

(** *** The life of the component *)

(** A render that shows the list: the state it read, which the callbacks
    it creates keep in their closures, and the certificates it listed. *)
Record Rendered := { captured : State; listed : list Certificate.t }.

(** A revocation under way: the state its callback captured and the
    certificate it revokes. *)
Record Pending := { closure : State; revoked : Certificate.t }.

(** The component, the renders it has gone through and the revocations
    under way. *)
Record Session := {
  page : Component;
  renders : list Rendered;
  pending : list Pending;
}.

Definition started (ids : nat -> string) : Session :=
  {| page := mounted ids; renders := []; pending := [] |}.

(** [certificate.publicKeyFingerprint || certificate.publicKey || certificate.id] *)
Definition removing_key (certificate : Certificate.t) : string :=
  JsString.or
    (JsString.or (Certificate.publicKeyFingerprint certificate)
                 (Certificate.publicKey certificate))
    (Certificate.id certificate).

(** The render shows the button that revokes [certificate]: the
    certificate is listed, it has a serial number, a fingerprint or a public
    key, and [removing] does not show it as being removed. *)
Definition revocable (r : Rendered) (certificate : Certificate.t) : Prop :=
  In certificate (listed r)
  /\ JsString.truthy
       (JsString.or
          (JsString.or (Certificate.serialNumber certificate)
                       (Certificate.publicKeyFingerprint certificate))
          (Certificate.publicKey certificate)) = true
  /\ removing (captured r) !! removing_key certificate <> Some true.

(** A render of the list. *)
Definition rendered `{Externals} (peer : Peer.t) (s : Session) : Session :=
  {| page := snd (getCertificates peer (page s));
     renders := {| captured := state (page s);
                   listed := fst (getCertificates peer (page s)) |} :: renders s;
     pending := pending s |}.

(** A click on the button a render shows for [certificate]: the callback
    runs up to the confirmation modal. *)
Definition clicked (r : Rendered) (certificate : Certificate.t) (s : Session) : Session :=
  {| page := setRemoving (<[removing_key certificate := true]> (removing (captured r)))
                         (page s);
     renders := renders s;
     pending := pending s ++ [{| closure := captured r; revoked := certificate |}] |}.

(** The revocation [p] runs to its end, with the state its callback
    captured.  What it wrote to [removing] at the click it overwrites at
    its end. *)
Definition finished (before after : list Pending) (p : Pending)
    (confirmation : result unit) (server : CertificateDeletionParams -> result Z)
    (s : Session) : Session :=
  {| page := askForRevocation (closure p) (revoked p) confirmation server (page s);
     renders := renders s;
     pending := before ++ after |}.

(** [useCertificates] returns another list. *)
Definition fetched (dtos : list CertificateDTO.t) (s : Session) : Session :=
  {| page := with_results dtos (page s); renders := renders s; pending := pending s |}.

(** A creation or an extension started from the render [r] succeeds: it
    appends its certificate to the certificates it captured and raises its
    notification. *)
Definition created (r : Rendered) (certificate : Certificate.t) (notice : Notification)
    (s : Session) : Session :=
  {| page := createNotification notice
               (setCertificates (certificates (captured r) ++ [certificate]) (page s));
     renders := renders s;
     pending := pending s |}.

(** What can happen to the component.  Callbacks belong to a render that
    has taken place and write what that render read, not what the state has
    become since. *)
Inductive step `{Externals} : Session -> Session -> Prop :=
| step_render (peer : Peer.t) (s : Session) :
    step s (rendered peer s)
| step_click (r : Rendered) (certificate : Certificate.t) (s : Session) :
    In r (renders s) -> revocable r certificate ->
    step s (clicked r certificate s)
| step_finish (before after : list Pending) (p : Pending) (confirmation : result unit)
    (server : CertificateDeletionParams -> result Z) (s : Session) :
    pending s = before ++ p :: after ->
    step s (finished before after p confirmation server s)
| step_fetch (dtos : list CertificateDTO.t) (s : Session) :
    step s (fetched dtos s)
| step_create (r : Rendered) (certificate : Certificate.t) (notice : Notification)
    (s : Session) :
    In r (renders s) ->
    step s (created r certificate notice s).

Inductive reachable `{Externals} : Session -> Prop :=
| reachable_started (ids : nat -> string) : reachable (started ids)
| reachable_step (s s' : Session) : reachable s -> step s s' -> reachable s'.

(** What can happen to the component in several steps. *)
Inductive steps `{Externals} : Session -> Session -> Prop :=
| steps_done (s : Session) : steps s s
| steps_next (s s' s'' : Session) : step s s' -> steps s' s'' -> steps s s''.

(** The component as it is, with the renders and the revocations of the
    past forgotten: what comes next belongs to renders still to come. *)
Definition afresh (c : Component) : Session :=
  {| page := c; renders := []; pending := [] |}.

(** The fingerprint is known as revoked to the state, to every render
    and to every revocation under way, and no cached certificate has
    it. *)
Definition gone (fingerprint : string) (s : Session) : Prop :=
  In fingerprint (removedCertificates (state (page s)))
  /\ (forall r, In r (renders s) -> In fingerprint (removedCertificates (captured r)))
  /\ (forall p, In p (pending s) -> In fingerprint (removedCertificates (closure p)))
  /\ (forall k cert, certificateCache (page s) !! k = Some cert ->
                     Certificate.publicKeyFingerprint cert <> fingerprint).

(** The claim on what is returned, as it is worded: whenever the
    component calls [getCertificates], no certificate returned has its
    fingerprint in [removedCertificates]. *)
Definition never_returns_revoked : Prop :=
  forall (platform : Externals) (s : Session) (peer : Peer.t) (cert : Certificate.t),
    reachable s ->
    In cert (fst (getCertificates peer (page s))) ->
    ~ In (Certificate.publicKeyFingerprint cert) (removedCertificates (state (page s))).

(** No fingerprint at hand is [__proto__], the one key under which an
    assignment to a plain object sets its prototype and not a property. *)
Definition ordinary_keys (c : Component) : Prop :=
  certificateCache c !! "__proto__" = None
  /\ Forall (fun dto => CertificateDTO.ClientKeyFingerprint dto <> "__proto__")
            (certificatesResult c)
  /\ Forall (fun cert => Certificate.publicKeyFingerprint cert <> "__proto__")
            (certificates (state c)).

(** *** Creating and extending a certificate *)

(** The body of a [generateCertificate] request. *)
Module CertificateRequest.
Record t := {
  ClientPublicKey : string;
  Mode : string;
  DeviceName : option string;
  Features : option Features;
  Renew : bool;
}.
End CertificateRequest.

(** What a render hands to the callbacks it creates, beside [State]: the
    [creating] flag, the peer, the platform, and the entries
    [getFeatureKeys().map(...)] makes of the features configuration, which
    is built from [./feature]. *)
Module Render.
Record t := {
  state : State;
  creating : bool;
  peer : Peer.t;
  platform : PLATFORM;
  selected : Features;
}.
End Render.

(** The component with what creating a certificate touches: the
    generator and the server of the key pair, the [creating] and
    [currentCertificate] states, the value of the name input, [None] while
    [nameInputRef.current] is null, the server's answer to a
    [generateCertificate] request with the requests sent, and the
    identifiers of the certificates the page was asked to scroll to. *)
Record Form := {
  component : Component;
  world : World;
  creating : bool;
  currentCertificate : option string;
  nameInput : option string;
  generateCertificate_reply : CertificateRequest.t -> result CertificateDTO.t;
  generateCertificate_requests : list CertificateRequest.t;
  scrolled : list string;
}.

Definition on_component (g : Component -> Component) (f : Form) : Form :=
  {| component := g (component f); world := world f; creating := creating f;
     currentCertificate := currentCertificate f; nameInput := nameInput f;
     generateCertificate_reply := generateCertificate_reply f;
     generateCertificate_requests := generateCertificate_requests f;
     scrolled := scrolled f |}.

Definition with_world (w : World) (f : Form) : Form :=
  {| component := component f; world := w; creating := creating f;
     currentCertificate := currentCertificate f; nameInput := nameInput f;
     generateCertificate_reply := generateCertificate_reply f;
     generateCertificate_requests := generateCertificate_requests f;
     scrolled := scrolled f |}.

Definition setCreating (v : bool) (f : Form) : Form :=
  {| component := component f; world := world f; creating := v;
     currentCertificate := currentCertificate f; nameInput := nameInput f;
     generateCertificate_reply := generateCertificate_reply f;
     generateCertificate_requests := generateCertificate_requests f;
     scrolled := scrolled f |}.

Definition setCurrentCertificate (v : option string) (f : Form) : Form :=
  {| component := component f; world := world f; creating := creating f;
     currentCertificate := v; nameInput := nameInput f;
     generateCertificate_reply := generateCertificate_reply f;
     generateCertificate_requests := generateCertificate_requests f;
     scrolled := scrolled f |}.

(** [if (nameInputRef?.current) { nameInputRef.current.value = ''; }] *)
Definition clear_nameInput (f : Form) : Form :=
  {| component := component f; world := world f; creating := creating f;
     currentCertificate := currentCertificate f;
     nameInput := match nameInput f with Some _ => Some "" | None => None end;
     generateCertificate_reply := generateCertificate_reply f;
     generateCertificate_requests := generateCertificate_requests f;
     scrolled := scrolled f |}.

(** [document.querySelector(`[data-certificate-id="${id}"]`)?.scrollIntoView()] *)
Definition scrollIntoView (id : string) (f : Form) : Form :=
  {| component := component f; world := world f; creating := creating f;
     currentCertificate := currentCertificate f; nameInput := nameInput f;
     generateCertificate_reply := generateCertificate_reply f;
     generateCertificate_requests := generateCertificate_requests f;
     scrolled := scrolled f ++ [id] |}.

Definition modify {S} (g : S -> S) : Eff S unit := fun s => (Ok tt, g s).
Definition gets {S A} (g : S -> A) : Eff S A := fun s => (Ok (g s), s).

(** [try { body } finally { final }] where [final] does not throw. *)
Definition try_finally {S A} (body : Eff S A) (final : S -> S) : Eff S A :=
  fun s => let '(r, s') := body s in (r, final s').

Definition in_world {A} (m : M A) : Eff Form A :=
  fun f => let '(r, w) := m (world f) in (r, with_world w f).

(** [`c${Date.now()}-${Math.random()}`], should [getCertificateModel]
    need it. *)
Definition next_id : Eff Form string :=
  fun f =>
    (Ok (fresh_ids (component f) 0%nat),
     on_component
       (fun c => {| certificateCache := certificateCache c;
                    certificatesResult := certificatesResult c;
                    fresh_ids := fun k => fresh_ids c (S k);
                    state := state c; notifications := notifications c;
                    deletions := deletions c |}) f).

Definition queryCertificate (publicKey : string) (deviceName : option string)
    (features : option Features) (renew : bool) : Eff Form CertificateDTO.t :=
  fun f =>
    let request :=
      {| CertificateRequest.ClientPublicKey := publicKey;
         CertificateRequest.Mode := "persistent";
         CertificateRequest.DeviceName := deviceName;
         CertificateRequest.Features := features;
         CertificateRequest.Renew := renew |} in
    (generateCertificate_reply f request,
     {| component := component f; world := world f; creating := creating f;
        currentCertificate := currentCertificate f; nameInput := nameInput f;
        generateCertificate_reply := generateCertificate_reply f;
        generateCertificate_requests := generateCertificate_requests f ++ [request];
        scrolled := scrolled f |}).

(** [o[key] = value] on an object: an own key keeps its place. *)
Fixpoint set_feature (o : Features) (key : string) (value : FeatureValue) : Features :=
  match o with
  | [] => [(key, value)]
  | (k, v) :: rest =>
      if String.eqb k key then (k, value) :: rest else (k, v) :: set_feature rest key value
  end.

(** [Object.assign(target, source)] *)
Definition Object_assign (target source : Features) : Features :=
  fold_left (fun o kv => set_feature o (fst kv) (snd kv)) source target.

(** The peer state is always an object, so [addedPeer || peer] is never
    falsy and the four extra keys are always assigned. *)
Definition getFeatureValues (r : Render.t) (addedPeer : option Peer.t) : Features :=
  let peerFeatures := default (Render.peer r) addedPeer in
  Object_assign (Render.selected r)
    [ ("peerName", FStr (Peer.name peerFeatures));
      ("peerIp", FStr (Peer.ip peerFeatures));
      ("peerPublicKey", FStr (Peer.publicKey peerFeatures));
      ("platform", FStr (PLATFORM_value (Render.platform r))) ].

(** [if (!certificate.DeviceName) { certificate.DeviceName = deviceName; }] *)
Definition default_DeviceName (certificate : CertificateDTO.t) (deviceName : string)
    : CertificateDTO.t :=
  if name_truthy (CertificateDTO.DeviceName certificate) then certificate
  else {| CertificateDTO.id := CertificateDTO.id certificate;
          CertificateDTO.DeviceName := Some deviceName;
          CertificateDTO.Features := CertificateDTO.Features certificate;
          CertificateDTO.SerialNumber := CertificateDTO.SerialNumber certificate;
          CertificateDTO.ClientKey := CertificateDTO.ClientKey certificate;
          CertificateDTO.ClientKeyFingerprint := CertificateDTO.ClientKeyFingerprint certificate;
          CertificateDTO.ExpirationTime := CertificateDTO.ExpirationTime certificate |}.

Definition quote : string := String (ascii_of_nat 34) "".

Definition created_notice (name : string) : Notification :=
  {| type := None;
     text := "Config " +:+ quote +:+ name +:+ quote
             +:+ " created, note that the private key is not stored and won't be shown again, you should copy or download this config." |}.

(** The [try] block of [add]. *)
Definition add_try `{Externals} (curve : option CURVE.t) (r : Render.t)
    (addedPeer : option Peer.t) : Eff Form unit :=
  keys <-- in_world (getKeyPair curve) ;;
  x25519PrivateKey <-- lift (getX25519PrivateKey (Keys.privateKey keys)) ;;
  deviceName <-- gets (fun f => JsString.or_opt (nameInput f) "") ;;
  certificate <-- queryCertificate (Keys.publicKey keys) (Some deviceName)
                    (Some (getFeatureValues r addedPeer)) false ;;
  let certificate := default_DeviceName certificate deviceName in
  fresh <-- next_id ;;
  let newCertificate :=
    fst (getCertificateModel fresh certificate (Render.peer r) (Some x25519PrivateKey) None) in
  let id := Certificate.id newCertificate in
  let name :=
    JsString.or
      (JsString.or_opt (Certificate.name newCertificate)
                       (Certificate.publicKeyFingerprint newCertificate))
      (Certificate.publicKey newCertificate) in
  _ <-- modify (on_component (createNotification (created_notice name))) ;;
  _ <-- modify (setCurrentCertificate (Some id)) ;;
  _ <-- modify (on_component
                  (setCertificates (certificates (Render.state r) ++ [newCertificate]))) ;;
  _ <-- modify (scrollIntoView id) ;;
  modify clear_nameInput.

Definition add `{Externals} (curve : option CURVE.t) (r : Render.t)
    (addedPeer : option Peer.t) : Eff Form unit :=
  if Render.creating r then ret tt
  else
    _ <-- modify (setCreating true) ;;
    try_finally (add_try curve r addedPeer) (setCreating false).

(** [readableTime] of [@proton/shared/lib/helpers/time]. *)
Class Helpers := {
  readableTime : Z -> string -> string;
}.

Definition extended_notice `{Helpers} (expirationTime : Z) : Notification :=
  {| type := None;
     text := "Certificate extended until " +:+ readableTime expirationTime "PPp" |}.

(** The [try] block of the callback [getExtendCallback(certificate)]
    returns. *)
Definition extend_try `{Externals} `{Helpers} (r : Render.t) (certificate : Certificate.t)
    : Eff Form unit :=
  renewedCertificate <--
    queryCertificate (Certificate.publicKey certificate) (Certificate.name certificate)
      (Some (match Certificate.features certificate with
             | Some features => features
             | None => getFeatureValues r None
             end)) true ;;
  deviceName <-- gets (fun f => JsString.or_opt (nameInput f) "") ;;
  let renewedCertificate := default_DeviceName renewedCertificate deviceName in
  fresh <-- next_id ;;
  let newCertificate :=
    fst (getCertificateModel fresh renewedCertificate (Render.peer r)
           (Some (Certificate.privateKey certificate)) None) in
  _ <-- modify (on_component
                  (setCertificates (certificates (Render.state r) ++ [newCertificate]))) ;;
  _ <-- modify (setCurrentCertificate (Some (Certificate.id newCertificate))) ;;
  modify (on_component
            (createNotification (extended_notice (Certificate.expirationTime newCertificate)))).

Definition getExtendCallback `{Externals} `{Helpers} (r : Render.t)
    (certificate : Certificate.t) : Eff Form unit :=
  if Render.creating r then ret tt
  else
    _ <-- modify (setCreating true) ;;
    try_finally (extend_try r certificate) (setCreating false).

(** What a call that fails may leave behind: what the generator, the
    console and the servers have seen; the page shows what it showed. *)
Definition untouched (f f' : Form) : Prop :=
  component f' = component f
  /\ currentCertificate f' = currentCertificate f
  /\ nameInput f' = nameInput f
  /\ scrolled f' = scrolled f
  /\ generateCertificate_reply f' = generateCertificate_reply f.

(** The request [add] sends for a key pair. *)
Definition add_request (r : Render.t) (addedPeer : option Peer.t) (f : Form)
    (keys : Keys.t) : CertificateRequest.t :=
  {| CertificateRequest.ClientPublicKey := Keys.publicKey keys;
     CertificateRequest.Mode := "persistent";
     CertificateRequest.DeviceName := Some (JsString.or_opt (nameInput f) "");
     CertificateRequest.Features := Some (getFeatureValues r addedPeer);
     CertificateRequest.Renew := false |}.

(** The request an extension of [certificate] sends. *)
Definition extend_request (r : Render.t) (certificate : Certificate.t)
    : CertificateRequest.t :=
  {| CertificateRequest.ClientPublicKey := Certificate.publicKey certificate;
     CertificateRequest.Mode := "persistent";
     CertificateRequest.DeviceName := Certificate.name certificate;
     CertificateRequest.Features :=
       Some (match Certificate.features certificate with
             | Some features => features
             | None => getFeatureValues r None
             end);
     CertificateRequest.Renew := true |}.

(** *** The best server *)

(** The fields of a server and of a logical server ([../Logical]) the
    component reads.  [Features] is a bit mask and [Score] a finite
    number. *)
Module Server.
Record t := { X25519PublicKey : option string; EntryIP : string }.
End Server.

Module LogicalServer.
Record t := {
  Name : string;
  Tier : Z;
  Features : Z;
  Score : Q;
  Servers : option (list Server.t);
}.
End LogicalServer.

(** [{ ...logical, Servers: (logical.Servers || []).filter((server) => server.X25519PublicKey) }] *)
Definition with_key_servers (logical : LogicalServer.t) : LogicalServer.t :=
  {| LogicalServer.Name := LogicalServer.Name logical;
     LogicalServer.Tier := LogicalServer.Tier logical;
     LogicalServer.Features := LogicalServer.Features logical;
     LogicalServer.Score := LogicalServer.Score logical;
     LogicalServer.Servers :=
       Some (List.filter (fun server => name_truthy (Server.X25519PublicKey server))
                         (default [] (LogicalServer.Servers logical))) |}.

Definition logicals (logicalInfoLoading : bool) (LogicalServers : list LogicalServer.t)
    : list LogicalServer.t :=
  List.filter
    (fun logical => negb (Nat.eqb (length (default [] (LogicalServer.Servers logical))) 0))
    (map with_key_servers (if logicalInfoLoading then [] else LogicalServers)).

(** [server.Tier <= maxTier && (server.Features & 3) === 0] *)
Definition eligible (maxTier : Z) (server : LogicalServer.t) : bool :=
  (LogicalServer.Tier server <=? maxTier) && (Z.land (LogicalServer.Features server) 3 =? 0).

(** [sort((a, b) => a.Score - b.Score)]: the sort is stable, so an
    element goes before the first one whose score is not smaller. *)
Fixpoint sort_insert (a : LogicalServer.t) (sorted : list LogicalServer.t)
    : list LogicalServer.t :=
  match sorted with
  | [] => [a]
  | b :: rest =>
      if Qle_bool (LogicalServer.Score a) (LogicalServer.Score b) then a :: b :: rest
      else b :: sort_insert a rest
  end.

Fixpoint sort_by_Score (l : list LogicalServer.t) : list LogicalServer.t :=
  match l with
  | [] => []
  | a :: rest => sort_insert a (sort_by_Score rest)
  end.

Definition bestLogicals (maxTier : Z) (logicals : list LogicalServer.t)
    : list LogicalServer.t :=
  sort_by_Score (List.filter (eligible maxTier) logicals).

(** [bestLogicals[0]] *)
Definition bestLogical (maxTier : Z) (logicals : list LogicalServer.t)
    : option LogicalServer.t :=
  head (bestLogicals maxTier logicals).

(** *** One fingerprint at a time *)

(** [entry?.expirationTime || 0] *)
Definition entry_expiration (entry : option Certificate.t) : Z :=
  match entry with
  | Some c => num_or (Certificate.expirationTime c) 0
  | None => 0
  end.

(** What an iteration of the two loops of [getCertificates] does to the
    entry of the cache under [fingerprint]. *)
Definition assigns (removedCertificates : list string) (fingerprint : string)
    (entry : option Certificate.t) (certificate : Certificate.t) : bool :=
  String.eqb (Certificate.publicKeyFingerprint certificate) fingerprint
  && negb (is_removed removedCertificates (Certificate.publicKeyFingerprint certificate)
           || (Certificate.expirationTime certificate <? entry_expiration entry)).

Definition file (removedCertificates : list string) (fingerprint : string)
    (entry : option Certificate.t) (certificate : Certificate.t) : option Certificate.t :=
  if assigns removedCertificates fingerprint entry certificate then Some certificate
  else entry.

(** The certificate a DTO that has its identifier stands for. *)
Definition model_of `{Externals} (peer : Peer.t) (dto : CertificateDTO.t) : Certificate.t :=
  fst (getCertificateModel "" dto peer None None).

(** The identifiers [`c${Date.now()}-${Math.random()}`] can produce are
    not empty. *)
Definition ids_truthy (ids : nat -> string) : Prop :=
  forall k, JsString.truthy (ids k) = true.

(** A DTO the loop has settled: it has its identifier, or it is skipped
    with this cache. *)
Definition settled (removedCertificates : list string) (cache : gmap string Certificate.t)
    (dto : CertificateDTO.t) : Prop :=
  name_truthy (CertificateDTO.id dto) = true
  \/ is_removed removedCertificates (CertificateDTO.ClientKeyFingerprint dto)
     || (CertificateDTO.ExpirationTime dto
         <? cached_expiration cache (CertificateDTO.ClientKeyFingerprint dto)) = true.

End WireGuard.

(** ** logical.tsx *)

Module Logical.

Definition ending : string := ".ltr.css".

(** What the shim asks of the browser: [window.location.origin], the
    serialisation [new URL(src, base).toString()], which throws a
    TypeError on a string that is not a URL, and [CSS.supports]. *)
Class Browser := {
  origin : string;
  URL_toString : string -> string -> result string;
  CSS_supports : string -> bool;
}.

(** An [HTMLLinkElement]; [href] is the reflected property. *)
Record HTMLLinkElement := { rel : string; href : string }.

Inductive Node :=
| Link (el : HTMLLinkElement)
| Element (tag : string)
| CharacterData (type : Z).

Definition nodeType (node : Node) : Z :=
  match node with
  | Link _ | Element _ => 1
  | CharacterData t => t
  end.

Definition tagName (node : Node) : option string :=
  match node with
  | Link _ => Some "LINK"
  | Element t => Some t
  | CharacterData _ => None
  end.

(** The document: its nodes, referred to by position, and
    whether the shim's MutationObserver is observing [document.head]. *)
Record Page := { nodes : list Node; observing : bool }.

Definition getIsNonEnding `{Browser} (src : string) : result bool :=
  match URL_toString src origin with
  | Throw e => Throw e
  | Ok url =>
      Ok (JsString.startsWith url origin
          && JsString.endsWith url ".css"
          && negb (JsString.endsWith url ending))
  end.

(** The attribute selector [[rel=stylesheet]]: in an HTML document the
    value of [rel] is compared ASCII case-insensitively, so the selector
    also matches [rel="STYLESHEET"]; it does not match a [rel] that holds
    more than this one word. *)
Definition matches_selector (el : HTMLLinkElement) : bool :=
  JsString.eqb_ascii_case_insensitive (rel el) "stylesheet".

(** [document.querySelectorAll('link[rel=stylesheet]')], as positions. *)
Fixpoint querySelectorAll_stylesheets (at_ : nat) (l : list Node) : list (nat * HTMLLinkElement) :=
  match l with
  | [] => []
  | Link el :: rest =>
      if matches_selector el
      then (at_, el) :: querySelectorAll_stylesheets (S at_) rest
      else querySelectorAll_stylesheets (S at_) rest
  | _ :: rest => querySelectorAll_stylesheets (S at_) rest
  end.

(** [array.filter(pred)] with a predicate that may throw. *)
Fixpoint filter_throwing {A} (pred : A -> result bool) (l : list A) : result (list A) :=
  match l with
  | [] => Ok []
  | x :: rest =>
      match pred x with
      | Throw e => Throw e
      | Ok keep =>
          match filter_throwing pred rest with
          | Throw e => Throw e
          | Ok rest' => Ok (if keep then x :: rest' else rest')
          end
      end
  end.

Definition queryLocalLinkElements `{Browser} : Eff Page (list nat) :=
  fun p =>
    match filter_throwing (fun node => getIsNonEnding (href (snd node)))
                          (querySelectorAll_stylesheets 0 (nodes p)) with
    | Throw e => (Throw e, p)
    | Ok found => (Ok (map fst found), p)
    end.

(** [el.href = el.href.replace(/\.css/, ending)] on the element at [el]. *)
Definition mutateLinkElement (el : nat) : Eff Page unit :=
  fun p =>
    match nodes p !! el with
    | Some (Link e) =>
        let e' := {| rel := rel e; href := JsString.replace_first ".css" ending (href e) |} in
        (Ok tt, {| nodes := <[el := Link e']> (nodes p); observing := observing p |})
    | _ => (Ok tt, p)
    end.

Definition getIsNonEndingLinkElement `{Browser} (node : Node) : result bool :=
  match node with
  | Link el =>
      if (nodeType node =? 1) && bool_decide (tagName node = Some "LINK")
         && String.eqb (rel el) "stylesheet"
      then getIsNonEnding (href el)
      else Ok false
  | _ => Ok false
  end.

(** The body of the inner loop of the observer: [node] is the position
    of an added node. *)
Definition on_added_node `{Browser} (node : nat) : Eff Page unit :=
  fun p =>
    match nodes p !! node with
    | None => (Ok tt, p)
    | Some n =>
        match getIsNonEndingLinkElement n with
        | Throw e => (Throw e, p)
        | Ok true => mutateLinkElement node p
        | Ok false => (Ok tt, p)
        end
    end.

(** The callback given to the MutationObserver; a mutation record is the
    list of the positions of its added nodes. *)
Definition observer_callback `{Browser} (mutations : list (list nat)) : Eff Page unit :=
  forEach (fun addedNodes => forEach on_added_node addedNodes) mutations.

Definition observe : Eff Page unit :=
  fun p => (Ok tt, {| nodes := nodes p; observing := true |}).

Definition initLogicalProperties `{Browser} : Eff Page unit :=
  if CSS_supports "(border-start-start-radius: 1em)" then ret tt
  else
    found <-- queryLocalLinkElements ;;
    _ <-- forEach mutateLinkElement found ;;
    observe.

(** The browser inserting [added] as children of [document.head]: the
    nodes join the document, then the observer, if there is one, is
    called with one record listing them. *)
Definition head_append `{Browser} (added : list Node) : Eff Page unit :=
  fun p =>
    let first := length (nodes p) in
    let p' := {| nodes := nodes p ++ added; observing := observing p |} in
    if observing p
    then observer_callback [seq first (length added)] p'
    else (Ok tt, p').

(** The condition the shim asks [CSS.supports] about. *)
Definition logical_radius : string := "(border-start-start-radius: 1em)".

(** The links the observer rewrites among the nodes added later: links
    whose [rel] is the string [stylesheet] and whose resolved URL begins
    with the origin, ends with [.css] and does not end with [.ltr.css]. *)
Definition targeted `{Browser} (node : Node) : bool :=
  match node with
  | Link el =>
      String.eqb (rel el) "stylesheet"
      && match URL_toString (href el) origin with
         | Ok url =>
             JsString.startsWith url origin
             && JsString.endsWith url ".css"
             && negb (JsString.endsWith url ".ltr.css")
         | Throw _ => false
         end
  | _ => false
  end.

(** A targeted link with the first [.css] of its href replaced by
    [.ltr.css]; any other node as it is. *)
Definition rewritten `{Browser} (node : Node) : Node :=
  match node with
  | Link el =>
      if targeted node
      then Link {| rel := rel el;
                   href := JsString.replace_first ".css" ".ltr.css" (href el) |}
      else node
  | _ => node
  end.

(** The href of a link whose [rel] is the string [stylesheet] is a URL
    the browser can resolve. *)
Definition resolvable `{Browser} (node : Node) : bool :=
  match node with
  | Link el =>
      if String.eqb (rel el) "stylesheet"
      then match URL_toString (href el) origin with Ok _ => true | Throw _ => false end
      else true
  | _ => true
  end.

(** The same three notions for the links present at call time, which
    are found by the selector. *)
Definition targeted_at_call `{Browser} (node : Node) : bool :=
  match node with
  | Link el =>
      matches_selector el
      && match URL_toString (href el) origin with
         | Ok url =>
             JsString.startsWith url origin
             && JsString.endsWith url ".css"
             && negb (JsString.endsWith url ".ltr.css")
         | Throw _ => false
         end
  | _ => false
  end.


Definition resolvable_at_call `{Browser} (node : Node) : bool :=
  match node with
  | Link el =>
      if matches_selector el
      then match URL_toString (href el) origin with Ok _ => true | Throw _ => false end
      else true
  | _ => true
  end.



End Logical.

(** ** DownloadProvider.tsx *)

Module DownloadProvider.

(** What the hook [useDownload] returns; [Download] is the type of a
    transfer and [Fn] the type of the callbacks, which the provider hands
    on without calling them. *)
Module Hook.
Record t (Download Fn : Type) := {
  downloads : list Download;
  hasDownloads : bool;
  download : Fn;
  getProgresses : Fn;
  getLinksProgress : Fn;
  pauseDownloads : Fn;
  resumeDownloads : Fn;
  cancelDownloads : Fn;
  restartDownloads : Fn;
  removeDownloads : Fn;
  clearDownloads : Fn;
}.
Arguments downloads {Download Fn} _.
Arguments hasDownloads {Download Fn} _.
Arguments download {Download Fn} _.
Arguments getProgresses {Download Fn} _.
Arguments getLinksProgress {Download Fn} _.
Arguments pauseDownloads {Download Fn} _.
Arguments resumeDownloads {Download Fn} _.
Arguments cancelDownloads {Download Fn} _.
Arguments restartDownloads {Download Fn} _.
Arguments removeDownloads {Download Fn} _.
Arguments clearDownloads {Download Fn} _.
End Hook.

Record DownloadProviderState (Download Fn : Type) := {
  downloads : list Download;
  hasDownloads : bool;
  download : Fn;
  pauseDownloads : Fn;
  resumeDownloads : Fn;
  cancelDownloads : Fn;
  restartDownloads : Fn;
  removeDownloads : Fn;
  clearDownloads : Fn;
  getDownloadsProgresses : Fn;
  getDownloadsLinksProgresses : Fn;
}.
Arguments downloads {Download Fn} _.
Arguments hasDownloads {Download Fn} _.
Arguments download {Download Fn} _.
Arguments pauseDownloads {Download Fn} _.
Arguments resumeDownloads {Download Fn} _.
Arguments cancelDownloads {Download Fn} _.
Arguments restartDownloads {Download Fn} _.
Arguments removeDownloads {Download Fn} _.
Arguments clearDownloads {Download Fn} _.
Arguments getDownloadsProgresses {Download Fn} _.
Arguments getDownloadsLinksProgresses {Download Fn} _.

(** The [value] the component [DownloadProvider] gives to
    [DownloadContext.Provider]. *)
Definition DownloadProvider_value {Download Fn} (hook : Hook.t Download Fn)
    : DownloadProviderState Download Fn :=
  {| downloads := Hook.downloads hook;
     hasDownloads := Hook.hasDownloads hook;
     download := Hook.download hook;
     pauseDownloads := Hook.pauseDownloads hook;
     resumeDownloads := Hook.resumeDownloads hook;
     cancelDownloads := Hook.cancelDownloads hook;
     restartDownloads := Hook.restartDownloads hook;
     removeDownloads := Hook.removeDownloads hook;
     clearDownloads := Hook.clearDownloads hook;
     getDownloadsProgresses := Hook.getProgresses hook;
     getDownloadsLinksProgresses := Hook.getLinksProgress hook |}.

(** An element above the component that calls the hook. *)
Inductive Ancestor (Download Fn : Type) :=
| DownloadProvider (hook : Hook.t Download Fn)
| OtherElement (name : string).
Arguments DownloadProvider {Download Fn} hook.
Arguments OtherElement {Download Fn} name.

(** [useContext(DownloadContext)], given the ancestors from the nearest
    to the root: the value of the nearest provider, or the default value
    of the context, which is null. *)
Fixpoint useContext_DownloadContext {Download Fn} (ancestors : list (Ancestor Download Fn))
    : option (DownloadProviderState Download Fn) :=
  match ancestors with
  | [] => None
  | DownloadProvider hook :: _ => Some (DownloadProvider_value hook)
  | OtherElement _ :: above => useContext_DownloadContext above
  end.

Definition useDownloadProvider {Download Fn} (ancestors : list (Ancestor Download Fn))
    : result (DownloadProviderState Download Fn) :=
  match useContext_DownloadContext ancestors with
  | None => Throw {| message := "Trying to use uninitialized DownloadProvider" |}
  | Some state => Ok state
  end.

Definition uninitialized : Error :=
  {| message := "Trying to use uninitialized DownloadProvider" |}.

Definition is_provider {Download Fn} (a : Ancestor Download Fn) : bool :=
  match a with
  | DownloadProvider _ => true
  | OtherElement _ => false
  end.

End DownloadProvider.

(** ** EmailReminderWidget (second part of DownloadProvider.tsx) *)

Module EmailReminder.

Definition EVENT_NOT_FOUND_ERROR : string := "EVENT_NOT_FOUND".
Definition DECRYPTION_ERROR : string := "DECRYPTION_ERROR".
Definition SECOND : Z := 1000.

(** A number that comes out of [parseInt]. *)
Inductive number := Num (z : Z) | NaN.

Definition parseInt (s : string) : number :=
  match JsString.parseInt10 s with
  | Some z => Num z
  | None => NaN
  end.

(** A value thrown or a rejection reason: [null] or [undefined], or a
    value of which the catch block can read whether it is an instance of
    [Error] and its [message] property, if it has one. *)
Inductive Thrown :=
| Nullish
| Thrown_value (is_Error : bool) (message : option string).

(** [error instanceof Error] *)
Definition instanceofError (reason : Thrown) : bool :=
  match reason with
  | Nullish => false
  | Thrown_value is_Error _ => is_Error
  end.

(** [error.message], where it can be read: on [null] and [undefined]
    reading it throws a TypeError. *)
Definition thrown_message (reason : Thrown) : option string :=
  match reason with
  | Nullish => None
  | Thrown_value _ message => message
  end.

Definition is_nullish (reason : Thrown) : bool :=
  match reason with
  | Nullish => true
  | Thrown_value _ _ => false
  end.

Definition new_Error (msg : string) : Thrown := Thrown_value true (Some msg).

Inductive outcome (A : Type) : Type :=
| Resolved (a : A)
| Rejected (reason : Thrown).
Arguments Resolved {A} a.
Arguments Rejected {A} reason.

Module CalendarEvent.
Record t := {
  ID : string;
  CalendarID : string;
  Exdates : list Z;
  RecurrenceID : option Z;
  FullDay : Z;
}.
End CalendarEvent.

Module VisualCalendar.
Record t := { ID : string; Color : string; Name : string }.
End VisualCalendar.

Record DateTimeValue := {
  year : Z; month : Z; day : Z; hours : Z; minutes : Z; seconds : Z; isUTC : bool;
}.

Record RRule := { until : option DateTimeValue; count : option Z }.

(** The decrypted event component, with the properties the widget
    reads. *)
Record VcalVeventComponent := {
  rrule : option RRule;
  sequence : option Z;
  summary : option string;
  location : option string;
}.

(** The headers of the reminder e-mail and what else the component gets
    from its props. *)
Record Props := {
  message_ID : string;
  calendarIdHeader : option string;
  eventIdHeader : option string;
  occurrenceHeader : option string;
  sequenceHeader : option string;
  eventUIDHeader : option string;
  eventIsRecurringHeader : option string;
  recurrenceIdHeader : option string;
  messageHasDecryptionError : bool;
}.

Inductive Banner :=
| RestoreCalendarBanner
| CannotDecryptBanner
| EventNotFoundBanner.

(** The text of the third banner. *)
Definition Banner_text (b : Banner) : string :=
  match b with
  | RestoreCalendarBanner =>
      "Event details are encrypted. Sign in again to restore Calendar and decrypt your data."
  | CannotDecryptBanner => "Event details cannot be decrypted."
  | EventNotFoundBanner => "Event is no longer in your calendar"
  end.

Record Notification := { type : string; text : option string }.

(** The React state of the widget, and the notifications raised. *)
Record Widget := {
  vevent : option VcalVeventComponent;
  calendar : option VisualCalendar.t;
  calendarEvent : option CalendarEvent.t;
  isLoading : bool;
  error : option Banner;
  loadedWidget : option string;
  notifications : list Notification;
}.

(** The places where the effect asks [isMounted()]. *)
Inductive Checkpoint := BeforeSetCalendar | AfterDecryption | Catching | Finally.

(** What the effect gets from outside: the answers of the server, of the
    calendar model and of the key store, and whether the component is
    still mounted.  When both promises given to [Promise.all] reject,
    [calendars_reject_first] tells which rejection came first. *)
Record Env := {
  getPaginatedEventsByUID : string -> option number -> outcome (list CalendarEvent.t);
  api_getEvent : string -> string -> outcome CalendarEvent.t;
  getCalendars : outcome (list VisualCalendar.t);
  calendars_reject_first : bool;
  getCalendarWithReactivatedKeys : VisualCalendar.t -> outcome VisualCalendar.t;
  getCalendarEventRaw : CalendarEvent.t -> outcome VcalVeventComponent;
  getDoesCalendarNeedUserAction : VisualCalendar.t -> bool;
  getUnixTime_toUTCDate : DateTimeValue -> Z;
  getOccurrencesBetween : VcalVeventComponent -> number -> number -> list Z;
  isMounted : Checkpoint -> bool;
}.

Definition header_truthy (h : option string) : bool :=
  match h with
  | Some s => JsString.truthy s
  | None => false
  end.

(** [`${h}`] *)
Definition header_text (h : option string) : string := default "undefined" h.

(** *** State setters *)

Definition setError (v : option Banner) (w : Widget) : Widget :=
  {| vevent := vevent w; calendar := calendar w; calendarEvent := calendarEvent w;
     isLoading := isLoading w; error := v; loadedWidget := loadedWidget w;
     notifications := notifications w |}.

Definition setIsLoading (v : bool) (w : Widget) : Widget :=
  {| vevent := vevent w; calendar := calendar w; calendarEvent := calendarEvent w;
     isLoading := v; error := error w; loadedWidget := loadedWidget w;
     notifications := notifications w |}.

Definition setLoadedWidget (v : string) (w : Widget) : Widget :=
  {| vevent := vevent w; calendar := calendar w; calendarEvent := calendarEvent w;
     isLoading := isLoading w; error := error w; loadedWidget := Some v;
     notifications := notifications w |}.

Definition setCalendar (v : option VisualCalendar.t) (w : Widget) : Widget :=
  {| vevent := vevent w; calendar := v; calendarEvent := calendarEvent w;
     isLoading := isLoading w; error := error w; loadedWidget := loadedWidget w;
     notifications := notifications w |}.

Definition setCalendarEvent (v : CalendarEvent.t) (w : Widget) : Widget :=
  {| vevent := vevent w; calendar := calendar w; calendarEvent := Some v;
     isLoading := isLoading w; error := error w; loadedWidget := loadedWidget w;
     notifications := notifications w |}.

Definition setVevent (v : VcalVeventComponent) (w : Widget) : Widget :=
  {| vevent := Some v; calendar := calendar w; calendarEvent := calendarEvent w;
     isLoading := isLoading w; error := error w; loadedWidget := loadedWidget w;
     notifications := notifications w |}.

Definition createNotification (n : Notification) (w : Widget) : Widget :=
  {| vevent := vevent w; calendar := calendar w; calendarEvent := calendarEvent w;
     isLoading := isLoading w; error := error w; loadedWidget := loadedWidget w;
     notifications := notifications w ++ [n] |}.

(** *** Fetching the event *)

(** [Exdates.includes(occurrence)] *)
Definition includes (l : list Z) (occurrence : number) : bool :=
  match occurrence with
  | Num z => existsb (Z.eqb z) l
  | NaN => false
  end.

(** [RecurrenceID === occurrence] *)
Definition is_occurrence (RecurrenceID : option Z) (occurrence : number) : bool :=
  match RecurrenceID, occurrence with
  | Some r, Num z => r =? z
  | _, _ => false
  end.

(** [!RecurrenceID] *)
Definition no_RecurrenceID (RecurrenceID : option Z) : bool :=
  match RecurrenceID with
  | Some r => r =? 0
  | None => true
  end.

(** [sameCalendarEvents.length ? sameCalendarEvents : allEventsByUID] *)
Definition events_considered (calendarId : string) (allEventsByUID : list CalendarEvent.t)
    : list CalendarEvent.t :=
  let sameCalendarEvents :=
    List.filter (fun e => String.eqb (CalendarEvent.CalendarID e) calendarId) allEventsByUID in
  match sameCalendarEvents with
  | [] => allEventsByUID
  | _ => sameCalendarEvents
  end.

(** The branch [if (byUID)] of [fetchEvent]. *)
Definition fetchEvent_byUID (env : Env) (props : Props) (occurrence : number)
    : outcome CalendarEvent.t :=
  let recurrenceID :=
    if header_truthy (recurrenceIdHeader props)
    then Some (parseInt (header_text (recurrenceIdHeader props)))
    else None in
  match getPaginatedEventsByUID env (header_text (eventUIDHeader props)) recurrenceID with
  | Rejected reason => Rejected reason
  | Resolved [] => Rejected (new_Error EVENT_NOT_FOUND_ERROR)
  | Resolved allEventsByUID =>
      let events :=
        events_considered (header_text (calendarIdHeader props)) allEventsByUID in
      if existsb (fun e => includes (CalendarEvent.Exdates e) occurrence) events
      then Rejected (new_Error EVENT_NOT_FOUND_ERROR)
      else
        match List.find (fun e => is_occurrence (CalendarEvent.RecurrenceID e) occurrence) events with
        | Some currentEvent => Resolved currentEvent
        | None =>
            match List.filter (fun e => no_RecurrenceID (CalendarEvent.RecurrenceID e)) events with
            | baseEvent :: _ => Resolved baseEvent
            | [] =>
                match events with
                | first :: _ => Resolved first
                | [] =>
                    (* [events[0]] is undefined and reading its calendar throws *)
                    Rejected (new_Error "Cannot read properties of undefined")
                end
            end
        end
  end.

(** [fetchEvent()], whose parameter defaults to
    [eventIsRecurringHeader === '1']; the direct request falls back to
    the search by UID when it is rejected. *)
Definition fetchEvent (env : Env) (props : Props) (occurrence : number)
    : outcome CalendarEvent.t :=
  if bool_decide (eventIsRecurringHeader props = Some "1")
  then fetchEvent_byUID env props occurrence
  else
    match api_getEvent env (header_text (calendarIdHeader props))
                       (header_text (eventIdHeader props)) with
    | Resolved Event => Resolved Event
    | Rejected _ => fetchEvent_byUID env props occurrence
    end.

Definition Promise_all {A B} (second_rejects_first : bool)
    (a : outcome A) (b : outcome B) : outcome (A * B) :=
  match a, b with
  | Resolved x, Resolved y => Resolved (x, y)
  | Rejected reason, Resolved _ => Rejected reason
  | Resolved _, Rejected reason => Rejected reason
  | Rejected reason_a, Rejected reason_b =>
      Rejected (if second_rejects_first then reason_b else reason_a)
  end.

(** *** Expired recurrences *)

(** [until ? occurrence > getUnixTime(toUTCDate(until)) : false] *)
Definition isUntilExpired (env : Env) (veventComponent : VcalVeventComponent)
    (occurrence : number) : bool :=
  match rrule veventComponent with
  | Some {| until := Some until_ |} =>
      match occurrence with
      | Num z => getUnixTime_toUTCDate env until_ <? z
      | NaN => false
      end
  | _ => false
  end.

(** [occurrence * SECOND] *)
Definition times_SECOND (occurrence : number) : number :=
  match occurrence with
  | Num z => Num (z * SECOND)
  | NaN => NaN
  end.

(** [count !== undefined
      ? !getOccurrencesBetween(veventComponent, jsOccurrence, jsOccurrence).length
      : false] *)
Definition isCountExpired (env : Env) (veventComponent : VcalVeventComponent)
    (occurrence : number) : bool :=
  match rrule veventComponent with
  | Some {| count := Some _ |} =>
      let jsOccurrence := times_SECOND occurrence in
      match getOccurrencesBetween env veventComponent jsOccurrence jsOccurrence with
      | [] => true
      | _ => false
      end
  | _ => false
  end.

(** *** The effect *)

(** How the [try] block ends: it returned, or it threw [reason] with
    [calendarData] as it was then. *)
Inductive Completion :=
| Returned
| Threw (reason : Thrown) (calendarData : option VisualCalendar.t).

(** [calendar ? await getCalendarWithReactivatedKeys({ calendar, ... }) : calendar] *)
Definition reactivated (env : Env) (calendar : option VisualCalendar.t)
    : outcome (option VisualCalendar.t) :=
  match calendar with
  | Some c =>
      match getCalendarWithReactivatedKeys env c with
      | Resolved c' => Resolved (Some c')
      | Rejected reason => Rejected reason
      end
  | None => Resolved None
  end.

(** [calendars.find(({ ID }) => ID === Event.CalendarID)] *)
Definition calendar_of (calendars : list VisualCalendar.t) (Event : CalendarEvent.t)
    : option VisualCalendar.t :=
  List.find (fun c => String.eqb (VisualCalendar.ID c) (CalendarEvent.CalendarID Event))
            calendars.

Definition try_block (env : Env) (props : Props) (w : Widget) : Completion * Widget :=
  let w := setError None w in
  let w := setIsLoading true w in
  let occurrence := parseInt (header_text (occurrenceHeader props)) in
  match Promise_all (calendars_reject_first env)
                    (fetchEvent env props occurrence) (getCalendars env) with
  | Rejected reason => (Threw reason None, w)
  | Resolved (Event, calendars) =>
      let calendar := calendar_of calendars Event in
      match reactivated env calendar with
      | Rejected reason => (Threw reason None, w)
      | Resolved calendarData =>
          if negb (isMounted env BeforeSetCalendar) then (Returned, w)
          else
            let w := setCalendar calendarData w in
            match getCalendarEventRaw env Event with
            | Rejected _ => (Threw (new_Error DECRYPTION_ERROR) calendarData, w)
            | Resolved veventComponent =>
                if negb (isMounted env AfterDecryption) then (Returned, w)
                else if isUntilExpired env veventComponent occurrence
                        || isCountExpired env veventComponent occurrence
                then (Threw (new_Error EVENT_NOT_FOUND_ERROR) calendarData, w)
                else (Returned, setVevent veventComponent (setCalendarEvent Event w))
            end
      end
  end.

Definition catch_block (env : Env) (reason : Thrown)
    (calendarData : option VisualCalendar.t) (w : Widget) : Widget :=
  let w :=
    if negb (instanceofError reason)
    then createNotification {| type := "error"; text := Some "Unknown error" |} w
    else w in
  if negb (isMounted env Catching) then w
  else if is_nullish reason
  then
    (* [error.message] throws a TypeError, in the first test when
       [calendarData] is set and in the second otherwise: the catch block
       is left with nothing more done *)
    w
  else
    match calendarData with
    | Some data =>
        if bool_decide (thrown_message reason = Some DECRYPTION_ERROR)
        then
          if getDoesCalendarNeedUserAction env data
          then setError (Some RestoreCalendarBanner) w
          else setError (Some CannotDecryptBanner) w
        else if bool_decide (thrown_message reason = Some EVENT_NOT_FOUND_ERROR)
        then setError (Some EventNotFoundBanner) w
        else createNotification {| type := "error"; text := thrown_message reason |} w
    | None =>
        if bool_decide (thrown_message reason = Some EVENT_NOT_FOUND_ERROR)
        then setError (Some EventNotFoundBanner) w
        else createNotification {| type := "error"; text := thrown_message reason |} w
    end.

Definition finally_block (env : Env) (props : Props) (w : Widget) : Widget :=
  if isMounted env Finally
  then setLoadedWidget (message_ID props) (setIsLoading false w)
  else w.

(** One run of the effect. *)
Definition effect (env : Env) (props : Props) (w : Widget) : Widget :=
  if negb (header_truthy (calendarIdHeader props))
     || negb (header_truthy (eventIdHeader props))
     || negb (header_truthy (occurrenceHeader props))
     || negb (header_truthy (sequenceHeader props))
     || messageHasDecryptionError props
  then setLoadedWidget "" (setError None w)
  else if bool_decide (loadedWidget w = Some (message_ID props)) then w
  else
    match try_block env props w with
    | (Returned, w) => finally_block env props w
    | (Threw reason calendarData, w) =>
        finally_block env props (catch_block env reason calendarData w)
    end.

(** *** Rendering *)

Inductive View :=
| Skeleton
| ErrorView (banner : Banner)
| Nothing
| EventDetails (calendarEvent : CalendarEvent.t) (vevent : VcalVeventComponent)
               (calendar : VisualCalendar.t) (isOutdated : bool).

(** [(sequence?.value || 0) > parseInt(`${sequenceHeader}`, 10)] *)
Definition isOutdated (props : Props) (vevent : VcalVeventComponent) : bool :=
  match parseInt (header_text (sequenceHeader props)) with
  | Num z => z <? default 0 (sequence vevent)
  | NaN => false
  end.

Definition render (props : Props) (w : Widget) : View :=
  if isLoading w then Skeleton
  else
    match error w with
    | Some banner =>
        if negb (messageHasDecryptionError props) then ErrorView banner
        else Nothing
    | None =>
        match calendarEvent w, vevent w, calendar w with
        | Some calendarEvent, Some vevent, Some calendar =>
            if negb (header_truthy (calendarIdHeader props))
               || negb (header_truthy (eventIdHeader props))
               || negb (header_truthy (occurrenceHeader props))
               || negb (header_truthy (sequenceHeader props))
               || messageHasDecryptionError props
            then Nothing
            else EventDetails calendarEvent vevent calendar (isOutdated props vevent)
        | _, _, _ => Nothing
        end
    end.

(** *** Vocabulary of the claims *)

(** The widget is to be shown for this message and has not been loaded
    for it yet. *)
Definition ready (props : Props) (w : Widget) : bool :=
  header_truthy (calendarIdHeader props)
  && header_truthy (eventIdHeader props)
  && header_truthy (occurrenceHeader props)
  && header_truthy (sequenceHeader props)
  && negb (messageHasDecryptionError props)
  && negb (bool_decide (loadedWidget w = Some (message_ID props))).

Definition always_mounted (env : Env) : bool :=
  forallb (isMounted env) [BeforeSetCalendar; AfterDecryption; Catching; Finally].

(** The event is looked up by UID: the header says it recurs, or the
    direct request was rejected. *)
Definition searched_by_UID (env : Env) (props : Props) : bool :=
  bool_decide (eventIsRecurringHeader props = Some "1")
  || match api_getEvent env (header_text (calendarIdHeader props))
                        (header_text (eventIdHeader props)) with
     | Resolved _ => false
     | Rejected _ => true
     end.

Definition occurrence_of (props : Props) : number :=
  parseInt (header_text (occurrenceHeader props)).

(** The events the search by UID returns for this reminder. *)
Definition events_by_UID (env : Env) (props : Props) : outcome (list CalendarEvent.t) :=
  getPaginatedEventsByUID env (header_text (eventUIDHeader props))
    (if header_truthy (recurrenceIdHeader props)
     then Some (parseInt (header_text (recurrenceIdHeader props)))
     else None).

Definition lists_occurrence (occurrence : number) (events : list CalendarEvent.t) : bool :=
  existsb (fun e => includes (CalendarEvent.Exdates e) occurrence) events.

(** The first case of the claim about the reminder, word for word: when
    some event fetched by UID lists the occurrence among its Exdates,
    the banner is rendered. *)
Definition excluded_occurrence_claim : Prop :=
  forall (env : Env) (props : Props) (w : Widget)
         (allEventsByUID : list CalendarEvent.t) (calendars : list VisualCalendar.t),
    ready props w = true ->
    always_mounted env = true ->
    searched_by_UID env props = true ->
    events_by_UID env props = Resolved allEventsByUID ->
    getCalendars env = Resolved calendars ->
    lists_occurrence (occurrence_of props) allEventsByUID = true ->
    render props (effect env props w) = ErrorView EventNotFoundBanner.

(** The headers the widget needs are there and the message decrypted. *)
Definition displayable (props : Props) : bool :=
  header_truthy (calendarIdHeader props)
  && header_truthy (eventIdHeader props)
  && header_truthy (occurrenceHeader props)
  && header_truthy (sequenceHeader props)
  && negb (messageHasDecryptionError props).

Definition never_mounted (env : Env) : bool :=
  forallb (fun cp => negb (isMounted env cp))
          [BeforeSetCalendar; AfterDecryption; Catching; Finally].

End EmailReminder.

(** ** Concrete environments *)

(** A browser without BigInt: [CURVE] is undefined there and the curve
    library cannot derive a public key.  Hashing and base64 work as
    specified; the helpers of [./feature] are stood in for by the plainest
    functions of their type. *)
Definition legacy_browser : WireGuard.Externals :=
  {| WireGuard.sha512 := SHA512.digest;
     WireGuard.Point_fromPrivateKey_toRawBytes :=
       fun _ => Throw {| message := "BigInt is not defined" |};
     WireGuard.base64StringToUint8Array := Base64.decode;
     WireGuard.uint8ArrayToBase64String := Base64.encode;
     WireGuard.getObjectKeys := fun features => map fst (default [] features);
     WireGuard.getKeyOfCheck := fun keys key => existsb (String.eqb key) keys;
     WireGuard.formatFeatureShortName := fun key => key;
     WireGuard.formatFeatureValue :=
       fun features key =>
         match WireGuard.opt_feature features key with
         | Some v => WireGuard.FeatureValue_toString v
         | None => "undefined"
         end |}.

(** The order of the Ed25519 base point, the value of [CURVE.n] on a
    platform with BigInt. *)
Definition ed25519 : WireGuard.CURVE.t :=
  {| WireGuard.CURVE.n := 2 ^ 252 + 27742317777372353535851937790883648493 |}.

(** A generator that only ever produces the byte [b], with the server out
    of reach. *)
Definition stuck_generator (b : byte) : WireGuard.World :=
  {| WireGuard.entropy := fun _ => b; WireGuard.console := [];
     WireGuard.getKey_reply := Throw {| message := "offline" |};
     WireGuard.getKey_requests := 0 |}.

Definition armored (label body : string) : string :=
  "-----BEGIN " +:+ label +:+ "-----" +:+ JsString.LF
  +:+ body +:+ JsString.LF
  +:+ "-----END " +:+ label +:+ "-----".

(** The same browser with the server answering [getKey]. *)
Definition served_generator : WireGuard.World :=
  {| WireGuard.entropy := fun _ => x02; WireGuard.console := [];
     WireGuard.getKey_reply :=
       Ok {| WireGuard.KeyPair.PrivateKey :=
               armored "PRIVATE KEY" "MC4CAQAwBQYDK2VwBCIEIAABAgMEBQYHCAkKCwwNDg8QERITFBUWFxgZGhscHR4f";
             WireGuard.KeyPair.PublicKey :=
               armored "PUBLIC KEY" "MCowBQYDK2VwAyEAA6EHv/POEL4dcN0Y50vAmWfk1jCbpQ1fHdyGZBJVMbg=" |};
     WireGuard.getKey_requests := 0 |}.


(** Three certificates: one with a serial number, one known by its
    fingerprint only, one known by its public key only. *)
Definition laptop : WireGuard.Certificate.t :=
  {| WireGuard.Certificate.id := "c1700000000000-0.25";
     WireGuard.Certificate.name := Some "laptop";
     WireGuard.Certificate.features := None;
     WireGuard.Certificate.serialNumber := "1234";
     WireGuard.Certificate.privateKey := "*****";
     WireGuard.Certificate.publicKey := "cHVibGljLWtleS1sYXB0b3A=";
     WireGuard.Certificate.publicKeyFingerprint := "fp-laptop";
     WireGuard.Certificate.expirationTime := 1800000000;
     WireGuard.Certificate.config := "" |}.

Definition phone : WireGuard.Certificate.t :=
  {| WireGuard.Certificate.id := "c1700000000001-0.5";
     WireGuard.Certificate.name := None;
     WireGuard.Certificate.features := None;
     WireGuard.Certificate.serialNumber := "";
     WireGuard.Certificate.privateKey := "*****";
     WireGuard.Certificate.publicKey := "cHVibGljLWtleS1waG9uZQ==";
     WireGuard.Certificate.publicKeyFingerprint := "fp-phone";
     WireGuard.Certificate.expirationTime := 1800000500;
     WireGuard.Certificate.config := "" |}.

Definition router : WireGuard.Certificate.t :=
  {| WireGuard.Certificate.id := "c1700000000002-0.75";
     WireGuard.Certificate.name := Some "";
     WireGuard.Certificate.features := None;
     WireGuard.Certificate.serialNumber := "";
     WireGuard.Certificate.privateKey := "*****";
     WireGuard.Certificate.publicKey := "cHVibGljLWtleS1yb3V0ZXI=";
     WireGuard.Certificate.publicKeyFingerprint := "";
     WireGuard.Certificate.expirationTime := 1800000900;
     WireGuard.Certificate.config := "" |}.

(** The settings page showing the laptop and the phone, both created in
    this session and cached. *)
Definition settings_page : WireGuard.Component :=
  {| WireGuard.certificateCache := {[ "fp-laptop" := laptop; "fp-phone" := phone ]};
     WireGuard.certificatesResult := [];
     WireGuard.fresh_ids := fun k => "c1700000000100-0." +:+ pretty k;
     WireGuard.state :=
       {| WireGuard.removing := ∅;
          WireGuard.removedCertificates := [];
          WireGuard.certificates := [laptop; phone] |};
     WireGuard.notifications := [];
     WireGuard.deletions := [] |}.

(** What [useCertificates] lists after the laptop was revoked: the server
    still lists the laptop, and lists the phone twice, as it was and as it
    is after an extension. *)
Definition listing : list WireGuard.CertificateDTO.t :=
  [ {| WireGuard.CertificateDTO.id := None;
       WireGuard.CertificateDTO.DeviceName := Some "laptop";
       WireGuard.CertificateDTO.Features := None;
       WireGuard.CertificateDTO.SerialNumber := "1234";
       WireGuard.CertificateDTO.ClientKey := "cHVibGljLWtleS1sYXB0b3A=";
       WireGuard.CertificateDTO.ClientKeyFingerprint := "fp-laptop";
       WireGuard.CertificateDTO.ExpirationTime := 1800000000 |};
    {| WireGuard.CertificateDTO.id := None;
       WireGuard.CertificateDTO.DeviceName := None;
       WireGuard.CertificateDTO.Features :=
         Some [("platform", WireGuard.FStr "Windows"); ("NetShieldLevel", WireGuard.FNum 1)];
       WireGuard.CertificateDTO.SerialNumber := "5678";
       WireGuard.CertificateDTO.ClientKey := "cHVibGljLWtleS1waG9uZQ==";
       WireGuard.CertificateDTO.ClientKeyFingerprint := "fp-phone";
       WireGuard.CertificateDTO.ExpirationTime := 1900000000 |};
    {| WireGuard.CertificateDTO.id := None;
       WireGuard.CertificateDTO.DeviceName := None;
       WireGuard.CertificateDTO.Features := None;
       WireGuard.CertificateDTO.SerialNumber := "";
       WireGuard.CertificateDTO.ClientKey := "cHVibGljLWtleS1waG9uZQ==";
       WireGuard.CertificateDTO.ClientKeyFingerprint := "fp-phone";
       WireGuard.CertificateDTO.ExpirationTime := 1800000500 |} ].

Definition revoked_page : WireGuard.Component :=
  {| WireGuard.certificateCache := {[ "fp-phone" := phone ]};
     WireGuard.certificatesResult := listing;
     WireGuard.fresh_ids := fun k => "c1700000000100-0." +:+ pretty k;
     WireGuard.state :=
       {| WireGuard.removing := ∅;
          WireGuard.removedCertificates := ["fp-laptop"];
          WireGuard.certificates := [phone] |};
     WireGuard.notifications := [];
     WireGuard.deletions := [] |}.

Definition default_peer : WireGuard.Peer.t :=
  {| WireGuard.Peer.name := "NL#150";
     WireGuard.Peer.publicKey := "TcpH/ozM+f16aiEzzmKap78Ifdb62JAeGFiBqKeqjVo=";
     WireGuard.Peer.ip := "172.83.45.3" |}.

(** A URL parser good enough for the pages below.  An absolute http(s)
    URL is kept, unless its host is empty or opens a bracket that it does
    not close, which the URL constructor rejects; a URL with another scheme
    is kept; a path is resolved against the base, which is an origin.
    Nothing is normalised. *)
Fixpoint until_slash (s : string) : string :=
  match s with
  | "" => ""
  | String c s' => if Ascii.eqb c "/" then "" else String c (until_slash s')
  end.

Definition valid_host (host : string) : bool :=
  JsString.truthy host
  && implb (JsString.startsWith host "[") (JsString.endsWith host "]").

Definition toy_URL (src base : string) : result string :=
  let invalid := Throw {| message := "Invalid URL" |} in
  if JsString.startsWith src "https://"
  then if valid_host (until_slash (JsString.drop 8 src)) then Ok src else invalid
  else if JsString.startsWith src "http://"
  then if valid_host (until_slash (JsString.drop 7 src)) then Ok src else invalid
  else if JsString.startsWith src "//"
  then if valid_host (until_slash (JsString.drop 2 src))
       then Ok (until_slash base +:+ src) else invalid
  else if JsString.startsWith src "/" then Ok (base +:+ src)
  else if negb (JsString.forall_chars (fun c => negb (Ascii.eqb c ":")) (until_slash src))
  then Ok src
  else Ok (base +:+ "/" +:+ src).

Definition old_browser : Logical.Browser :=
  {| Logical.origin := "https://account.proton.me";
     Logical.URL_toString := toy_URL;
     Logical.CSS_supports := fun _ => false |}.


Definition stylesheet (href : string) : Logical.Node :=
  Logical.Link {| Logical.rel := "stylesheet"; Logical.href := href |}.

Definition account_page : Logical.Page :=
  {| Logical.nodes :=
       [ Logical.Element "META";
         stylesheet "https://account.proton.me/assets/index.css";
         stylesheet "https://fonts.example.org/inter.css";
         Logical.CharacterData 3;
         stylesheet "https://account.proton.me/assets/theme.ltr.css";
         Logical.Link {| Logical.rel := "icon";
                         Logical.href := "https://account.proton.me/favicon.css" |};
         stylesheet "https://account.proton.me/assets/vendor.css.map.css" ];
     Logical.observing := false |}.

Definition shimmed_page : Logical.Page :=
  {| Logical.nodes :=
       [ Logical.Element "META";
         stylesheet "https://account.proton.me/assets/index.ltr.css";
         stylesheet "https://fonts.example.org/inter.css";
         Logical.CharacterData 3;
         stylesheet "https://account.proton.me/assets/theme.ltr.css";
         Logical.Link {| Logical.rel := "icon";
                         Logical.href := "https://account.proton.me/favicon.css" |};
         stylesheet "https://account.proton.me/assets/vendor.ltr.css.map.css" ];
     Logical.observing := true |}.

(** Seconds since the epoch of a civil date and time taken as UTC, which is
    what [getUnixTime(toUTCDate(d))] computes. *)
Definition UTC_seconds (d : EmailReminder.DateTimeValue) : Z :=
  let m := EmailReminder.month d in
  let y := if m <=? 2 then EmailReminder.year d - 1 else EmailReminder.year d in
  let era := y / 400 in
  let yoe := y - era * 400 in
  let doy := (153 * (if 2 <? m then m - 3 else m + 9) + 2) / 5 + EmailReminder.day d - 1 in
  let doe := yoe * 365 + yoe / 4 - yoe / 100 + doy in
  (era * 146097 + doe - 719468) * 86400
  + EmailReminder.hours d * 3600 + EmailReminder.minutes d * 60 + EmailReminder.seconds d.

(** A reminder for the occurrence of 15 November 2023, 00:00 UTC, of a
    recurring event of the calendar [cal-home]. *)
Definition reminder : EmailReminder.Props :=
  {| EmailReminder.message_ID := "msg-1";
     EmailReminder.calendarIdHeader := Some "cal-home";
     EmailReminder.eventIdHeader := Some "evt-1";
     EmailReminder.occurrenceHeader := Some "1700006400";
     EmailReminder.sequenceHeader := Some "0";
     EmailReminder.eventUIDHeader := Some "uid-1@proton.me";
     EmailReminder.eventIsRecurringHeader := Some "1";
     EmailReminder.recurrenceIdHeader := None;
     EmailReminder.messageHasDecryptionError := false |}.

Definition fresh_widget : EmailReminder.Widget :=
  {| EmailReminder.vevent := None; EmailReminder.calendar := None;
     EmailReminder.calendarEvent := None; EmailReminder.isLoading := false;
     EmailReminder.error := None; EmailReminder.loadedWidget := None;
     EmailReminder.notifications := [] |}.

Definition home_calendar : EmailReminder.VisualCalendar.t :=
  {| EmailReminder.VisualCalendar.ID := "cal-home";
     EmailReminder.VisualCalendar.Color := "#8080FF";
     EmailReminder.VisualCalendar.Name := "Home" |}.

Definition work_calendar : EmailReminder.VisualCalendar.t :=
  {| EmailReminder.VisualCalendar.ID := "cal-work";
     EmailReminder.VisualCalendar.Color := "#FF8080";
     EmailReminder.VisualCalendar.Name := "Work" |}.

Definition home_event (exdates : list Z) : EmailReminder.CalendarEvent.t :=
  {| EmailReminder.CalendarEvent.ID := "evt-1";
     EmailReminder.CalendarEvent.CalendarID := "cal-home";
     EmailReminder.CalendarEvent.Exdates := exdates;
     EmailReminder.CalendarEvent.RecurrenceID := None;
     EmailReminder.CalendarEvent.FullDay := 0 |}.

(** A copy of the event in another calendar, from which the occurrence
    was deleted. *)
Definition work_event : EmailReminder.CalendarEvent.t :=
  {| EmailReminder.CalendarEvent.ID := "evt-9";
     EmailReminder.CalendarEvent.CalendarID := "cal-work";
     EmailReminder.CalendarEvent.Exdates := [1700006400];
     EmailReminder.CalendarEvent.RecurrenceID := None;
     EmailReminder.CalendarEvent.FullDay := 0 |}.

Definition meeting (rule : option EmailReminder.RRule) : EmailReminder.VcalVeventComponent :=
  {| EmailReminder.rrule := rule; EmailReminder.sequence := Some 0;
     EmailReminder.summary := Some "Weekly sync"; EmailReminder.location := None |}.

(** A rule that ended on 1 November 2023. *)
Definition ended_rule : EmailReminder.RRule :=
  {| EmailReminder.until :=
       Some {| EmailReminder.year := 2023; EmailReminder.month := 11; EmailReminder.day := 1;
               EmailReminder.hours := 23; EmailReminder.minutes := 59;
               EmailReminder.seconds := 59; EmailReminder.isUTC := true |};
     EmailReminder.count := None |}.

(** A session in which every request succeeds: the search by UID returns
    [events] and the event decrypts to [component]. *)
Definition session (events : list EmailReminder.CalendarEvent.t)
    (component : EmailReminder.VcalVeventComponent) : EmailReminder.Env :=
  {| EmailReminder.getPaginatedEventsByUID := fun _ _ => EmailReminder.Resolved events;
     EmailReminder.api_getEvent :=
       fun _ _ => EmailReminder.Rejected (EmailReminder.new_Error "Not found");
     EmailReminder.getCalendars := EmailReminder.Resolved [work_calendar; home_calendar];
     EmailReminder.calendars_reject_first := false;
     EmailReminder.getCalendarWithReactivatedKeys := fun c => EmailReminder.Resolved c;
     EmailReminder.getCalendarEventRaw := fun _ => EmailReminder.Resolved component;
     EmailReminder.getDoesCalendarNeedUserAction := fun _ => false;
     EmailReminder.getUnixTime_toUTCDate := UTC_seconds;
     EmailReminder.getOccurrencesBetween := fun _ _ _ => [];
     EmailReminder.isMounted := fun _ => true |}.

(** The transfer manager of the drive application, with downloads named
    by strings and callbacks by their names. *)
Definition transfers : DownloadProvider.Hook.t string string :=
  {| DownloadProvider.Hook.downloads := ["report.pdf"; "photos.zip"];
     DownloadProvider.Hook.hasDownloads := true;
     DownloadProvider.Hook.download := "download";
     DownloadProvider.Hook.getProgresses := "getProgresses";
     DownloadProvider.Hook.getLinksProgress := "getLinksProgress";
     DownloadProvider.Hook.pauseDownloads := "pauseDownloads";
     DownloadProvider.Hook.resumeDownloads := "resumeDownloads";
     DownloadProvider.Hook.cancelDownloads := "cancelDownloads";
     DownloadProvider.Hook.restartDownloads := "restartDownloads";
     DownloadProvider.Hook.removeDownloads := "removeDownloads";
     DownloadProvider.Hook.clearDownloads := "clearDownloads" |}.

(** A stylesheet link as old markup writes it. *)
Definition STYLESHEET (href : string) : Logical.Node :=
  Logical.Link {| Logical.rel := "STYLESHEET"; Logical.href := href |}.

(** A page with such a link. *)
Definition shouting_page : Logical.Page :=
  {| Logical.nodes :=
       [ STYLESHEET "https://account.proton.me/assets/index.css";
         stylesheet "https://account.proton.me/assets/theme.css" ];
     Logical.observing := false |}.

(** A page one of whose stylesheets has a mistyped address, which is not
    a URL: its host opens a bracket and does not close it. *)
Definition broken_page : Logical.Page :=
  {| Logical.nodes :=
       [ stylesheet "https://account.proton.me/assets/index.css";
         stylesheet "https://[account.proton.me/assets/typo.css";
         stylesheet "https://account.proton.me/assets/late.css" ];
     Logical.observing := false |}.

(** The same reminder without the header that names the event. *)
Definition headless_reminder : EmailReminder.Props :=
  {| EmailReminder.message_ID := "msg-2";
     EmailReminder.calendarIdHeader := Some "cal-home";
     EmailReminder.eventIdHeader := None;
     EmailReminder.occurrenceHeader := Some "1700006400";
     EmailReminder.sequenceHeader := Some "0";
     EmailReminder.eventUIDHeader := Some "uid-1@proton.me";
     EmailReminder.eventIsRecurringHeader := Some "1";
     EmailReminder.recurrenceIdHeader := None;
     EmailReminder.messageHasDecryptionError := false |}.

(** [env] with the key store unable to decrypt events. *)
Definition undecryptable (env : EmailReminder.Env) : EmailReminder.Env :=
  {| EmailReminder.getPaginatedEventsByUID := EmailReminder.getPaginatedEventsByUID env;
     EmailReminder.api_getEvent := EmailReminder.api_getEvent env;
     EmailReminder.getCalendars := EmailReminder.getCalendars env;
     EmailReminder.calendars_reject_first := EmailReminder.calendars_reject_first env;
     EmailReminder.getCalendarWithReactivatedKeys :=
       EmailReminder.getCalendarWithReactivatedKeys env;
     EmailReminder.getCalendarEventRaw :=
       fun _ => EmailReminder.Rejected (EmailReminder.new_Error "Error decrypting session key");
     EmailReminder.getDoesCalendarNeedUserAction :=
       EmailReminder.getDoesCalendarNeedUserAction env;
     EmailReminder.getUnixTime_toUTCDate := EmailReminder.getUnixTime_toUTCDate env;
     EmailReminder.getOccurrencesBetween := EmailReminder.getOccurrencesBetween env;
     EmailReminder.isMounted := EmailReminder.isMounted env |}.

(** [env] with the search by UID rejected with [reason]. *)
Definition search_rejected (reason : EmailReminder.Thrown) (env : EmailReminder.Env)
    : EmailReminder.Env :=
  {| EmailReminder.getPaginatedEventsByUID := fun _ _ => EmailReminder.Rejected reason;
     EmailReminder.api_getEvent := EmailReminder.api_getEvent env;
     EmailReminder.getCalendars := EmailReminder.getCalendars env;
     EmailReminder.calendars_reject_first := EmailReminder.calendars_reject_first env;
     EmailReminder.getCalendarWithReactivatedKeys :=
       EmailReminder.getCalendarWithReactivatedKeys env;
     EmailReminder.getCalendarEventRaw := EmailReminder.getCalendarEventRaw env;
     EmailReminder.getDoesCalendarNeedUserAction :=
       EmailReminder.getDoesCalendarNeedUserAction env;
     EmailReminder.getUnixTime_toUTCDate := EmailReminder.getUnixTime_toUTCDate env;
     EmailReminder.getOccurrencesBetween := EmailReminder.getOccurrencesBetween env;
     EmailReminder.isMounted := EmailReminder.isMounted env |}.

(** [env] with the component unmounted before the first answer. *)
Definition unmounted (env : EmailReminder.Env) : EmailReminder.Env :=
  {| EmailReminder.getPaginatedEventsByUID := EmailReminder.getPaginatedEventsByUID env;
     EmailReminder.api_getEvent := EmailReminder.api_getEvent env;
     EmailReminder.getCalendars := EmailReminder.getCalendars env;
     EmailReminder.calendars_reject_first := EmailReminder.calendars_reject_first env;
     EmailReminder.getCalendarWithReactivatedKeys :=
       EmailReminder.getCalendarWithReactivatedKeys env;
     EmailReminder.getCalendarEventRaw := EmailReminder.getCalendarEventRaw env;
     EmailReminder.getDoesCalendarNeedUserAction :=
       EmailReminder.getDoesCalendarNeedUserAction env;
     EmailReminder.getUnixTime_toUTCDate := EmailReminder.getUnixTime_toUTCDate env;
     EmailReminder.getOccurrencesBetween := EmailReminder.getOccurrencesBetween env;
     EmailReminder.isMounted := fun _ => false |}.

(** An event of a calendar the user has no access to any more. *)
Definition orphan_event : EmailReminder.CalendarEvent.t :=
  {| EmailReminder.CalendarEvent.ID := "evt-3";
     EmailReminder.CalendarEvent.CalendarID := "cal-gone";
     EmailReminder.CalendarEvent.Exdates := [];
     EmailReminder.CalendarEvent.RecurrenceID := None;
     EmailReminder.CalendarEvent.FullDay := 0 |}.

(** The occurrence of the reminder as edited on its own. *)
Definition edited_occurrence : EmailReminder.CalendarEvent.t :=
  {| EmailReminder.CalendarEvent.ID := "evt-2";
     EmailReminder.CalendarEvent.CalendarID := "cal-home";
     EmailReminder.CalendarEvent.Exdates := [];
     EmailReminder.CalendarEvent.RecurrenceID := Some 1700006400;
     EmailReminder.CalendarEvent.FullDay := 0 |}.

(** A widget that shows the weekly meeting, loaded for another message. *)
Definition showing_meeting : EmailReminder.Widget :=
  {| EmailReminder.vevent := Some (meeting None);
     EmailReminder.calendar := Some home_calendar;
     EmailReminder.calendarEvent := Some (home_event []);
     EmailReminder.isLoading := false;
     EmailReminder.error := None;
     EmailReminder.loadedWidget := Some "msg-0";
     EmailReminder.notifications := [] |}.

(** A browser with BigInt, where the curve library works. *)
Definition capable_browser : WireGuard.Externals :=
  {| WireGuard.sha512 := SHA512.digest;
     WireGuard.Point_fromPrivateKey_toRawBytes := Ed25519.fromPrivateKey_toRawBytes;
     WireGuard.base64StringToUint8Array := Base64.decode;
     WireGuard.uint8ArrayToBase64String := Base64.encode;
     WireGuard.getObjectKeys := fun features => map fst (default [] features);
     WireGuard.getKeyOfCheck := fun keys key => existsb (String.eqb key) keys;
     WireGuard.formatFeatureShortName := fun key => key;
     WireGuard.formatFeatureValue :=
       fun features key =>
         match WireGuard.opt_feature features key with
         | Some v => WireGuard.FeatureValue_toString v
         | None => "undefined"
         end |}.

(** A generator whose first sample is beyond the group order and whose
    later samples are valid scalars. *)
Definition skipping_generator : WireGuard.World :=
  {| WireGuard.entropy := fun k => if (k <? 32)%nat then xff else x02;
     WireGuard.console := [];
     WireGuard.getKey_reply := Throw {| message := "offline" |};
     WireGuard.getKey_requests := 0 |}.

(** The secret key and the public key of the first test of RFC 8032,
    section 7.1. *)
Definition rfc8032_secret : list byte :=
  [x9d; x61; xb1; x9d; xef; xfd; x5a; x60; xba; x84; x4a; xf4; x92; xec; x2c; xc4;
   x44; x49; xc5; x69; x7b; x32; x69; x19; x70; x3b; xac; x03; x1c; xae; x7f; x60].

Definition rfc8032_public : list byte :=
  [xd7; x5a; x98; x01; x82; xb1; x0a; xb7; xd5; x4b; xfe; xd3; xc9; x64; x07; x3a;
   x0e; xe1; x72; xf3; xda; xa6; x23; x25; xaf; x02; x1a; x68; xf7; x07; x51; x1a].

(** The phone as the server lists it after its extension. *)
Definition extended_phone : WireGuard.CertificateDTO.t :=
  {| WireGuard.CertificateDTO.id := None;
     WireGuard.CertificateDTO.DeviceName := None;
     WireGuard.CertificateDTO.Features :=
       Some [("platform", WireGuard.FStr "Windows"); ("NetShieldLevel", WireGuard.FNum 1)];
     WireGuard.CertificateDTO.SerialNumber := "5678";
     WireGuard.CertificateDTO.ClientKey := "cHVibGljLWtleS1waG9uZQ==";
     WireGuard.CertificateDTO.ClientKeyFingerprint := "fp-phone";
     WireGuard.CertificateDTO.ExpirationTime := 1900000000 |}.

(** What the render of the settings page hands to its callbacks. *)
Definition settings_render : WireGuard.Render.t :=
  {| WireGuard.Render.state := WireGuard.state settings_page;
     WireGuard.Render.creating := false;
     WireGuard.Render.peer := default_peer;
     WireGuard.Render.platform := WireGuard.ANDROID;
     WireGuard.Render.selected :=
       [("NetShieldLevel", WireGuard.FNum 1); ("platform", WireGuard.FStr "unknown")] |}.

(** The certificate the server issues for a tablet, without a name. *)
Definition issued : WireGuard.CertificateDTO.t :=
  {| WireGuard.CertificateDTO.id := None;
     WireGuard.CertificateDTO.DeviceName := None;
     WireGuard.CertificateDTO.Features := Some (WireGuard.getFeatureValues settings_render None);
     WireGuard.CertificateDTO.SerialNumber := "9012";
     WireGuard.CertificateDTO.ClientKey := "cHVibGljLWtleS10YWJsZXQ=";
     WireGuard.CertificateDTO.ClientKeyFingerprint := "fp-tablet";
     WireGuard.CertificateDTO.ExpirationTime := 1800001000 |}.

(** The settings page with [tablet] typed in the name input, in the
    browser without BigInt, and a server that answers every certificate
    request with [reply]. *)
Definition settings_form (reply : result WireGuard.CertificateDTO.t) : WireGuard.Form :=
  {| WireGuard.component := settings_page;
     WireGuard.world := served_generator;
     WireGuard.creating := false;
     WireGuard.currentCertificate := None;
     WireGuard.nameInput := Some "tablet";
     WireGuard.generateCertificate_reply := fun _ => reply;
     WireGuard.generateCertificate_requests := [];
     WireGuard.scrolled := [] |}.

Definition too_many : Error := {| message := "Too many certificates" |}.

(** Times shown as the number of seconds. *)
Definition plain_time : WireGuard.Helpers :=
  {| WireGuard.readableTime := fun time _ => pretty time |}.

(** Four logical servers: one above the free tier, one with a feature
    bit set, one whose only server has no X25519 key, and two plain ones
    of equal score. *)
Definition server (key : option string) (ip : string) : WireGuard.Server.t :=
  {| WireGuard.Server.X25519PublicKey := key; WireGuard.Server.EntryIP := ip |}.

Definition logical_server (name : string) (tier features : Z) (score : Q)
    (servers : option (list WireGuard.Server.t)) : WireGuard.LogicalServer.t :=
  {| WireGuard.LogicalServer.Name := name;
     WireGuard.LogicalServer.Tier := tier;
     WireGuard.LogicalServer.Features := features;
     WireGuard.LogicalServer.Score := score;
     WireGuard.LogicalServer.Servers := servers |}.

Definition server_list : list WireGuard.LogicalServer.t :=
  [ logical_server "CH#1" 2 0 (1 # 2) (Some [server (Some "a2V5LWNo") "10.0.0.1"]);
    logical_server "NL-TOR#1" 0 2 (3 # 4) (Some [server (Some "a2V5LXRvcg==") "10.0.0.2"]);
    logical_server "US-FREE#1" 0 0 (3 # 2) (Some [server None "10.0.0.3"]);
    logical_server "NL-FREE#1" 0 0 (5 # 2)
      (Some [server (Some "") "10.0.0.4"; server (Some "a2V5LW5s") "10.0.0.5"]);
    logical_server "JP-FREE#1" 0 0 (10 # 4) (Some [server (Some "a2V5LWpw") "10.0.0.6"]) ].

(** Three devices the server lists, and the certificates the page shows
    for them. *)
Definition listed_laptop : WireGuard.CertificateDTO.t :=
  {| WireGuard.CertificateDTO.id := None;
     WireGuard.CertificateDTO.DeviceName := Some "laptop";
     WireGuard.CertificateDTO.Features := None;
     WireGuard.CertificateDTO.SerialNumber := "1234";
     WireGuard.CertificateDTO.ClientKey := "cHVibGljLWtleS1sYXB0b3A=";
     WireGuard.CertificateDTO.ClientKeyFingerprint := "fp-laptop";
     WireGuard.CertificateDTO.ExpirationTime := 1800000000 |}.

Definition devices : list WireGuard.CertificateDTO.t :=
  [listed_laptop; extended_phone; issued].

Definition device_ids (k : nat) : string := "c1700000000100-0." +:+ pretty k.

Definition shown (k : nat) (dto : WireGuard.CertificateDTO.t) : WireGuard.Certificate.t :=
  fst (@WireGuard.getCertificateModel legacy_browser (device_ids k) dto default_peer None None).

Definition render_of (s : WireGuard.Session) : WireGuard.Rendered :=
  {| WireGuard.captured := WireGuard.state (WireGuard.page s);
     WireGuard.listed :=
       fst (@WireGuard.getCertificates legacy_browser default_peer (WireGuard.page s)) |}.

Definition revocation (s : WireGuard.Session) (certificate : WireGuard.Certificate.t)
    : WireGuard.Pending :=
  {| WireGuard.closure := WireGuard.state (WireGuard.page s);
     WireGuard.revoked := certificate |}.

Definition one_deleted : WireGuard.CertificateDeletionParams -> result Z := fun _ => Ok 1.

(** Three revocations that overlap.  The page lists the three devices;
    the user asks for the revocation of the laptop, then of the phone; the
    server confirms the first; the user asks for the revocation of the
    tablet; the server confirms the second, then the third.  Between the
    events the page is rendered. *)
Definition overlap_1 : WireGuard.Session :=
  WireGuard.fetched devices (WireGuard.started device_ids).
Definition overlap_2 : WireGuard.Session :=
  @WireGuard.rendered legacy_browser default_peer overlap_1.
Definition overlap_3 : WireGuard.Session :=
  WireGuard.clicked (render_of overlap_1) (shown 0 listed_laptop) overlap_2.
Definition overlap_4 : WireGuard.Session :=
  @WireGuard.rendered legacy_browser default_peer overlap_3.
Definition overlap_5 : WireGuard.Session :=
  WireGuard.clicked (render_of overlap_3) (shown 1 extended_phone) overlap_4.
Definition overlap_6 : WireGuard.Session :=
  WireGuard.finished [] [revocation overlap_3 (shown 1 extended_phone)]
    (revocation overlap_1 (shown 0 listed_laptop)) (Ok tt) one_deleted overlap_5.
Definition overlap_7 : WireGuard.Session :=
  @WireGuard.rendered legacy_browser default_peer overlap_6.
Definition overlap_8 : WireGuard.Session :=
  WireGuard.clicked (render_of overlap_6) (shown 2 issued) overlap_7.
Definition overlap_9 : WireGuard.Session :=
  WireGuard.finished [] [revocation overlap_6 (shown 2 issued)]
    (revocation overlap_3 (shown 1 extended_phone)) (Ok tt) one_deleted overlap_8.
Definition overlap_10 : WireGuard.Session :=
  @WireGuard.rendered legacy_browser default_peer overlap_9.
Definition overlap_11 : WireGuard.Session :=
  WireGuard.finished [] [] (revocation overlap_6 (shown 2 issued)) (Ok tt) one_deleted
    overlap_10.

(** * Properties *)

(** ** Bytes *)

Lemma Bytes_to_Z_range (b : byte) : 0 <= Bytes.to_Z b < 256.
Proof.
  unfold Bytes.to_Z. pose proof (Byte.to_N_bounded b) as Hb.
  split; [apply N2Z.is_nonneg|].
  change 256 with (Z.of_N 256). apply N2Z.inj_lt. lia.
Qed.

Lemma Bytes_to_Z_of_Z (z : Z) : Bytes.to_Z (Bytes.of_Z z) = z mod 256.
Proof.
  unfold Bytes.of_Z, Bytes.to_Z.
  assert (Hr : 0 <= z mod 256 < 256) by (apply Z.mod_pos_bound; lia).
  destruct (Byte.of_N (Z.to_N (z mod 256))) as [b|] eqn:E.
  - apply Byte.to_of_N in E. rewrite E. rewrite Z2N.id; lia.
  - apply Byte.of_N_None_iff in E.
    assert (Z.to_N (z mod 256) < 256)%N; [|lia].
    change 256%N with (Z.to_N 256). apply Z2N.inj_lt; lia.
Qed.

(** ** Key generation *)

Section RandomPrivateKey.
Import WireGuard.

Lemma getRandomValues_spec (len : nat) (w : World) :
  exists w',
    getRandomValues len w = (Ok (map (entropy w) (seq 0%nat len)), w')
    /\ (forall k, entropy w' k = entropy w (len + k)%nat)
    /\ console w' = console w
    /\ getKey_requests w' = getKey_requests w
    /\ getKey_reply w' = getKey_reply w.
Proof. eexists; split; [reflexivity|]. simpl. auto. Qed.

Lemma sample_0 (w : World) : sample w 0 = map (entropy w) (seq 0%nat 32).
Proof. reflexivity. Qed.

Lemma entropy_shift (w w' : World) (d len : nat) :
  (forall j, entropy w' j = entropy w (d + j)%nat) ->
  forall base, map (entropy w') (seq base len) = map (entropy w) (seq (d + base)%nat len).
Proof.
  intros Hs. induction len as [|len IH]; intros base; [reflexivity|].
  cbn [seq map]. rewrite Hs. f_equal.
  replace (S (d + base)) with (d + S base)%nat by lia. apply IH.
Qed.

Lemma sample_shift (w w' : World) (k : nat) :
  (forall j, entropy w' j = entropy w (32 + j)%nat) ->
  sample w' k = sample w (S k).
Proof.
  intros Hs. unfold sample.
  replace (32 * S k)%nat with (32 + 32 * k)%nat by lia.
  apply entropy_shift, Hs.
Qed.

(** One turn of the loop. *)
Lemma randomPrivateKey_loop_S (n : Z) (i : nat) (w w1 : World) (b32 : list byte) :
  getRandomValues 32 w = (Ok b32, w1) ->
  randomPrivateKey_loop n (S i) w =
    if valid_scalar n (bytesToNumberLE b32) then (Ok b32, w1)
    else randomPrivateKey_loop n i w1.
Proof.
  intros Hget. change (randomPrivateKey_loop n (S i) w) with
    (bind (getRandomValues 32)
          (fun b32 => if valid_scalar n (bytesToNumberLE b32) then ret b32
                      else randomPrivateKey_loop n i) w).
  unfold bind. rewrite Hget. destruct (valid_scalar n (bytesToNumberLE b32)); reflexivity.
Qed.

Lemma randomPrivateKey_loop_Ok (n : Z) (i : nat) :
  forall (w w' : World) (b32 : list byte),
    randomPrivateKey_loop n i w = (Ok b32, w') ->
    length b32 = 32%nat /\ valid_scalar n (bytesToNumberLE b32) = true.
Proof.
  induction i as [|i IH]; intros w w' b32 Hrun.
  - discriminate.
  - destruct (getRandomValues_spec 32 w) as (w1 & Hget & _).
    rewrite (randomPrivateKey_loop_S n i w w1 _ Hget) in Hrun.
    assert (Hlen : length (map (entropy w) (seq 0%nat 32)) = 32%nat)
      by (rewrite length_map, length_seq; reflexivity).
    revert Hrun Hlen. generalize (map (entropy w) (seq 0%nat 32)) as sampled.
    intros sampled Hrun Hlen.
    destruct (valid_scalar n (bytesToNumberLE sampled)) eqn:Hv.
    + injection Hrun as <- _. split; assumption.
    + eapply IH. exact Hrun.
Qed.

Lemma randomPrivateKey_loop_Throw (n : Z) (i : nat) :
  forall (w : World),
    (forall k, (k < i)%nat -> valid_scalar n (bytesToNumberLE (sample w k)) = false) ->
    exists w',
      randomPrivateKey_loop n i w = (Throw PRNG_broken, w')
      /\ getKey_requests w' = getKey_requests w.
Proof.
  induction i as [|i IH]; intros w Hbad.
  - eexists. split; reflexivity.
  - destruct (getRandomValues_spec 32 w) as (w1 & Hget & Hent & _ & Hreq & _).
    rewrite (randomPrivateKey_loop_S n i w w1 _ Hget).
    rewrite <- sample_0, (Hbad 0%nat) by lia.
    destruct (IH w1) as (w' & Hrun & Hreq').
    + intros k Hk. rewrite (sample_shift w w1 k Hent). apply Hbad. lia.
    + exists w'. split; [exact Hrun | congruence].
Qed.

(** The key returned is the first sample in range. *)
Lemma randomPrivateKey_loop_first (n : Z) (i : nat) :
  forall (w : World) (k : nat),
    (k < i)%nat ->
    valid_scalar n (bytesToNumberLE (sample w k)) = true ->
    (forall j, (j < k)%nat -> valid_scalar n (bytesToNumberLE (sample w j)) = false) ->
    exists w', randomPrivateKey_loop n i w = (Ok (sample w k), w').
Proof.
  induction i as [|i IH]; intros w k Hk Hvalid Hbefore; [lia|].
  destruct (getRandomValues_spec 32 w) as (w1 & Hget & Hent & _).
  rewrite (randomPrivateKey_loop_S n i w w1 _ Hget), <- sample_0.
  destruct k as [|k].
  - rewrite Hvalid. exists w1. reflexivity.
  - rewrite (Hbefore 0%nat) by lia.
    destruct (IH w1 k) as (w' & Hrun).
    + lia.
    + rewrite (sample_shift w w1 k Hent). exact Hvalid.
    + intros j Hj. rewrite (sample_shift w w1 j Hent). apply Hbefore. lia.
    + exists w'. rewrite Hrun, (sample_shift w w1 k Hent). reflexivity.
Qed.

Lemma valid_scalar_iff (n num : Z) : valid_scalar n num = true <-> 1 < num < n.
Proof. unfold valid_scalar. rewrite andb_true_iff, !Z.ltb_lt. tauto. Qed.

Lemma randomPrivateKey_Some (c : CURVE.t) (w : World) :
  randomPrivateKey (Some c) w = randomPrivateKey_loop (CURVE.n c) 1024 w.
Proof. reflexivity. Qed.

Lemma randomPrivateKey_None (w : World) :
  randomPrivateKey None w = (Throw {| message := "BigInt not supported" |}, w).
Proof. reflexivity. Qed.

(** C1.  A successful call of [randomPrivateKey] returns 32 bytes whose
    little-endian value lies strictly between 1 and [CURVE.n]; when the
    first 1024 samples of 32 random bytes all fall outside that range the
    call throws; and without [CURVE] it throws at once, before any random
    byte is drawn. *)
Theorem randomPrivateKey_spec (curve : option CURVE.t) (w : World) :
  (forall b32 w',
      randomPrivateKey curve w = (Ok b32, w') ->
      length b32 = 32%nat
      /\ exists c, curve = Some c /\ 1 < bytesToNumberLE b32 < CURVE.n c)
  /\ (forall c,
        curve = Some c ->
        (forall k, (k < 1024)%nat ->
                   ~ 1 < bytesToNumberLE (sample w k) < CURVE.n c) ->
        exists w', randomPrivateKey curve w = (Throw PRNG_broken, w'))
  /\ (curve = None ->
      randomPrivateKey curve w = (Throw {| message := "BigInt not supported" |}, w)).
Proof.
  split; [|split].
  - intros b32 w' Hrun. destruct curve as [c|]; [|discriminate].
    rewrite randomPrivateKey_Some in Hrun.
    apply randomPrivateKey_loop_Ok in Hrun as [Hlen Hv].
    split; [exact Hlen|]. exists c. split; [reflexivity|].
    apply valid_scalar_iff, Hv.
  - intros c -> Hbad. rewrite randomPrivateKey_Some.
    destruct (randomPrivateKey_loop_Throw (CURVE.n c) 1024 w) as (w' & Hrun & _).
    + intros k Hk. specialize (Hbad k Hk).
      destruct (valid_scalar _ _) eqn:Hv; [|reflexivity].
      apply valid_scalar_iff in Hv. contradiction.
    + exists w'. exact Hrun.
  - intros ->. apply randomPrivateKey_None.
Qed.

Lemma randomPrivateKey_spec_witness :
  (length (repeat x02 32) = 32%nat
   /\ exists c, Some ed25519 = Some c /\ 1 < bytesToNumberLE (repeat x02 32) < CURVE.n c)
  /\ (exists w', randomPrivateKey (Some ed25519) (stuck_generator xff) = (Throw PRNG_broken, w'))
  /\ randomPrivateKey None (stuck_generator x02)
     = (Throw {| message := "BigInt not supported" |}, stuck_generator x02).
Proof.
  split; [|split].
  - apply (proj1 (randomPrivateKey_spec (Some ed25519) (stuck_generator x02))
             (repeat x02 32) (stuck_generator x02)).
    vm_compute. reflexivity.
  - apply (proj1 (proj2 (randomPrivateKey_spec (Some ed25519) (stuck_generator xff)))
             ed25519 eq_refl).
    intros k _. vm_compute. intros [_ H]. discriminate H.
  - apply (proj2 (proj2 (randomPrivateKey_spec None (stuck_generator x02))) eq_refl).
Defined.

End RandomPrivateKey.

(** ** X25519 key derivation *)

Section X25519.
Import WireGuard.
Context `{Externals}.

Lemma clamp_low (b : byte) :
  let v := Z.land (Bytes.to_Z b) 0xf8 in
  0 <= v < 256 /\ v mod 8 = 0.
Proof. destruct b; vm_compute; repeat split; discriminate. Qed.

Lemma clamp_high (b : byte) :
  let v := Z.lor (Z.land (Bytes.to_Z b) 0x7f) 0x40 in
  64 <= v <= 127 /\ Z.land (Bytes.to_Z b) 0x7f < 256 /\ 0 <= Z.land (Bytes.to_Z b) 0x7f.
Proof. destruct b; vm_compute; repeat split; discriminate. Qed.

Lemma Bytes_get_set_eq (a : list byte) (i : nat) (v : Z) :
  (i < length a)%nat -> 0 <= v < 256 -> Bytes.get (Bytes.set a i v) i = v.
Proof.
  intros Hi Hv. unfold Bytes.get, Bytes.set.
  rewrite list_lookup_insert_eq by exact Hi.
  rewrite Bytes_to_Z_of_Z. apply Z.mod_small. exact Hv.
Qed.

Lemma Bytes_get_set_ne (a : list byte) (i j : nat) (v : Z) :
  i <> j -> Bytes.get (Bytes.set a i v) j = Bytes.get a j.
Proof.
  intros Hij. unfold Bytes.get, Bytes.set.
  rewrite list_lookup_insert_ne by exact Hij. reflexivity.
Qed.

Lemma Bytes_get_to_Z (a : list byte) (i : nat) (b : byte) :
  a !! i = Some b -> Bytes.get a i = Bytes.to_Z b.
Proof. intros E. unfold Bytes.get. rewrite E. reflexivity. Qed.

(** C2.  On an input that decodes from base64, [getX25519PrivateKey]
    returns the base64 encoding of a 32-byte key that is the first half of
    the SHA-512 digest of the decoded input with byte 0 and byte 31
    clamped: byte 0 has its low three bits cleared, so it is divisible by
    8, byte 31 has its top bit cleared and bit 6 set, so it lies between
    64 and 127, and the bytes in between are those of the digest. *)
Theorem getX25519PrivateKey_clamps (privateKey : string) (decoded : list byte) :
  base64StringToUint8Array privateKey = Ok decoded ->
  length (sha512 decoded) = 64%nat ->
  exists key : list byte,
    getX25519PrivateKey privateKey = Ok (uint8ArrayToBase64String key)
    /\ length key = 32%nat
    /\ Bytes.get key 0 = Z.land (Bytes.get (sha512 decoded) 0) 0xf8
    /\ Bytes.get key 0 mod 8 = 0
    /\ Bytes.get key 31 = Z.lor (Z.land (Bytes.get (sha512 decoded) 31) 0x7f) 0x40
    /\ 64 <= Bytes.get key 31 <= 127
    /\ (forall i, (0 < i < 31)%nat -> key !! i = sha512 decoded !! i).
Proof.
  intros Hdecode Hlen. exists (clamped (sha512 decoded)).
  assert (Hrun : getX25519PrivateKey privateKey
                 = Ok (uint8ArrayToBase64String (clamped (sha512 decoded)))).
  { unfold getX25519PrivateKey. rewrite Hdecode. reflexivity. }
  split; [exact Hrun|]. clear Hrun Hdecode.
  unfold clamped. set (digest := sha512 decoded) in *.
  assert (Hlen32 : length (take 32 digest) = 32%nat) by (rewrite length_take; lia).
  destruct (lookup_lt_is_Some_2 digest 0) as [b0 Hb0]; [lia|].
  destruct (lookup_lt_is_Some_2 digest 31) as [b31 Hb31]; [lia|].
  assert (Ht0 : take 32 digest !! 0%nat = Some b0) by (rewrite lookup_take_lt; [exact Hb0 | lia]).
  assert (Ht31 : take 32 digest !! 31%nat = Some b31) by (rewrite lookup_take_lt; [exact Hb31 | lia]).
  rewrite (Bytes_get_to_Z _ _ _ Ht0).
  set (k1 := Bytes.set (take 32 digest) 0 _).
  assert (Hk1 : length k1 = 32%nat) by (unfold k1, Bytes.set; rewrite length_insert; exact Hlen32).
  assert (Hg1 : Bytes.get k1 31 = Bytes.to_Z b31).
  { unfold k1. rewrite Bytes_get_set_ne by lia. apply Bytes_get_to_Z, Ht31. }
  rewrite Hg1.
  set (k2 := Bytes.set k1 31 _).
  assert (Hk2 : length k2 = 32%nat) by (unfold k2, Bytes.set; rewrite length_insert; exact Hk1).
  destruct (clamp_low b0) as [Hr0 Hm0]. destruct (clamp_high b31) as (Hr31 & Hlt & Hge).
  assert (Hg2 : Bytes.get k2 31 = Z.land (Bytes.to_Z b31) 0x7f).
  { unfold k2. apply Bytes_get_set_eq; lia. }
  rewrite Hg2.
  set (k3 := Bytes.set k2 31 _).
  assert (H0 : Bytes.get k3 0 = Z.land (Bytes.to_Z b0) 0xf8).
  { unfold k3, k2. rewrite !Bytes_get_set_ne by lia.
    unfold k1. apply Bytes_get_set_eq; lia. }
  assert (H31 : Bytes.get k3 31 = Z.lor (Z.land (Bytes.to_Z b31) 0x7f) 0x40).
  { unfold k3. apply Bytes_get_set_eq; lia. }
  rewrite (Bytes_get_to_Z _ _ _ Hb0), (Bytes_get_to_Z _ _ _ Hb31), H0, H31.
  repeat split; try (exact Hm0 || lia).
  - unfold k3, Bytes.set. rewrite length_insert. exact Hk2.
  - intros i Hi. unfold k3, k2, k1, Bytes.set.
    rewrite !list_lookup_insert_ne by lia.
    apply lookup_take_lt. lia.
Qed.

End X25519.

Lemma getX25519PrivateKey_clamps_witness :
  exists key : list byte,
    @WireGuard.getX25519PrivateKey legacy_browser "AAAAAAAAAAAAAAAAAAAAAAAAAAAAAAAAAAAAAAAAAAA="
    = Ok (@WireGuard.uint8ArrayToBase64String legacy_browser key)
    /\ length key = 32%nat
    /\ Bytes.get key 0 mod 8 = 0
    /\ 64 <= Bytes.get key 31 <= 127.
Proof.
  destruct (@getX25519PrivateKey_clamps legacy_browser
              "AAAAAAAAAAAAAAAAAAAAAAAAAAAAAAAAAAAAAAAAAAA=" (repeat x00 32))
    as (key & Hrun & Hlen & _ & Hlow & _ & Hhigh & _).
  - vm_compute. reflexivity.
  - vm_compute. reflexivity.
  - exists key. auto.
Defined.

(** What the reference environment computes on the all-zero key. *)
Example getX25519PrivateKey_zero_key :
  @WireGuard.getX25519PrivateKey legacy_browser "AAAAAAAAAAAAAAAAAAAAAAAAAAAAAAAAAAAAAAAAAAA="
  = Ok "UEatwduoOIZ7K7v90MNCPli1eXC1JnqQ9XlgkkqH8VY=".
Proof. vm_compute. reflexivity. Qed.

(** ** Key pair: fallback to the server *)

Section GetKeyPair.
Import WireGuard.
Context `{Externals}.

(** Drawing private keys touches nothing but the generator. *)
Lemma randomPrivateKey_loop_frame (n : Z) (i : nat) :
  forall (w w' : World) (r : result (list byte)),
    randomPrivateKey_loop n i w = (r, w') ->
    console w' = console w
    /\ getKey_reply w' = getKey_reply w
    /\ getKey_requests w' = getKey_requests w.
Proof.
  induction i as [|i IH]; intros w w' r Hrun.
  - injection Hrun as _ <-. auto.
  - destruct (getRandomValues_spec 32 w) as (w1 & Hget & _ & Hc & Hq & Hr).
    rewrite (randomPrivateKey_loop_S n i w w1 _ Hget) in Hrun.
    destruct (valid_scalar n _).
    + injection Hrun as _ <-. auto.
    + apply IH in Hrun as (-> & -> & ->). auto.
Qed.

Lemma randomPrivateKey_frame (curve : option CURVE.t) (w w' : World) (r : result (list byte)) :
  randomPrivateKey curve w = (r, w') ->
  console w' = console w
  /\ getKey_reply w' = getKey_reply w
  /\ getKey_requests w' = getKey_requests w.
Proof.
  destruct curve as [c|].
  - rewrite randomPrivateKey_Some. apply randomPrivateKey_loop_frame.
  - rewrite randomPrivateKey_None. intros Hrun. injection Hrun as _ <-. auto.
Qed.

Lemma getKeyPair_try_frame (curve : option CURVE.t) (w w' : World) (r : result Keys.t) :
  getKeyPair_try curve w = (r, w') ->
  console w' = console w
  /\ getKey_reply w' = getKey_reply w
  /\ getKey_requests w' = getKey_requests w.
Proof.
  unfold getKeyPair_try, bind. intros Hrun.
  destruct (randomPrivateKey curve w) as [[privateKey|e] w1] eqn:Hkey;
    apply randomPrivateKey_frame in Hkey.
  - unfold getPublicKey, lift in Hrun.
    destruct (Point_fromPrivateKey_toRawBytes privateKey);
      injection Hrun as _ <-; exact Hkey.
  - injection Hrun as _ <-. exact Hkey.
Qed.

(** C3, as amended.  When generation on the client fails, [getKeyPair]
    catches the error, logs it on the console together with a notice,
    and falls back on its own to the server: it sends one [getKey]
    request and returns the key pair of the answer, unarmored; it throws
    only what that one request threw. *)
Theorem getKeyPair_falls_back (curve : option CURVE.t) (w w1 : World) (e : Error) :
  getKeyPair_try curve w = (Throw e, w1) ->
  exists w2,
    getKeyPair curve w = (served_keys (getKey_reply w), w2)
    /\ console w2 = (console w ++ [console_warn e; fallback_notice])%list
    /\ getKey_requests w2 = S (getKey_requests w).
Proof.
  intros Htry. pose proof (getKeyPair_try_frame _ _ _ _ Htry) as (Hc & Hr & Hq).
  unfold getKeyPair, try_catch. rewrite Htry.
  unfold getKeyPair_catch, bind, log, api_getKey. cbn [entropy console getKey_reply getKey_requests].
  rewrite Hr. destruct (getKey_reply w) as [keyPair|e'].
  - eexists. split; [reflexivity|]. cbn [console getKey_requests].
    rewrite Hc, Hq, <- app_assoc. split; reflexivity.
  - eexists. split; [reflexivity|]. cbn [console getKey_requests].
    rewrite Hc, Hq, <- app_assoc. split; reflexivity.
Qed.

End GetKeyPair.

Lemma getKeyPair_falls_back_witness :
  exists w2,
    @WireGuard.getKeyPair legacy_browser None served_generator
    = (WireGuard.served_keys (WireGuard.getKey_reply served_generator), w2)
    /\ WireGuard.console w2
       = (WireGuard.console served_generator
          ++ [WireGuard.console_warn {| message := "BigInt not supported" |};
              WireGuard.fallback_notice])%list
    /\ WireGuard.getKey_requests w2 = S (WireGuard.getKey_requests served_generator).
Proof.
  apply (@getKeyPair_falls_back legacy_browser None served_generator served_generator).
  vm_compute. reflexivity.
Defined.

(** C3 as written fails: in a browser without BigInt generation on the
    client throws, and [getKeyPair] still returns a key pair, the one the
    server generated. *)
Lemma getKeyPair_substitutes_server_keys : ~ WireGuard.no_substitute_key_pair.
Proof.
  intros Hclaim.
  refine (Hclaim legacy_browser None served_generator served_generator
            {| message := "BigInt not supported" |} eq_refl
            {| WireGuard.Keys.privateKey :=
                 "MC4CAQAwBQYDK2VwBCIEIAABAgMEBQYHCAkKCwwNDg8QERITFBUWFxgZGhscHR4f";
               WireGuard.Keys.publicKey :=
                 "MCowBQYDK2VwAyEAA6EHv/POEL4dcN0Y50vAmWfk1jCbpQ1fHdyGZBJVMbg=" |}
            _ _).
  vm_compute. reflexivity.
Qed.

(** ** Revocation *)

Section Revocation.
Import WireGuard.

Lemma truthy_nonempty (s : string) : JsString.truthy s = true <-> s <> "".
Proof. destruct s; simpl; split; congruence. Qed.

Lemma truthy_empty (s : string) : JsString.truthy s = false <-> s = "".
Proof. destruct s; simpl; split; congruence. Qed.

(** C6.  [getDeleteFilter] names the certificate to the server by one
    identifier, chosen in a fixed order: the serial number when there is
    one, else the fingerprint of the public key when there is one, else
    the public key. *)
Theorem getDeleteFilter_priority (certificate : Certificate.t) :
  (Certificate.serialNumber certificate <> "" ->
   getDeleteFilter certificate = SerialNumber (Certificate.serialNumber certificate))
  /\ (Certificate.serialNumber certificate = "" ->
      Certificate.publicKeyFingerprint certificate <> "" ->
      getDeleteFilter certificate
      = ClientPublicKeyFingerprint (Certificate.publicKeyFingerprint certificate))
  /\ (Certificate.serialNumber certificate = "" ->
      Certificate.publicKeyFingerprint certificate = "" ->
      getDeleteFilter certificate = ClientPublicKey (Certificate.publicKey certificate)).
Proof.
  unfold getDeleteFilter. repeat split.
  - intros Hs. apply truthy_nonempty in Hs. rewrite Hs. reflexivity.
  - intros Hs Hf. apply truthy_empty in Hs. apply truthy_nonempty in Hf.
    rewrite Hs, Hf. reflexivity.
  - intros Hs Hf. apply truthy_empty in Hs. apply truthy_empty in Hf.
    rewrite Hs, Hf. reflexivity.
Qed.

(** C5.  When the server answers the deletion request with [Count = 0],
    [askForRevocation] raises a warning and leaves the certificate state
    as it was: the cache, [removedCertificates] and [certificates].  When
    [Count] is not zero the cache entry of the fingerprint is deleted,
    the fingerprint is appended to the [removedCertificates] the callback
    saw and the certificate is filtered out of the [certificates] it saw.
    In every other course (the modal is closed, the request fails) the
    certificate state is unchanged and nothing is notified. *)
Theorem askForRevocation_by_count (render : State) (certificate : Certificate.t)
    (confirmation : result unit) (server : CertificateDeletionParams -> result Z)
    (c : Component) :
  let c' := askForRevocation render certificate confirmation server c in
  let fingerprint := Certificate.publicKeyFingerprint certificate in
  (forall u, confirmation = Ok u ->
     server (getDeleteFilter certificate) = Ok 0 ->
     same_certificates c c'
     /\ notifications c' = (notifications c ++ [not_found_warning certificate])%list)
  /\ (forall u Count, confirmation = Ok u ->
        server (getDeleteFilter certificate) = Ok Count -> Count <> 0 ->
        certificateCache c' = delete fingerprint (certificateCache c)
        /\ removedCertificates (state c') = (removedCertificates render ++ [fingerprint])%list
        /\ certificates (state c')
           = List.filter
               (fun c0 => negb (String.eqb (Certificate.id c0) (Certificate.id certificate)))
               (certificates render)
        /\ notifications c' = (notifications c ++ [revoked_notice certificate])%list)
  /\ ((forall u Count, confirmation = Ok u ->
         server (getDeleteFilter certificate) = Ok Count -> False) ->
      same_certificates c c' /\ notifications c' = notifications c).
Proof.
  intros c' fingerprint. subst c'. unfold askForRevocation, same_certificates.
  split; [|split].
  - intros u -> Hs. rewrite Hs. cbn. auto.
  - intros u Count -> Hs Hne. rewrite Hs.
    destruct (Z.eqb_spec Count 0) as [->|_]; [contradiction|].
    cbn. auto.
  - intros Hno. destruct confirmation as [u|e]; [|cbn; auto].
    destruct (server (getDeleteFilter certificate)) as [Count|e] eqn:Hs; [|cbn; auto].
    exfalso. exact (Hno u Count eq_refl eq_refl).
Qed.

Lemma getDeleteFilter_priority_witness :
  getDeleteFilter laptop = SerialNumber "1234"
  /\ getDeleteFilter phone = ClientPublicKeyFingerprint "fp-phone"
  /\ getDeleteFilter router = ClientPublicKey "cHVibGljLWtleS1yb3V0ZXI=".
Proof.
  split; [|split].
  - apply (proj1 (getDeleteFilter_priority laptop)). discriminate.
  - apply (proj1 (proj2 (getDeleteFilter_priority phone))); [reflexivity | discriminate].
  - apply (proj2 (proj2 (getDeleteFilter_priority router))); reflexivity.
Defined.

Lemma askForRevocation_by_count_witness :
  (same_certificates settings_page
     (askForRevocation (state settings_page) laptop (Ok tt) (fun _ => Ok 0) settings_page)
   /\ notifications
        (askForRevocation (state settings_page) laptop (Ok tt) (fun _ => Ok 0) settings_page)
      = [not_found_warning laptop])
  /\ (certificateCache
        (askForRevocation (state settings_page) laptop (Ok tt) (fun _ => Ok 1) settings_page)
      = delete "fp-laptop" (certificateCache settings_page)
      /\ removedCertificates
           (state (askForRevocation (state settings_page) laptop (Ok tt) (fun _ => Ok 1)
                     settings_page))
         = ["fp-laptop"]
      /\ certificates
           (state (askForRevocation (state settings_page) laptop (Ok tt) (fun _ => Ok 1)
                     settings_page))
         = [phone]
      /\ notifications
           (askForRevocation (state settings_page) laptop (Ok tt) (fun _ => Ok 1) settings_page)
         = [revoked_notice laptop])
  /\ (same_certificates settings_page
        (askForRevocation (state settings_page) laptop (Throw {| message := "closed" |})
           (fun _ => Ok 1) settings_page)
      /\ notifications
           (askForRevocation (state settings_page) laptop (Throw {| message := "closed" |})
              (fun _ => Ok 1) settings_page)
         = []).
Proof.
  split; [|split].
  - exact (proj1 (askForRevocation_by_count (state settings_page) laptop (Ok tt)
                    (fun _ => Ok 0) settings_page) tt eq_refl eq_refl).
  - refine (proj1 (proj2 (askForRevocation_by_count (state settings_page) laptop (Ok tt)
                            (fun _ => Ok 1) settings_page)) tt 1 eq_refl eq_refl _).
    discriminate.
  - refine (proj2 (proj2 (askForRevocation_by_count (state settings_page) laptop
                            (Throw {| message := "closed" |}) (fun _ => Ok 1)
                            settings_page)) _).
    intros u Count Hc. discriminate Hc.
Defined.

End Revocation.

(** ** The certificate cache *)

Section CertificateCache.
Import WireGuard.
Context `{Externals}.

Lemma is_removed_In (removed : list string) (k : string) :
  is_removed removed k = true <-> In k removed.
Proof.
  unfold is_removed. rewrite existsb_exists. split.
  - intros (x & Hin & Heq). apply String.eqb_eq in Heq. subst. exact Hin.
  - intros Hin. exists k. split; [exact Hin | apply String.eqb_refl].
Qed.

Lemma num_or_0 (a : Z) : num_or a 0 = a.
Proof. unfold num_or. destruct (Z.eqb_spec a 0); congruence. Qed.

Lemma cache_grows_refl (removed : list string) (cache : gmap string Certificate.t) :
  cache_grows removed cache cache.
Proof. intros k. destruct (cache !! k); auto. Qed.

Lemma cache_grows_trans (removed : list string) (a b c : gmap string Certificate.t) :
  cache_grows removed a b -> cache_grows removed b c -> cache_grows removed a c.
Proof.
  intros Hab Hbc k. specialize (Hab k). specialize (Hbc k).
  destruct (c !! k) as [n|], (b !! k) as [m|], (a !! k) as [o|];
    try discriminate; try exact I; auto.
  - destruct Hbc as [->|(Hf & Hr & Hle)]; [exact Hab|].
    destruct Hab as [->|(_ & _ & Hle')]; right; repeat split; auto; lia.
  - destruct Hbc as [->|(Hf & Hr & _)]; [exact Hab | auto].
Qed.

(** One guarded assignment [certificateCache[fingerprint] = certificate]. *)
Lemma cache_grows_insert (removed : list string) (cache : gmap string Certificate.t)
    (certificate : Certificate.t) :
  let k := Certificate.publicKeyFingerprint certificate in
  is_removed removed k
  || (Certificate.expirationTime certificate <? cached_expiration cache k) = false ->
  cache_grows removed cache (<[k := certificate]> cache).
Proof.
  intros k Hguard j. apply orb_false_iff in Hguard as [Hrem Hexp].
  assert (Hnot : ~ In k removed).
  { intros Hin. apply is_removed_In in Hin. congruence. }
  apply Z.ltb_ge in Hexp. unfold cached_expiration in Hexp.
  destruct (decide (k = j)) as [<-|Hne].
  - rewrite lookup_insert_eq. destruct (cache !! k) as [old|]; [|auto].
    rewrite num_or_0 in Hexp. right. auto.
  - rewrite lookup_insert_ne by exact Hne. destruct (cache !! j); auto.
Qed.

Lemma cache_certificates_grows (removed : list string) (certs : list Certificate.t) :
  forall cache, cache_grows removed cache (cache_certificates removed certs cache).
Proof.
  induction certs as [|certificate rest IH]; intros cache; cbn [cache_certificates].
  - apply cache_grows_refl.
  - destruct (is_removed removed _ || _) eqn:Hguard; [apply IH|].
    eapply cache_grows_trans; [|apply IH].
    apply cache_grows_insert, Hguard.
Qed.

Lemma getCertificateModel_fields (fresh : string) (dto : CertificateDTO.t) (peer : Peer.t)
    (privateKey id : option string) :
  let certificate := fst (getCertificateModel fresh dto peer privateKey id) in
  Certificate.publicKeyFingerprint certificate = CertificateDTO.ClientKeyFingerprint dto
  /\ Certificate.expirationTime certificate = CertificateDTO.ExpirationTime dto
  /\ Certificate.serialNumber certificate = CertificateDTO.SerialNumber dto
  /\ Certificate.publicKey certificate = CertificateDTO.ClientKey dto.
Proof.
  unfold getCertificateModel. destruct (negb (name_truthy id) && _); cbn; auto.
Qed.

Lemma cache_results_grows (removed : list string) (peer : Peer.t)
    (dtos : list CertificateDTO.t) :
  forall cache ids,
    cache_grows removed cache (cache_results removed peer dtos cache ids).1.1.
Proof.
  induction dtos as [|dto rest IH]; intros cache ids; cbn [cache_results].
  - apply cache_grows_refl.
  - destruct (is_removed removed _ || _) eqn:Hguard.
    + specialize (IH cache ids).
      destruct (cache_results removed peer rest cache ids) as [[cache' rest'] ids'].
      exact IH.
    + destruct (getCertificateModel (ids 0%nat) dto peer None None)
        as [certificate dto'] eqn:Hmodel.
      pose proof (getCertificateModel_fields (ids 0%nat) dto peer None None) as Hf.
      rewrite Hmodel in Hf. cbn [fst] in Hf. destruct Hf as (Hfp & Hexp & _).
      specialize (IH (<[CertificateDTO.ClientKeyFingerprint dto := certificate]> cache)
                     (fun k => ids (S k))).
      destruct (cache_results removed peer rest _ _) as [[cache' rest'] ids'].
      cbn [fst] in *. eapply cache_grows_trans; [|exact IH].
      rewrite <- Hfp. apply cache_grows_insert. rewrite Hfp, Hexp. exact Hguard.
Qed.

Lemma getCertificates_grows (peer : Peer.t) (c : Component) :
  cache_grows (removedCertificates (state c)) (certificateCache c)
              (certificateCache (snd (getCertificates peer c))).
Proof.
  unfold getCertificates.
  pose proof (cache_results_grows (removedCertificates (state c)) peer
                (certificatesResult c) (certificateCache c) (fresh_ids c)) as Hres.
  destruct (cache_results _ _ _ _ _) as [[cache dtos] ids]. cbn [fst snd certificateCache] in *.
  eapply cache_grows_trans; [exact Hres | apply cache_certificates_grows].
Qed.

Lemma getCertificates_returned (peer : Peer.t) (c : Component) :
  fst (getCertificates peer c)
  = Object_values (certificateCache (snd (getCertificates peer c))).
Proof.
  unfold getCertificates.
  destruct (cache_results _ _ _ _ _) as [[cache dtos] ids]. reflexivity.
Qed.

Lemma cache_clean_spec (removed : list string) (cache : gmap string Certificate.t) :
  cache_clean removed cache = true
  <-> forall k cert, cache !! k = Some cert ->
                     ~ In (Certificate.publicKeyFingerprint cert) removed.
Proof.
  unfold cache_clean, Object_values. rewrite forallb_forall. split.
  - intros Hall k cert Hk Hin.
    assert (Hmem : In cert (map_to_list cache).*2).
    { apply list_elem_of_In, list_elem_of_fmap. exists (k, cert). split; [reflexivity|].
      apply elem_of_map_to_list. exact Hk. }
    apply Hall in Hmem. apply is_removed_In in Hin. rewrite Hin in Hmem. discriminate.
  - intros Hall cert Hmem.
    apply list_elem_of_In, list_elem_of_fmap in Hmem as ([k cert'] & -> & Hk).
    apply elem_of_map_to_list in Hk. cbn.
    destruct (is_removed removed _) eqn:Hrem; [|reflexivity].
    apply is_removed_In in Hrem. exfalso. exact (Hall k cert' Hk Hrem).
Qed.

Lemma cache_grows_clean (removed : list string) (cache cache' : gmap string Certificate.t) :
  cache_grows removed cache cache' ->
  cache_clean removed cache = true -> cache_clean removed cache' = true.
Proof.
  intros Hgrow Hclean. apply cache_clean_spec. intros k new Hnew.
  specialize (Hgrow k). rewrite Hnew in Hgrow.
  destruct (cache !! k) as [old|] eqn:Hold.
  - destruct Hgrow as [->|(Hf & Hr & _)].
    + eapply cache_clean_spec; eassumption.
    + rewrite Hf. exact Hr.
  - destruct Hgrow as [Hf Hr]. rewrite Hf. exact Hr.
Qed.

Lemma Object_values_clean (removed : list string) (cache : gmap string Certificate.t)
    (cert : Certificate.t) :
  cache_clean removed cache = true ->
  In cert (Object_values cache) ->
  ~ In (Certificate.publicKeyFingerprint cert) removed.
Proof.
  intros Hclean Hin. unfold Object_values in Hin.
  apply list_elem_of_In, list_elem_of_fmap in Hin as ([k cert'] & -> & Hk).
  apply elem_of_map_to_list in Hk.
  eapply cache_clean_spec; eassumption.
Qed.

Lemma getCertificates_state (peer : Peer.t) (c : Component) :
  state (snd (getCertificates peer c)) = state c.
Proof.
  unfold getCertificates.
  destruct (cache_results _ _ _ _ _) as [[cache dtos] ids]. reflexivity.
Qed.

(** C8, as amended.  On every call [getCertificates] files a certificate
    in the cache only if its fingerprint is not in [removedCertificates],
    and replaces a cached entry only by a certificate that expires no
    earlier, so that every entry stays and its expiration time never
    decreases.  When the cache holds no revoked certificate before the
    call, it holds none after it and the list returned has none. *)
Theorem getCertificates_invariants (peer : Peer.t) (c : Component) :
  let removed := removedCertificates (state c) in
  let cache := certificateCache c in
  let returned := fst (getCertificates peer c) in
  let cache' := certificateCache (snd (getCertificates peer c)) in
  (forall k new, cache' !! k = Some new -> cache !! k <> Some new ->
                 Certificate.publicKeyFingerprint new = k /\ ~ In k removed)
  /\ (forall k old new, cache !! k = Some old -> cache' !! k = Some new -> new <> old ->
                        Certificate.expirationTime old <= Certificate.expirationTime new)
  /\ (forall k old, cache !! k = Some old ->
                    exists new, cache' !! k = Some new
                                /\ Certificate.expirationTime old <= Certificate.expirationTime new)
  /\ (cache_clean removed cache = true ->
      cache_clean removed cache' = true
      /\ forall cert, In cert returned ->
                      ~ In (Certificate.publicKeyFingerprint cert) removed).
Proof.
  intros removed cache returned cache'.
  pose proof (getCertificates_grows peer c) as Hgrow.
  fold removed cache cache' in Hgrow.
  split; [|split; [|split]].
  - intros k new Hnew Hold. specialize (Hgrow k). rewrite Hnew in Hgrow.
    destruct (cache !! k) as [old|]; [|exact Hgrow].
    destruct Hgrow as [->|(Hf & Hr & _)]; [congruence | auto].
  - intros k old new Hold Hnew Hne. specialize (Hgrow k). rewrite Hnew, Hold in Hgrow.
    destruct Hgrow as [->|(_ & _ & Hle)]; [congruence | exact Hle].
  - intros k old Hold. specialize (Hgrow k). rewrite Hold in Hgrow.
    destruct (cache' !! k) as [new|]; [|discriminate].
    exists new. split; [reflexivity|].
    destruct Hgrow as [->|(_ & _ & Hle)]; [lia | exact Hle].
  - intros Hclean.
    assert (Hclean' : cache_clean removed cache' = true)
      by (eapply cache_grows_clean; eassumption).
    split; [exact Hclean'|].
    intros cert Hin. unfold returned in Hin. rewrite getCertificates_returned in Hin.
    eapply Object_values_clean; eassumption.
Qed.

Lemma cache_grows_keyed (removed : list string) (cache cache' : gmap string Certificate.t) :
  cache_grows removed cache cache' -> cache_keyed cache -> cache_keyed cache'.
Proof.
  intros Hgrow Hkeyed k cert Hk. specialize (Hgrow k). rewrite Hk in Hgrow.
  destruct (cache !! k) as [old|] eqn:Hold.
  - destruct Hgrow as [->|(Hf & _)]; [apply Hkeyed, Hold | exact Hf].
  - destruct Hgrow as [Hf _]. exact Hf.
Qed.

Lemma askForRevocation_cache (render : State) (certificate : Certificate.t)
    (confirmation : result unit) (server : CertificateDeletionParams -> result Z)
    (c : Component) :
  let c' := askForRevocation render certificate confirmation server c in
  (certificateCache c' = certificateCache c
   /\ removedCertificates (state c') = removedCertificates (state c))
  \/ (certificateCache c'
      = delete (Certificate.publicKeyFingerprint certificate) (certificateCache c)
      /\ removedCertificates (state c')
         = removedCertificates render ++ [Certificate.publicKeyFingerprint certificate]).
Proof.
  unfold askForRevocation.
  destruct confirmation as [u|e]; [|left; split; reflexivity].
  destruct (server (getDeleteFilter certificate)) as [Count|e]; [|left; split; reflexivity].
  destruct (Count =? 0); [left | right]; split; reflexivity.
Qed.

Lemma delete_lookup_Some (cache : gmap string Certificate.t) (fingerprint k : string)
    (cert : Certificate.t) :
  delete fingerprint cache !! k = Some cert ->
  cache !! k = Some cert /\ k <> fingerprint.
Proof.
  intros Hk. destruct (decide (fingerprint = k)) as [<-|Hne].
  - rewrite lookup_delete_eq in Hk. discriminate.
  - rewrite lookup_delete_ne in Hk by exact Hne. split; [exact Hk | congruence].
Qed.

(** Whatever the component goes through, every entry of the cache stays
    filed under the fingerprint of its certificate. *)
Lemma step_keyed (s s' : Session) :
  step s s' ->
  cache_keyed (certificateCache (page s)) -> cache_keyed (certificateCache (page s')).
Proof.
  intros Hstep Hkeyed.
  destruct Hstep as [peer s | r certificate s Hr Hc | before after p confirmation server s Hp
                    | dtos s | r certificate notice s Hr]; cbn [page rendered clicked finished
                                                               fetched created].
  - eapply cache_grows_keyed; [apply getCertificates_grows | exact Hkeyed].
  - exact Hkeyed.
  - destruct (askForRevocation_cache (closure p) (revoked p) confirmation server (page s))
      as [[-> _]|[-> _]]; [exact Hkeyed|].
    intros k cert Hk. apply delete_lookup_Some in Hk as [Hk _]. apply Hkeyed, Hk.
  - exact Hkeyed.
  - exact Hkeyed.
Qed.

Lemma reachable_keyed (s : Session) :
  reachable s -> cache_keyed (certificateCache (page s)).
Proof.
  induction 1 as [ids | s s' Hreach Hkeyed Hstep].
  - intros k cert Hk. cbn in Hk. rewrite lookup_empty in Hk. discriminate.
  - eapply step_keyed; eassumption.
Qed.

End CertificateCache.

Section CertificateCacheRun.
Import WireGuard.

Lemma getCertificates_invariants_witness :
  cache_clean (removedCertificates (state revoked_page))
    (certificateCache (snd (@getCertificates legacy_browser default_peer revoked_page)))
  = true.
Proof.
  refine (proj1 (proj2 (proj2 (proj2
            (@getCertificates_invariants legacy_browser default_peer revoked_page))) _)).
  vm_compute. reflexivity.
Defined.

(** On that page the call returns one certificate, the extended phone. *)
Example getCertificates_revoked_page :
  map (fun cert => (Certificate.publicKeyFingerprint cert, Certificate.serialNumber cert,
                    Certificate.expirationTime cert, Certificate.id cert))
      (fst (@getCertificates legacy_browser default_peer revoked_page))
  = [("fp-phone", "5678", 1900000000, "c1700000000100-0.0")].
Proof. vm_compute. reflexivity. Qed.

(** What the page shows in the course of the three overlapping
    revocations: the laptop, revoked first, is listed again once the
    revocation of the phone has written the list of revoked certificates
    its render had read, and it is still listed, now as a revoked
    certificate, after the revocation of the tablet. *)
Example overlapping_revocations :
  map (fun s =>
         (removedCertificates (state (page s)),
          map (fun fingerprint =>
                 existsb (fun cert => String.eqb (Certificate.publicKeyFingerprint cert)
                                                 fingerprint)
                         (fst (@getCertificates legacy_browser default_peer (page s))))
              ["fp-laptop"; "fp-phone"; "fp-tablet"]))
      [overlap_1; overlap_6; overlap_9; overlap_11]
  = [ ([], [true; true; true]);
      (["fp-laptop"], [false; true; true]);
      (["fp-phone"], [true; false; true]);
      (["fp-laptop"; "fp-tablet"], [true; true; false]) ].
Proof. vm_compute. reflexivity. Qed.

Lemma reachable_overlap : @reachable legacy_browser overlap_11.
Proof.
  assert (H1 : @reachable legacy_browser overlap_1)
    by (eapply reachable_step; [apply reachable_started | apply step_fetch]).
  assert (H2 : @reachable legacy_browser overlap_2)
    by (eapply reachable_step; [exact H1 | apply step_render]).
  assert (H3 : @reachable legacy_browser overlap_3).
  { eapply reachable_step; [exact H2|]. apply step_click; [left; reflexivity|].
    split; [vm_compute; auto | split; [reflexivity | vm_compute; discriminate]]. }
  assert (H4 : @reachable legacy_browser overlap_4)
    by (eapply reachable_step; [exact H3 | apply step_render]).
  assert (H5 : @reachable legacy_browser overlap_5).
  { eapply reachable_step; [exact H4|]. apply step_click; [left; reflexivity|].
    split; [vm_compute; auto | split; [reflexivity | vm_compute; discriminate]]. }
  assert (H6 : @reachable legacy_browser overlap_6)
    by (eapply reachable_step; [exact H5 | apply step_finish; reflexivity]).
  assert (H7 : @reachable legacy_browser overlap_7)
    by (eapply reachable_step; [exact H6 | apply step_render]).
  assert (H8 : @reachable legacy_browser overlap_8).
  { eapply reachable_step; [exact H7|]. apply step_click; [left; reflexivity|].
    split; [vm_compute; auto | split; [reflexivity | vm_compute; discriminate]]. }
  assert (H9 : @reachable legacy_browser overlap_9)
    by (eapply reachable_step; [exact H8 | apply step_finish; reflexivity]).
  assert (H10 : @reachable legacy_browser overlap_10)
    by (eapply reachable_step; [exact H9 | apply step_render]).
  eapply reachable_step; [exact H10 | apply step_finish; reflexivity].
Qed.

(** C8 as written fails: a revocation writes the list of revoked
    certificates that the render of its callback had read, so revocations
    that overlap lose one another's entries, the cache is filled again
    with a revoked certificate, and [getCertificates] returns it while its
    fingerprint is in [removedCertificates]. *)
Lemma overlapping_revocations_return_revoked : ~ WireGuard.never_returns_revoked.
Proof.
  intros Hclaim.
  apply (Hclaim legacy_browser overlap_11 default_peer (shown 0 listed_laptop)
           reachable_overlap).
  - vm_compute. auto.
  - vm_compute. auto.
Qed.

End CertificateCacheRun.

(** ** The configuration file *)

Section ConfigTemplate.
Import WireGuard.
Context `{Externals}.

Lemma append_assoc (a b c : string) : (a +:+ b) +:+ c = a +:+ (b +:+ c).
Proof.
  induction a as [|ch a IH]; [reflexivity|].
  change (String ch ((a +:+ b) +:+ c) = String ch (a +:+ (b +:+ c))).
  rewrite IH. reflexivity.
Qed.

Lemma lines_nonempty (s : string) : JsString.lines s <> [].
Proof.
  induction s as [|c s IH]; cbn; [discriminate|].
  destruct (Ascii.eqb c _); [discriminate|].
  destruct (JsString.lines s); [contradiction | discriminate].
Qed.

Lemma lines_app (a b : string) :
  JsString.lines (a +:+ JsString.LF +:+ b) = (JsString.lines a ++ JsString.lines b)%list.
Proof.
  induction a as [|c a IH]; [reflexivity|].
  change (String c a +:+ JsString.LF +:+ b) with (String c (a +:+ JsString.LF +:+ b)).
  cbn [JsString.lines]. rewrite IH.
  destruct (Ascii.eqb c _); [reflexivity|].
  pose proof (lines_nonempty a) as Hne.
  destruct (JsString.lines a); [contradiction | reflexivity].
Qed.

Lemma inner_line_app (l a s : string) : JsString.inner_line l s -> JsString.inner_line l (a +:+ s).
Proof. intros Hs pre. rewrite <- append_assoc. apply Hs. Qed.

Lemma inner_line_here (l rest : string) :
  JsString.lines l = [l] ->
  JsString.inner_line l (JsString.LF +:+ l +:+ JsString.LF +:+ rest).
Proof.
  intros Hl pre. rewrite !lines_app, Hl.
  apply in_or_app. right. left. reflexivity.
Qed.

Lemma inner_line_here2 (p x rest : string) :
  JsString.lines (p +:+ x) = [p +:+ x] ->
  JsString.inner_line (p +:+ x) (JsString.LF +:+ p +:+ x +:+ JsString.LF +:+ rest).
Proof.
  intros Hl. rewrite <- (append_assoc p x). apply inner_line_here, Hl.
Qed.

Lemma platform_is_windows_iff (features : option Features) :
  platform_is_windows features = true
  <-> opt_feature features "platform" = Some (FStr "Windows").
Proof.
  unfold platform_is_windows.
  destruct (opt_feature features "platform") as [[s|z|b|]|]; try (split; discriminate).
  split.
  - intros Heq. apply String.eqb_eq in Heq. cbn in Heq. congruence.
  - intros Heq. injection Heq as ->. reflexivity.
Qed.

(** C9.  The configuration [getConfigTemplate] produces has the line
    [Address = 10.2.0.2/32], the line [DNS = 10.2.0.1] and the line
    [AllowedIPs = ...] whose value is [0.0.0.0/1, 128.0.0.0/1] exactly when
    the [platform] feature is [Windows] and [0.0.0.0/0] in every other
    case; after the comments of the interface section the text is fixed but
    for the private key, the peer and that value. *)
Theorem getConfigTemplate_fixed_lines (interfacePrivateKey : string)
    (name : option string) (features : option Features) (peer : Peer.t) :
  let config := getConfigTemplate interfacePrivateKey name features peer in
  In "Address = 10.2.0.2/32" (JsString.lines config)
  /\ In "DNS = 10.2.0.1" (JsString.lines config)
  /\ In ("AllowedIPs = " +:+ AllowedIPs features) (JsString.lines config)
  /\ (exists comments,
        config = "[Interface]" +:+ comments
                 +:+ JsString.LF +:+ "PrivateKey = " +:+ interfacePrivateKey
                 +:+ JsString.LF +:+ "Address = 10.2.0.2/32"
                 +:+ JsString.LF +:+ "DNS = 10.2.0.1"
                 +:+ JsString.LF
                 +:+ JsString.LF +:+ "[Peer]"
                 +:+ JsString.LF +:+ "# " +:+ feature_or features "peerName" (Peer.name peer)
                 +:+ JsString.LF +:+ "PublicKey = "
                 +:+ feature_or features "peerPublicKey" (Peer.publicKey peer)
                 +:+ JsString.LF +:+ "AllowedIPs = " +:+ AllowedIPs features
                 +:+ JsString.LF +:+ "Endpoint = "
                 +:+ feature_or features "peerIp" (Peer.ip peer) +:+ ":51820")
  /\ (AllowedIPs features = "0.0.0.0/1, 128.0.0.0/1"
      <-> opt_feature features "platform" = Some (FStr (PLATFORM_value WINDOWS)))
  /\ (opt_feature features "platform" <> Some (FStr (PLATFORM_value WINDOWS)) ->
      AllowedIPs features = "0.0.0.0/0").
Proof.
  intros config. subst config. unfold getConfigTemplate.
  split; [|split; [|split; [|split; [|split]]]].
  - apply (fun Hi => Hi "[Interface]"). do 5 apply inner_line_app.
    apply inner_line_here. reflexivity.
  - apply (fun Hi => Hi "[Interface]"). do 7 apply inner_line_app.
    apply inner_line_here. reflexivity.
  - apply (fun Hi => Hi "[Interface]"). do 18 apply inner_line_app.
    apply inner_line_here2.
    unfold AllowedIPs. destruct (platform_is_windows features); reflexivity.
  - eexists. rewrite <- (append_assoc _ _ (JsString.LF +:+ _)). reflexivity.
  - unfold AllowedIPs. rewrite <- platform_is_windows_iff.
    destruct (platform_is_windows features); split; congruence.
  - intros Hnot. unfold AllowedIPs.
    destruct (platform_is_windows features) eqn:Hw; [|reflexivity].
    apply platform_is_windows_iff in Hw. contradiction.
Qed.

End ConfigTemplate.

Section ConfigTemplateRun.
Import WireGuard.

Lemma getConfigTemplate_fixed_lines_witness :
  AllowedIPs (Some [("platform", FStr "Android")]) = "0.0.0.0/0".
Proof.
  refine (proj2 (proj2 (proj2 (proj2 (proj2
            (@getConfigTemplate_fixed_lines legacy_browser privateKeyPlaceholder None
               (Some [("platform", FStr "Android")]) default_peer))))) _).
  vm_compute. discriminate.
Defined.

(** The file made for a certificate issued for Windows. *)
Example getConfigTemplate_windows :
  @getConfigTemplate legacy_browser privateKeyPlaceholder (Some "desk")
    (Some [("platform", FStr "Windows"); ("NetShieldLevel", FNum 1);
           ("peerName", FStr "CH#7"); ("peerIp", FStr "185.159.157.1")])
    default_peer
  = "[Interface]
# Key for desk
# NetShieldLevel = 1
PrivateKey = *****
Address = 10.2.0.2/32
DNS = 10.2.0.1

[Peer]
# CH#7
PublicKey = TcpH/ozM+f16aiEzzmKap78Ifdb62JAeGFiBqKeqjVo=
AllowedIPs = 0.0.0.0/1, 128.0.0.0/1
Endpoint = 185.159.157.1:51820".
Proof. vm_compute. reflexivity. Qed.

End ConfigTemplateRun.

(** ** The logical-properties shim *)

Section LogicalProperties.
Import Logical.
Context `{Browser}.


Lemma getIsNonEnding_targeted (el : HTMLLinkElement) :
  rel el = "stylesheet" ->
  resolvable (Link el) = true ->
  getIsNonEnding (href el) = Ok (targeted (Link el)).
Proof.
  intros Hrel. unfold resolvable, targeted, getIsNonEnding, ending. rewrite Hrel. cbn.
  destruct (URL_toString (href el) origin); [reflexivity | discriminate].
Qed.

Lemma getIsNonEnding_targeted_at_call (el : HTMLLinkElement) :
  matches_selector el = true ->
  resolvable_at_call (Link el) = true ->
  getIsNonEnding (href el) = Ok (targeted_at_call (Link el)).
Proof.
  intros Hrel. unfold resolvable_at_call, targeted_at_call, getIsNonEnding, ending.
  rewrite Hrel. cbn [andb].
  destruct (URL_toString (href el) origin); [reflexivity | discriminate].
Qed.

Lemma targeted_stylesheet (el : HTMLLinkElement) :
  rel el <> "stylesheet" -> targeted (Link el) = false.
Proof.
  intros Hrel. unfold targeted. apply String.eqb_neq in Hrel. rewrite Hrel. reflexivity.
Qed.

Lemma mutateLinkElement_middle (pre rest : list Node) (el : HTMLLinkElement) (o : bool) :
  mutateLinkElement (length pre) {| nodes := pre ++ Link el :: rest; observing := o |}
  = (Ok tt,
     {| nodes :=
          pre ++ Link {| rel := rel el;
                         href := JsString.replace_first ".css" ending (href el) |} :: rest;
        observing := o |}).
Proof.
  unfold mutateLinkElement. cbn [nodes observing].
  rewrite list_lookup_middle by reflexivity.
  replace (length pre) with (length pre + 0)%nat at 1 by lia.
  rewrite insert_app_r. reflexivity.
Qed.

Lemma rewritten_untargeted (node : Node) : targeted node = false -> rewritten node = node.
Proof. intros Ht. destruct node; cbn [rewritten]; [rewrite Ht|..]; reflexivity. Qed.

Lemma rewritten_targeted (el : HTMLLinkElement) :
  targeted (Link el) = true ->
  rewritten (Link el)
  = Link {| rel := rel el; href := JsString.replace_first ".css" ending (href el) |}.
Proof. intros Ht. cbn [rewritten]. rewrite Ht. reflexivity. Qed.





Lemma getIsNonEndingLinkElement_targeted (node : Node) :
  resolvable node = true -> getIsNonEndingLinkElement node = Ok (targeted node).
Proof.
  intros Hres. destruct node as [el|tag|type]; try reflexivity.
  unfold getIsNonEndingLinkElement. cbn [nodeType tagName].
  rewrite bool_decide_eq_true_2 by reflexivity. cbn [Z.eqb Pos.eqb andb].
  destruct (String.eqb_spec (rel el) "stylesheet") as [Hrel|Hrel].
  - apply getIsNonEnding_targeted; assumption.
  - rewrite (targeted_stylesheet el Hrel). reflexivity.
Qed.




End LogicalProperties.

Section LogicalPropertiesRun.
Import Logical.



(** The shim at work on the account page, and on a stylesheet loaded
    later. *)
Example initLogicalProperties_account_page :
  @initLogicalProperties old_browser account_page = (Ok tt, shimmed_page)
  /\ @head_append old_browser [stylesheet "https://account.proton.me/assets/lazy.css"] shimmed_page
     = (Ok tt, {| nodes := nodes shimmed_page ++ [stylesheet "https://account.proton.me/assets/lazy.ltr.css"];
                  observing := true |}).
Proof. split; vm_compute; reflexivity. Qed.

(** A link with [rel="STYLESHEET"] is rewritten when it is on the page
    at call time and left alone when it is added later. *)
Example initLogicalProperties_shouting_page :
  @initLogicalProperties old_browser shouting_page
  = (Ok tt,
     {| nodes := [ STYLESHEET "https://account.proton.me/assets/index.ltr.css";
                   stylesheet "https://account.proton.me/assets/theme.ltr.css" ];
        observing := true |})
  /\ @head_append old_browser [STYLESHEET "https://account.proton.me/assets/lazy.css"]
       shimmed_page
     = (Ok tt,
        {| nodes := nodes shimmed_page
                    ++ [STYLESHEET "https://account.proton.me/assets/lazy.css"];
           observing := true |}).
Proof. split; vm_compute; reflexivity. Qed.

End LogicalPropertiesRun.

(** ** The reminder widget *)

Section Reminder.
Import EmailReminder.

Variable env : Env.
Variable props : Props.

Lemma fetchEvent_byUID_excluded (allEventsByUID : list CalendarEvent.t) :
  events_by_UID env props = Resolved allEventsByUID ->
  lists_occurrence (occurrence_of props)
    (events_considered (header_text (calendarIdHeader props)) allEventsByUID) = true ->
  fetchEvent_byUID env props (occurrence_of props) = Rejected (new_Error EVENT_NOT_FOUND_ERROR).
Proof.
  intros Hall Hex. unfold fetchEvent_byUID. unfold events_by_UID in Hall. rewrite Hall.
  destruct allEventsByUID as [|e rest]; [reflexivity|].
  unfold lists_occurrence in Hex. rewrite Hex. reflexivity.
Qed.

Lemma fetchEvent_searched :
  searched_by_UID env props = true ->
  fetchEvent env props (occurrence_of props) = fetchEvent_byUID env props (occurrence_of props).
Proof.
  unfold searched_by_UID, fetchEvent. intros Hs.
  destruct (bool_decide (eventIsRecurringHeader props = Some "1")); [reflexivity|].
  destruct (api_getEvent env _ _); [discriminate | reflexivity].
Qed.

Lemma ready_effect (w : Widget) :
  ready props w = true ->
  effect env props w
  = match try_block env props w with
    | (Returned, w') => finally_block env props w'
    | (Threw reason calendarData, w') =>
        finally_block env props (catch_block env reason calendarData w')
    end.
Proof.
  unfold ready, effect. intros Hr.
  repeat (apply andb_true_iff in Hr as [Hr ?]).
  rewrite Hr.
  repeat match goal with
         | Hx : header_truthy _ = true |- _ => rewrite Hx; clear Hx
         | Hx : negb ?b = true |- _ => apply negb_true_iff in Hx; rewrite Hx; clear Hx
         end.
  reflexivity.
Qed.

Lemma always_mounted_at (cp : Checkpoint) :
  always_mounted env = true -> isMounted env cp = true.
Proof.
  unfold always_mounted. cbn [forallb]. intros Hm.
  repeat (apply andb_true_iff in Hm as [? Hm]). destruct cp; assumption.
Qed.

(** Once the [try] block has thrown [EVENT_NOT_FOUND] in a mounted
    widget, the banner is what gets rendered. *)
Lemma not_found_rendered (calendarData : option VisualCalendar.t) (w : Widget) :
  always_mounted env = true ->
  messageHasDecryptionError props = false ->
  render props
    (finally_block env props
       (catch_block env (new_Error EVENT_NOT_FOUND_ERROR) calendarData w))
  = ErrorView EventNotFoundBanner.
Proof.
  intros Hm Hd. unfold finally_block, catch_block.
  rewrite !(always_mounted_at _ Hm). cbn [new_Error instanceofError thrown_message negb].
  destruct calendarData as [data|]; cbn; rewrite Hd; reflexivity.
Qed.

Lemma ready_no_decryption_error (w : Widget) :
  ready props w = true -> messageHasDecryptionError props = false.
Proof.
  unfold ready. intros Hr. repeat (apply andb_true_iff in Hr as [Hr ?]).
  apply negb_true_iff. assumption.
Qed.

Lemma isUntilExpired_spec (veventComponent : VcalVeventComponent) (occurrence : number) :
  isUntilExpired env veventComponent occurrence = true
  <-> exists r u z,
        rrule veventComponent = Some r /\ until r = Some u /\ occurrence = Num z
        /\ getUnixTime_toUTCDate env u < z.
Proof.
  unfold isUntilExpired. split.
  - destruct (rrule veventComponent) as [[[u|] c]|]; try discriminate.
    destruct occurrence as [z|]; try discriminate.
    intros Hlt. apply Z.ltb_lt in Hlt. exists {| until := Some u; count := c |}, u, z. auto.
  - intros (r & u & z & -> & Hu & -> & Hlt). destruct r as [u' c]. cbn in Hu. subst u'.
    apply Z.ltb_lt. exact Hlt.
Qed.

Lemma isCountExpired_spec (veventComponent : VcalVeventComponent) (occurrence : number) :
  isCountExpired env veventComponent occurrence = true
  <-> exists r n,
        rrule veventComponent = Some r /\ count r = Some n
        /\ getOccurrencesBetween env veventComponent
             (times_SECOND occurrence) (times_SECOND occurrence) = [].
Proof.
  unfold isCountExpired. split.
  - destruct (rrule veventComponent) as [[u [n|]]|]; try discriminate.
    destruct (getOccurrencesBetween _ _ _ _) eqn:Hocc; try discriminate.
    intros _. exists {| until := u; count := Some n |}, n. auto.
  - intros (r & n & -> & Hn & ->). destruct r as [u c]. cbn in Hn. subst c. reflexivity.
Qed.

(** C7, as amended.  In a mounted widget that is ready to load:
    - if the event is searched by UID and the events considered, those
      in the reminder's calendar or, when there is none, all those
      fetched, list the occurrence among the Exdates of one of them, or
    - if the event was fetched and decrypted and the occurrence lies
      past the [until] of its rule, or its rule has a [count] and yields
      no occurrence at that time,
    then the banner [Event is no longer in your calendar] is rendered. *)
Theorem reminder_event_not_found (w : Widget) :
  ready props w = true ->
  always_mounted env = true ->
  (forall allEventsByUID calendars,
      searched_by_UID env props = true ->
      events_by_UID env props = Resolved allEventsByUID ->
      getCalendars env = Resolved calendars ->
      lists_occurrence (occurrence_of props)
        (events_considered (header_text (calendarIdHeader props)) allEventsByUID) = true ->
      render props (effect env props w) = ErrorView EventNotFoundBanner)
  /\ (forall Event calendars calendarData veventComponent,
        fetchEvent env props (occurrence_of props) = Resolved Event ->
        getCalendars env = Resolved calendars ->
        reactivated env (calendar_of calendars Event) = Resolved calendarData ->
        getCalendarEventRaw env Event = Resolved veventComponent ->
        isUntilExpired env veventComponent (occurrence_of props) = true
        \/ isCountExpired env veventComponent (occurrence_of props) = true ->
        render props (effect env props w) = ErrorView EventNotFoundBanner).
Proof.
  intros Hr Hm. pose proof (ready_no_decryption_error w Hr) as Hd.
  rewrite (ready_effect w Hr). unfold try_block. fold (occurrence_of props).
  split.
  - intros allEventsByUID calendars Hs Hall Hcal Hex.
    rewrite (fetchEvent_searched Hs), (fetchEvent_byUID_excluded _ Hall Hex), Hcal.
    cbn [Promise_all]. apply not_found_rendered; assumption.
  - intros Event calendars calendarData veventComponent Hf Hcal Hkeys Hraw Hexp.
    rewrite Hf, Hcal. cbn [Promise_all]. rewrite Hkeys, Hraw.
    rewrite !(always_mounted_at _ Hm). cbn [negb].
    assert (Hor : isUntilExpired env veventComponent (occurrence_of props)
                  || isCountExpired env veventComponent (occurrence_of props) = true)
      by (apply orb_true_iff; exact Hexp).
    rewrite Hor. apply not_found_rendered; assumption.
Qed.

End Reminder.

Section ReminderRun.
Import EmailReminder.

Lemma reminder_event_not_found_witness :
  render reminder (effect (session [home_event [1700006400]] (meeting None))
                          reminder fresh_widget)
  = ErrorView EventNotFoundBanner
  /\ render reminder (effect (session [home_event []] (meeting (Some ended_rule)))
                             reminder fresh_widget)
     = ErrorView EventNotFoundBanner.
Proof.
  split.
  - refine (proj1 (reminder_event_not_found
                     (session [home_event [1700006400]] (meeting None))
                     reminder fresh_widget _ _)
                  [home_event [1700006400]] [work_calendar; home_calendar] _ _ _ _);
      vm_compute; reflexivity.
  - refine (proj2 (reminder_event_not_found
                     (session [home_event []] (meeting (Some ended_rule)))
                     reminder fresh_widget _ _)
                  (home_event []) [work_calendar; home_calendar] (Some home_calendar)
                  (meeting (Some ended_rule)) _ _ _ _ _);
      try (vm_compute; reflexivity).
    left. vm_compute. reflexivity.
Defined.

(** C7 as written fails: the search by UID returns the event of the
    reminder's calendar and a copy in another calendar; the copy lists
    the occurrence among its Exdates, the widget considers the events of
    the reminder's calendar only and shows the event. *)
Lemma excluded_elsewhere_is_shown : ~ excluded_occurrence_claim.
Proof.
  intros Hclaim.
  specialize (Hclaim (session [home_event []; work_event] (meeting None))
                     reminder fresh_widget [home_event []; work_event]
                     [work_calendar; home_calendar]
                     eq_refl eq_refl eq_refl eq_refl eq_refl eq_refl).
  vm_compute in Hclaim. discriminate Hclaim.
Qed.

(** What is rendered in that session. *)
Example reminder_shows_home_event :
  render reminder (effect (session [home_event []; work_event] (meeting None))
                          reminder fresh_widget)
  = EventDetails (home_event []) (meeting None) home_calendar false.
Proof. vm_compute. reflexivity. Qed.

Example UTC_seconds_ended_rule :
  option_map UTC_seconds (until ended_rule) = Some 1698883199.
Proof. vm_compute. reflexivity. Qed.

End ReminderRun.

(** ** The download provider *)

Section UseDownloadProvider.
Import DownloadProvider.
Context {Download Fn : Type}.

Lemma useContext_none (ancestors : list (Ancestor Download Fn)) :
  useContext_DownloadContext ancestors = None
  <-> forallb (fun a => negb (is_provider a)) ancestors = true.
Proof.
  induction ancestors as [|[hook|name] above IH]; cbn.
  - tauto.
  - split; discriminate.
  - exact IH.
Qed.

Lemma useContext_nearest (below above : list (Ancestor Download Fn))
    (hook : Hook.t Download Fn) :
  forallb (fun a => negb (is_provider a)) below = true ->
  useContext_DownloadContext (below ++ DownloadProvider hook :: above)
  = Some (DownloadProvider_value hook).
Proof.
  induction below as [|[h|name] below IH]; cbn; intros Hb.
  - reflexivity.
  - discriminate.
  - apply IH, Hb.
Qed.

(** C10.  [useDownloadProvider] throws [Trying to use uninitialized
    DownloadProvider] exactly when the context is null, that is when no
    [DownloadProvider] is mounted above; below a [DownloadProvider] it
    returns the value of the nearest one as it is. *)
Theorem useDownloadProvider_spec (ancestors : list (Ancestor Download Fn)) :
  (useDownloadProvider ancestors = Throw uninitialized
   <-> useContext_DownloadContext ancestors = None)
  /\ (useContext_DownloadContext ancestors = None
      <-> forallb (fun a => negb (is_provider a)) ancestors = true)
  /\ (forall state, useContext_DownloadContext ancestors = Some state ->
                    useDownloadProvider ancestors = Ok state)
  /\ (forall below hook above,
        ancestors = below ++ DownloadProvider hook :: above ->
        forallb (fun a => negb (is_provider a)) below = true ->
        useDownloadProvider ancestors = Ok (DownloadProvider_value hook)).
Proof.
  split; [|split; [|split]].
  - unfold useDownloadProvider.
    destruct (useContext_DownloadContext ancestors); split; try discriminate; reflexivity.
  - apply useContext_none.
  - intros state Hctx. unfold useDownloadProvider. rewrite Hctx. reflexivity.
  - intros below hook above -> Hbelow. unfold useDownloadProvider.
    rewrite (useContext_nearest below above hook Hbelow). reflexivity.
Qed.

End UseDownloadProvider.

Section UseDownloadProviderRun.
Import DownloadProvider.

Lemma useDownloadProvider_spec_witness :
  useDownloadProvider
    [OtherElement "TransferManager"; DownloadProvider transfers; OtherElement "App"]
  = Ok (DownloadProvider_value transfers)
  /\ @useDownloadProvider string string [OtherElement "TransferManager"; OtherElement "App"]
     = Throw uninitialized.
Proof.
  split.
  - refine (proj2 (proj2 (proj2 (useDownloadProvider_spec _)))
              [OtherElement "TransferManager"] transfers [OtherElement "App"] _ _);
      reflexivity.
  - refine (proj2 (proj1 (useDownloadProvider_spec
                            [OtherElement "TransferManager"; OtherElement "App"])) _).
    reflexivity.
Defined.

End UseDownloadProviderRun.

(** ** The shim: failures and late nodes *)

Section LogicalEdges.
Import Logical.
Context `{Browser}.

Lemma query_unresolvable (l : list Node) :
  forallb resolvable_at_call l = false ->
  forall at_ : nat,
  exists e el,
    filter_throwing (fun node => getIsNonEnding (href (snd node)))
                    (querySelectorAll_stylesheets at_ l) = Throw e
    /\ In (Link el) l
    /\ matches_selector el = true
    /\ URL_toString (href el) origin = Throw e.
Proof.
  induction l as [|node rest IH]; intros Hres at_; [discriminate|].
  cbn [forallb] in Hres.
  destruct (resolvable_at_call node) eqn:Hnode.
  - cbn [andb] in Hres. destruct (IH Hres (S at_)) as (e & el & Hq & Hin & Hrel & Hurl).
    exists e, el. split; [|split; [right; exact Hin | split; assumption]].
    destruct node as [el0|tag|type]; cbn [querySelectorAll_stylesheets]; try exact Hq.
    destruct (matches_selector el0) eqn:Hrel0; [|exact Hq].
    cbn [filter_throwing snd]. rewrite (getIsNonEnding_targeted_at_call el0 Hrel0 Hnode), Hq.
    reflexivity.
  - destruct node as [el|tag|type]; try discriminate.
    unfold resolvable_at_call in Hnode.
    destruct (matches_selector el) eqn:Hrel; [|discriminate].
    destruct (URL_toString (href el) origin) as [url|e] eqn:Hurl; [discriminate|].
    exists e, el. split; [|split; [left; reflexivity | split; [exact Hrel | exact Hurl]]].
    cbn [querySelectorAll_stylesheets]. rewrite Hrel.
    cbn [filter_throwing snd]. unfold getIsNonEnding. rewrite Hurl. reflexivity.
Qed.

(** X1.  Where the logical property is not supported and the href of some
    link of the page that the selector matches is not a URL,
    [initLogicalProperties] throws what the URL constructor threw on such a
    link and leaves the page as it was: no link is rewritten and nothing
    is observed. *)
Theorem initLogicalProperties_unresolvable (p : Page) :
  CSS_supports logical_radius = false ->
  forallb resolvable_at_call (nodes p) = false ->
  exists e el,
    initLogicalProperties p = (Throw e, p)
    /\ In (Link el) (nodes p)
    /\ matches_selector el = true
    /\ URL_toString (href el) origin = Throw e.
Proof.
  intros Hs Hres. destruct (query_unresolvable (nodes p) Hres 0%nat) as (e & el & Hq & Hrest).
  exists e, el. split; [|exact Hrest].
  unfold initLogicalProperties. fold logical_radius. rewrite Hs.
  unfold bind, queryLocalLinkElements. rewrite Hq. reflexivity.
Qed.



(** X3.  When the observer meets an added stylesheet link whose href is
    not a URL it throws: the nodes added before it in the same record have
    been treated, that node and the ones after it are left as they were
    added. *)
Theorem head_append_unresolvable (p : Page) (good rest : list Node) (bad : Node) :
  observing p = true ->
  forallb resolvable good = true ->
  resolvable bad = false ->
  exists e,
    head_append (good ++ bad :: rest) p
    = (Throw e, {| nodes := nodes p ++ map rewritten good ++ bad :: rest;
                   observing := true |}).
Proof.
  intros Hobs Hgood Hbad. unfold head_append. rewrite Hobs.
  unfold observer_callback. cbn [forEach]. unfold bind at 1.
  assert (Hrun : forall pre,
    exists e,
      forEach on_added_node (seq (length pre) (length (good ++ bad :: rest)))
              {| nodes := pre ++ good ++ bad :: rest; observing := true |}
      = (Throw e, {| nodes := pre ++ map rewritten good ++ bad :: rest;
                     observing := true |})).
  { clear Hobs. induction good as [|node good IH]; intros pre.
    - cbn [app map length seq forEach]. unfold bind at 1, on_added_node at 1. cbn [nodes].
      rewrite list_lookup_middle by reflexivity.
      destruct bad as [el|tag|type]; try discriminate.
      unfold resolvable in Hbad. unfold getIsNonEndingLinkElement. cbn [nodeType tagName].
      rewrite bool_decide_eq_true_2 by reflexivity. cbn [Z.eqb Pos.eqb andb].
      destruct (String.eqb (rel el) "stylesheet"); [|discriminate].
      unfold getIsNonEnding.
      destruct (URL_toString (href el) origin) as [url|e]; [discriminate|].
      exists e. reflexivity.
    - cbn [forallb] in Hgood. apply andb_true_iff in Hgood as [Hnode Hgood].
      destruct (IH Hgood (pre ++ [rewritten node])) as (e & Hrest).
      rewrite <- !app_assoc in Hrest. cbn [app] in Hrest.
      rewrite length_app in Hrest. cbn [length] in Hrest.
      replace (length pre + 1)%nat with (S (length pre)) in Hrest by lia.
      exists e. cbn [app length seq forEach map]. unfold bind at 1.
      unfold on_added_node at 1. cbn [nodes].
      rewrite list_lookup_middle by reflexivity.
      rewrite (getIsNonEndingLinkElement_targeted node Hnode).
      destruct (targeted node) eqn:Ht.
      + destruct node as [el|tag|type]; try discriminate.
        rewrite mutateLinkElement_middle, <- (rewritten_targeted el Ht). exact Hrest.
      + rewrite (rewritten_untargeted node Ht) in *. exact Hrest. }
  destruct (Hrun (nodes p)) as (e & ->). exists e. reflexivity.
Qed.

End LogicalEdges.

Section LogicalEdgesRun.
Import Logical.

Lemma initLogicalProperties_unresolvable_witness :
  exists e el,
    @initLogicalProperties old_browser broken_page = (Throw e, broken_page)
    /\ In (Link el) (nodes broken_page)
    /\ matches_selector el = true
    /\ @URL_toString old_browser (href el) (@origin old_browser) = Throw e.
Proof.
  apply (@initLogicalProperties_unresolvable old_browser broken_page); reflexivity.
Defined.


Lemma head_append_unresolvable_witness :
  exists e,
    @head_append old_browser
      ([stylesheet "https://account.proton.me/assets/a.css"]
       ++ stylesheet "https://[account.proton.me/assets/typo.css"
          :: [stylesheet "https://account.proton.me/assets/b.css"]) shimmed_page
    = (Throw e,
       {| nodes := nodes shimmed_page
                   ++ map (@rewritten old_browser)
                          [stylesheet "https://account.proton.me/assets/a.css"]
                   ++ stylesheet "https://[account.proton.me/assets/typo.css"
                      :: [stylesheet "https://account.proton.me/assets/b.css"];
          observing := true |}).
Proof.
  apply (@head_append_unresolvable old_browser shimmed_page); reflexivity.
Defined.

End LogicalEdgesRun.

(** ** The reminder widget: the other courses of the effect *)

Section ReminderCourses.
Import EmailReminder.

Variable env : Env.
Variable props : Props.

Lemma displayable_effect (w : Widget) :
  displayable props = true ->
  effect env props w
  = if bool_decide (loadedWidget w = Some (message_ID props)) then w
    else match try_block env props w with
         | (Returned, w') => finally_block env props w'
         | (Threw reason calendarData, w') =>
             finally_block env props (catch_block env reason calendarData w')
         end.
Proof.
  unfold displayable, effect. intros Hd.
  repeat (apply andb_true_iff in Hd as [Hd ?]).
  rewrite Hd.
  repeat match goal with
         | Hx : header_truthy _ = true |- _ => rewrite Hx; clear Hx
         | Hx : negb ?b = true |- _ => apply negb_true_iff in Hx; rewrite Hx; clear Hx
         end.
  reflexivity.
Qed.

Lemma not_displayable_effect (w : Widget) :
  displayable props = false ->
  effect env props w = setLoadedWidget "" (setError None w).
Proof.
  unfold displayable, effect. intros Hd.
  destruct (header_truthy (calendarIdHeader props)); [|reflexivity].
  destruct (header_truthy (eventIdHeader props)); [|reflexivity].
  destruct (header_truthy (occurrenceHeader props)); [|reflexivity].
  destruct (header_truthy (sequenceHeader props)); [|reflexivity].
  destruct (messageHasDecryptionError props); [reflexivity | discriminate].
Qed.

Lemma not_displayable_render (w : Widget) :
  displayable props = false ->
  error w = None ->
  render props w = if isLoading w then Skeleton else Nothing.
Proof.
  unfold displayable, render. intros Hd ->.
  destruct (isLoading w); [reflexivity|].
  destruct (calendarEvent w), (vevent w), (calendar w); try reflexivity.
  destruct (header_truthy (calendarIdHeader props)); [|reflexivity].
  destruct (header_truthy (eventIdHeader props)); [|reflexivity].
  destruct (header_truthy (occurrenceHeader props)); [|reflexivity].
  destruct (header_truthy (sequenceHeader props)); [|reflexivity].
  destruct (messageHasDecryptionError props); [reflexivity | discriminate].
Qed.

(** X4.  When a header the widget needs is missing or the message has a
    decryption error, the effect asks nothing of the server: it clears the
    error and the mark of the loaded message, whatever the environment, and
    the widget renders nothing (the skeleton, if it was loading). *)
Theorem effect_not_displayable (w : Widget) :
  displayable props = false ->
  effect env props w = setLoadedWidget "" (setError None w)
  /\ render props (effect env props w) = if isLoading w then Skeleton else Nothing.
Proof.
  intros Hd. rewrite (not_displayable_effect w Hd). split; [reflexivity|].
  rewrite (not_displayable_render (setLoadedWidget "" (setError None w)) Hd eq_refl).
  reflexivity.
Qed.

Lemma finally_mounted (w : Widget) :
  isMounted env Finally = true ->
  isLoading (finally_block env props w) = false
  /\ loadedWidget (finally_block env props w) = Some (message_ID props)
  /\ error (finally_block env props w) = error w
  /\ vevent (finally_block env props w) = vevent w
  /\ calendar (finally_block env props w) = calendar w
  /\ calendarEvent (finally_block env props w) = calendarEvent w
  /\ notifications (finally_block env props w) = notifications w.
Proof. intros Hm. unfold finally_block. rewrite Hm. cbn. auto 10. Qed.

(** X5.  In a mounted widget, a run of the effect that starts loading also
    ends it: whatever the requests answer, the widget is left not loading
    and marked as loaded for the message, so it does not stay on the
    skeleton. *)
Theorem effect_ends_loading (w : Widget) :
  ready props w = true ->
  always_mounted env = true ->
  isLoading (effect env props w) = false
  /\ loadedWidget (effect env props w) = Some (message_ID props)
  /\ render props (effect env props w) <> Skeleton.
Proof.
  intros Hr Hm. rewrite (ready_effect env props w Hr).
  pose proof (always_mounted_at env Finally Hm) as Hf.
  assert (Hboth : forall w', isLoading (finally_block env props w') = false
                             /\ loadedWidget (finally_block env props w')
                                = Some (message_ID props)).
  { intros w'. destruct (finally_mounted w' Hf) as (Hl & Hw & _). auto. }
  assert (Hrender : forall w', isLoading w' = false -> render props w' <> Skeleton).
  { intros w' Hl. unfold render. rewrite Hl.
    destruct (error w'); [destruct (negb _); discriminate|].
    destruct (calendarEvent w'), (vevent w'), (calendar w'); try discriminate.
    destruct (_ || _); discriminate. }
  destruct (try_block env props w) as [[|reason calendarData] w'];
    (split; [apply Hboth | split; [apply Hboth | apply Hrender, Hboth]]).
Qed.

End ReminderCourses.

Section ReminderAgain.
Import EmailReminder.

(** X6.  Running the effect again for the same message changes nothing:
    after a run in a widget that is still mounted at its end, a second run,
    whatever the environment has become, leaves the state as the first run
    left it, so the event is not fetched twice. *)
Theorem effect_idempotent (env env' : Env) (props : Props) (w : Widget) :
  isMounted env Finally = true ->
  effect env' props (effect env props w) = effect env props w.
Proof.
  intros Hf. destruct (displayable props) eqn:Hd.
  - assert (Hloaded : forall w', loadedWidget w' = Some (message_ID props) ->
                                 effect env' props w' = w').
    { intros w' Hl. rewrite (displayable_effect env' props w' Hd), Hl.
      rewrite bool_decide_eq_true_2 by reflexivity. reflexivity. }
    rewrite (displayable_effect env props w Hd).
    destruct (bool_decide (loadedWidget w = Some (message_ID props))) eqn:Hl.
    + apply Hloaded. apply bool_decide_eq_true_1 in Hl. exact Hl.
    + destruct (try_block env props w) as [[|reason calendarData] w'];
        apply Hloaded; apply (finally_mounted env props _ Hf).
  - rewrite (not_displayable_effect env props w Hd).
    rewrite (not_displayable_effect env' props _ Hd). reflexivity.
Qed.

End ReminderAgain.

Section ReminderOutcomes.
Import EmailReminder.

Variable env : Env.
Variable props : Props.

(** X7.  In a mounted widget that is ready to load, when the event is
    fetched and decrypted and its recurrence has not expired, the event is
    shown with the calendar it belongs to and marked outdated exactly when
    its sequence number is beyond the one of the reminder; an event whose
    calendar is not among the user's calendars is not shown. *)
Theorem effect_shows_event (w : Widget) (Event : CalendarEvent.t)
    (calendars : list VisualCalendar.t) (calendarData : option VisualCalendar.t)
    (veventComponent : VcalVeventComponent) :
  ready props w = true ->
  always_mounted env = true ->
  fetchEvent env props (occurrence_of props) = Resolved Event ->
  getCalendars env = Resolved calendars ->
  reactivated env (calendar_of calendars Event) = Resolved calendarData ->
  getCalendarEventRaw env Event = Resolved veventComponent ->
  isUntilExpired env veventComponent (occurrence_of props) = false ->
  isCountExpired env veventComponent (occurrence_of props) = false ->
  render props (effect env props w)
  = match calendarData with
    | Some calendar =>
        EventDetails Event veventComponent calendar (isOutdated props veventComponent)
    | None => Nothing
    end.
Proof.
  intros Hr Hm Hf Hcal Hkeys Hraw Hu Hc.
  rewrite (ready_effect env props w Hr). unfold try_block. fold (occurrence_of props).
  rewrite Hf, Hcal. cbn [Promise_all]. rewrite Hkeys, Hraw.
  rewrite !(always_mounted_at env _ Hm). cbn [negb]. rewrite Hu, Hc. cbn [orb].
  unfold finally_block. rewrite (always_mounted_at env _ Hm).
  unfold render. cbn.
  unfold ready in Hr. repeat (apply andb_true_iff in Hr as [Hr ?]).
  rewrite Hr.
  repeat match goal with
         | Hx : header_truthy _ = true |- _ => rewrite Hx; clear Hx
         | Hx : negb (messageHasDecryptionError _) = true |- _ =>
             apply negb_true_iff in Hx; rewrite Hx; clear Hx
         end.
  destruct calendarData; reflexivity.
Qed.

(** X8.  When the event cannot be decrypted: with its calendar at hand the
    widget shows the banner asking to restore the calendar if the calendar
    needs a user action, and the banner saying that the details cannot be
    decrypted otherwise; without its calendar it shows nothing and raises
    an error notification whose text is the internal code
    [DECRYPTION_ERROR]. *)
Theorem effect_decryption_failure (w : Widget) (Event : CalendarEvent.t)
    (calendars : list VisualCalendar.t) (calendarData : option VisualCalendar.t)
    (reason : Thrown) :
  ready props w = true ->
  always_mounted env = true ->
  fetchEvent env props (occurrence_of props) = Resolved Event ->
  getCalendars env = Resolved calendars ->
  reactivated env (calendar_of calendars Event) = Resolved calendarData ->
  getCalendarEventRaw env Event = Rejected reason ->
  match calendarData with
  | Some calendar =>
      render props (effect env props w)
      = ErrorView (if getDoesCalendarNeedUserAction env calendar
                   then RestoreCalendarBanner else CannotDecryptBanner)
      /\ notifications (effect env props w) = notifications w
  | None =>
      error (effect env props w) = None
      /\ vevent (effect env props w) = vevent w
      /\ calendarEvent (effect env props w) = calendarEvent w
      /\ notifications (effect env props w)
         = notifications w ++ [{| type := "error"; text := Some DECRYPTION_ERROR |}]
  end.
Proof.
  intros Hr Hm Hf Hcal Hkeys Hraw.
  pose proof (ready_no_decryption_error props w Hr) as Hd.
  rewrite (ready_effect env props w Hr). unfold try_block. fold (occurrence_of props).
  rewrite Hf, Hcal. cbn [Promise_all]. rewrite Hkeys, Hraw.
  rewrite !(always_mounted_at env _ Hm). cbn [negb].
  unfold finally_block, catch_block. rewrite !(always_mounted_at env _ Hm).
  cbn [new_Error instanceofError thrown_message negb].
  destruct calendarData as [calendar|].
  - rewrite bool_decide_eq_true_2 by reflexivity.
    destruct (getDoesCalendarNeedUserAction env calendar); cbn; rewrite Hd; auto.
  - cbn. auto.
Qed.

Lemma find_some_In {A} (f : A -> bool) (l : list A) (x : A) :
  List.find f l = Some x -> In x l /\ f x = true.
Proof. apply find_some. Qed.

(** X9.  The event the search by UID settles on is one of the events
    considered, none of which lists the occurrence among its Exdates; it is
    the event that replaces this very occurrence if there is one, else the
    event without recurrence id if there is one. *)
Theorem fetchEvent_byUID_choice (allEventsByUID : list CalendarEvent.t)
    (Event : CalendarEvent.t) :
  events_by_UID env props = Resolved allEventsByUID ->
  fetchEvent_byUID env props (occurrence_of props) = Resolved Event ->
  let events := events_considered (header_text (calendarIdHeader props)) allEventsByUID in
  In Event events
  /\ lists_occurrence (occurrence_of props) events = false
  /\ ((exists e, In e events
                 /\ is_occurrence (CalendarEvent.RecurrenceID e) (occurrence_of props) = true) ->
      is_occurrence (CalendarEvent.RecurrenceID Event) (occurrence_of props) = true)
  /\ ((forall e, In e events ->
                 is_occurrence (CalendarEvent.RecurrenceID e) (occurrence_of props) = false) ->
      (exists e, In e events /\ no_RecurrenceID (CalendarEvent.RecurrenceID e) = true) ->
      no_RecurrenceID (CalendarEvent.RecurrenceID Event) = true).
Proof.
  intros Hall Hrun events. unfold fetchEvent_byUID in Hrun.
  unfold events_by_UID in Hall. rewrite Hall in Hrun.
  destruct allEventsByUID as [|e0 rest]; [discriminate|].
  fold events in Hrun. fold (lists_occurrence (occurrence_of props) events) in Hrun.
  destruct (lists_occurrence (occurrence_of props) events) eqn:Hex; [discriminate|].
  destruct (List.find _ events) as [currentEvent|] eqn:Hfind.
  - injection Hrun as <-. apply find_some_In in Hfind as [Hin Hocc].
    repeat split; auto.
    intros Hnone. rewrite (Hnone _ Hin) in Hocc. discriminate.
  - assert (Hnone : forall e, In e events ->
                      is_occurrence (CalendarEvent.RecurrenceID e) (occurrence_of props)
                      = false).
    { intros e He. apply (find_none _ _ Hfind e He). }
    destruct (List.filter _ events) as [|baseEvent others] eqn:Hbase.
    + destruct events as [|first more] eqn:Hev; [discriminate|].
      injection Hrun as <-. repeat split.
      * left. reflexivity.
      * intros (e & He & Hocc). rewrite (Hnone e He) in Hocc. discriminate.
      * intros _ (e & He & Hno).
        assert (Hin : In e (List.filter
                              (fun e => no_RecurrenceID (CalendarEvent.RecurrenceID e))
                              (first :: more)))
          by (apply filter_In; split; assumption).
        rewrite Hbase in Hin. contradiction.
    + injection Hrun as <-.
      assert (Hin : In baseEvent
                       (List.filter
                          (fun e => no_RecurrenceID (CalendarEvent.RecurrenceID e)) events))
        by (rewrite Hbase; left; reflexivity).
      apply filter_In in Hin as [Hin Hno].
      repeat split; auto.
      intros (e & He & Hocc). rewrite (Hnone e He) in Hocc. discriminate.
Qed.

(** X10.  When a request fails in a mounted widget with anything but the
    not-found code, the failure is notified, after the notice [Unknown
    error] if what was thrown is not an Error; when what was thrown is
    [null] or [undefined] that notice is the only one, because reading the
    message throws.  No banner is set and the event data of the state are
    left as they were, so the widget goes back to what it showed
    before. *)
Theorem effect_request_failure (w : Widget) (reason : Thrown) :
  ready props w = true ->
  always_mounted env = true ->
  Promise_all (calendars_reject_first env)
              (fetchEvent env props (occurrence_of props)) (getCalendars env)
  = Rejected reason ->
  thrown_message reason <> Some EVENT_NOT_FOUND_ERROR ->
  notifications (effect env props w)
  = notifications w
    ++ (if instanceofError reason then []
        else [{| type := "error"; text := Some "Unknown error" |}])
    ++ (if is_nullish reason then []
        else [{| type := "error"; text := thrown_message reason |}])
  /\ error (effect env props w) = None
  /\ render props (effect env props w) = render props (setIsLoading false (setError None w)).
Proof.
  intros Hr Hm Hall Hmsg.
  rewrite (ready_effect env props w Hr). unfold try_block. fold (occurrence_of props).
  rewrite Hall. unfold finally_block, catch_block.
  rewrite !(always_mounted_at env _ Hm). cbn [negb].
  destruct reason as [|is_Error message].
  - cbn. auto.
  - cbn [is_nullish]. rewrite bool_decide_eq_false_2 by exact Hmsg.
    destruct is_Error; cbn; rewrite <- ?app_assoc; auto.
Qed.

(** X11.  When the search by UID finds no event at all, and the request
    for the calendars succeeds or at least does not fail first, the event
    is treated as not found and the banner is rendered. *)
Theorem effect_empty_search (w : Widget) :
  ready props w = true ->
  always_mounted env = true ->
  searched_by_UID env props = true ->
  events_by_UID env props = Resolved [] ->
  (exists calendars, getCalendars env = Resolved calendars)
  \/ calendars_reject_first env = false ->
  render props (effect env props w) = ErrorView EventNotFoundBanner.
Proof.
  intros Hr Hm Hs Hall Hcal.
  rewrite (ready_effect env props w Hr). unfold try_block. fold (occurrence_of props).
  rewrite (fetchEvent_searched env props Hs).
  unfold fetchEvent_byUID. unfold events_by_UID in Hall. rewrite Hall.
  assert (Hrejected :
            Promise_all (calendars_reject_first env)
              (@Rejected CalendarEvent.t (new_Error EVENT_NOT_FOUND_ERROR)) (getCalendars env)
            = Rejected (new_Error EVENT_NOT_FOUND_ERROR)).
  { destruct Hcal as [(calendars & ->)| ->]; [reflexivity|].
    destruct (getCalendars env); reflexivity. }
  rewrite Hrejected. apply not_found_rendered; [exact Hm|].
  apply (ready_no_decryption_error props w Hr).
Qed.

(** X12.  Once the component is unmounted the effect sets nothing any
    more: whatever the requests answer, no banner, no event, no calendar
    and no mark of a loaded message is written to the state. *)
Theorem effect_unmounted (w : Widget) :
  ready props w = true ->
  never_mounted env = true ->
  error (effect env props w) = None
  /\ vevent (effect env props w) = vevent w
  /\ calendar (effect env props w) = calendar w
  /\ calendarEvent (effect env props w) = calendarEvent w
  /\ loadedWidget (effect env props w) = loadedWidget w.
Proof.
  intros Hr Hn. unfold never_mounted in Hn. cbn [forallb] in Hn.
  repeat (apply andb_true_iff in Hn as [?Hcp Hn]).
  repeat match goal with
         | Hx : negb (isMounted env _) = true |- _ => apply negb_true_iff in Hx
         end.
  rewrite (ready_effect env props w Hr). unfold try_block, finally_block, catch_block.
  repeat match goal with
         | Hx : isMounted env _ = false |- _ => rewrite Hx; clear Hx
         end.
  cbn [negb].
  destruct (Promise_all _ _ _) as [[Event calendars]|reason].
  - destruct (reactivated env (calendar_of calendars Event)) as [calendarData|reason].
    + cbn. auto.
    + destruct (instanceofError reason); cbn; auto.
  - destruct (instanceofError reason); cbn; auto.
Qed.

End ReminderOutcomes.

Section ReminderCoursesRun.
Import EmailReminder.

Lemma effect_not_displayable_witness :
  effect (session [home_event []] (meeting None)) headless_reminder showing_meeting
  = setLoadedWidget "" (setError None showing_meeting)
  /\ render headless_reminder
       (effect (session [home_event []] (meeting None)) headless_reminder showing_meeting)
     = Nothing.
Proof.
  exact (effect_not_displayable (session [home_event []] (meeting None))
           headless_reminder showing_meeting eq_refl).
Defined.

Lemma effect_ends_loading_witness :
  isLoading (effect (search_rejected (new_Error "Network error")
                       (session [] (meeting None))) reminder fresh_widget) = false
  /\ loadedWidget (effect (search_rejected (new_Error "Network error")
                             (session [] (meeting None))) reminder fresh_widget)
     = Some "msg-1"
  /\ render reminder (effect (search_rejected (new_Error "Network error")
                                (session [] (meeting None))) reminder fresh_widget)
     <> Skeleton.
Proof.
  exact (effect_ends_loading (search_rejected (new_Error "Network error")
                                (session [] (meeting None)))
           reminder fresh_widget eq_refl eq_refl).
Defined.

Lemma effect_idempotent_witness :
  effect (session [] (meeting None)) reminder
         (effect (session [home_event []] (meeting None)) reminder fresh_widget)
  = effect (session [home_event []] (meeting None)) reminder fresh_widget.
Proof.
  exact (effect_idempotent (session [home_event []] (meeting None))
           (session [] (meeting None)) reminder fresh_widget eq_refl).
Defined.

Lemma effect_shows_event_witness :
  render reminder
    (effect (session [home_event []; edited_occurrence] (meeting None)) reminder fresh_widget)
  = EventDetails edited_occurrence (meeting None) home_calendar false
  /\ render reminder (effect (session [orphan_event] (meeting None)) reminder fresh_widget)
     = Nothing.
Proof.
  split.
  - exact (effect_shows_event (session [home_event []; edited_occurrence] (meeting None))
             reminder fresh_widget edited_occurrence [work_calendar; home_calendar]
             (Some home_calendar) (meeting None)
             eq_refl eq_refl eq_refl eq_refl eq_refl eq_refl eq_refl eq_refl).
  - exact (effect_shows_event (session [orphan_event] (meeting None))
             reminder fresh_widget orphan_event [work_calendar; home_calendar]
             None (meeting None)
             eq_refl eq_refl eq_refl eq_refl eq_refl eq_refl eq_refl eq_refl).
Defined.

Lemma effect_decryption_failure_witness :
  (render reminder
     (effect (undecryptable (session [home_event []] (meeting None))) reminder fresh_widget)
   = ErrorView CannotDecryptBanner
   /\ notifications
        (effect (undecryptable (session [home_event []] (meeting None))) reminder fresh_widget)
      = [])
  /\ (error (effect (undecryptable (session [orphan_event] (meeting None)))
               reminder fresh_widget) = None
      /\ vevent (effect (undecryptable (session [orphan_event] (meeting None)))
                   reminder fresh_widget) = None
      /\ calendarEvent (effect (undecryptable (session [orphan_event] (meeting None)))
                          reminder fresh_widget) = None
      /\ notifications (effect (undecryptable (session [orphan_event] (meeting None)))
                          reminder fresh_widget)
         = [{| type := "error"; text := Some "DECRYPTION_ERROR" |}]).
Proof.
  split.
  - exact (effect_decryption_failure (undecryptable (session [home_event []] (meeting None)))
             reminder fresh_widget (home_event []) [work_calendar; home_calendar]
             (Some home_calendar) (new_Error "Error decrypting session key")
             eq_refl eq_refl eq_refl eq_refl eq_refl eq_refl).
  - exact (effect_decryption_failure (undecryptable (session [orphan_event] (meeting None)))
             reminder fresh_widget orphan_event [work_calendar; home_calendar]
             None (new_Error "Error decrypting session key")
             eq_refl eq_refl eq_refl eq_refl eq_refl eq_refl).
Defined.

Lemma fetchEvent_byUID_choice_witness :
  In edited_occurrence [home_event []; edited_occurrence]
  /\ lists_occurrence (Num 1700006400) [home_event []; edited_occurrence] = false.
Proof.
  destruct (fetchEvent_byUID_choice
              (session [home_event []; edited_occurrence; work_event] (meeting None))
              reminder [home_event []; edited_occurrence; work_event] edited_occurrence
              eq_refl eq_refl) as (Hin & Hex & _).
  split; [exact Hin | exact Hex].
Defined.

Lemma effect_request_failure_witness :
  (notifications
     (effect (search_rejected (Thrown_value false None) (session [] (meeting None)))
             reminder showing_meeting)
   = [{| type := "error"; text := Some "Unknown error" |}; {| type := "error"; text := None |}]
   /\ error (effect (search_rejected (Thrown_value false None) (session [] (meeting None)))
                    reminder showing_meeting) = None
   /\ render reminder
        (effect (search_rejected (Thrown_value false None) (session [] (meeting None)))
                reminder showing_meeting)
      = render reminder (setIsLoading false (setError None showing_meeting)))
  /\ notifications
       (effect (search_rejected Nullish (session [] (meeting None))) reminder showing_meeting)
     = [{| type := "error"; text := Some "Unknown error" |}].
Proof.
  split.
  - refine (effect_request_failure
              (search_rejected (Thrown_value false None) (session [] (meeting None)))
              reminder showing_meeting (Thrown_value false None)
              eq_refl eq_refl eq_refl _).
    discriminate.
  - refine (proj1 (effect_request_failure
                     (search_rejected Nullish (session [] (meeting None)))
                     reminder showing_meeting Nullish eq_refl eq_refl eq_refl _)).
    discriminate.
Defined.

(** After such a failure the widget still shows the event of the message
    it had loaded before. *)
Example stale_event_after_failure :
  render reminder
    (effect (search_rejected (new_Error "Network error") (session [] (meeting None)))
            reminder showing_meeting)
  = EventDetails (home_event []) (meeting None) home_calendar false.
Proof. vm_compute. reflexivity. Qed.

Lemma effect_empty_search_witness :
  render reminder (effect (session [] (meeting None)) reminder fresh_widget)
  = ErrorView EventNotFoundBanner.
Proof.
  refine (effect_empty_search (session [] (meeting None)) reminder fresh_widget
            eq_refl eq_refl eq_refl eq_refl _).
  left. exists [work_calendar; home_calendar]. reflexivity.
Defined.

Lemma effect_unmounted_witness :
  error (effect (unmounted (session [home_event [1700006400]] (meeting None)))
           reminder showing_meeting) = None
  /\ vevent (effect (unmounted (session [home_event [1700006400]] (meeting None)))
               reminder showing_meeting) = Some (meeting None)
  /\ calendar (effect (unmounted (session [home_event [1700006400]] (meeting None)))
                 reminder showing_meeting) = Some home_calendar
  /\ calendarEvent (effect (unmounted (session [home_event [1700006400]] (meeting None)))
                      reminder showing_meeting) = Some (home_event [])
  /\ loadedWidget (effect (unmounted (session [home_event [1700006400]] (meeting None)))
                     reminder showing_meeting) = Some "msg-0".
Proof.
  exact (effect_unmounted (unmounted (session [home_event [1700006400]] (meeting None)))
           reminder showing_meeting eq_refl eq_refl).
Defined.

End ReminderCoursesRun.

(** ** Armored keys *)

Section Unarmor.
Import WireGuard.

Lemma remove_spaces_no_space (s : string) :
  JsString.forall_chars (fun c => negb (JsString.is_space c)) (JsString.remove_spaces s) = true.
Proof.
  induction s as [|c s IH]; [reflexivity|].
  cbn [JsString.remove_spaces].
  destruct (JsString.is_space c) eqn:Hc; [exact IH|].
  cbn [JsString.forall_chars]. rewrite Hc, IH. reflexivity.
Qed.

Lemma string_length_app (a b : string) :
  String.length (a +:+ b) = (String.length a + String.length b)%nat.
Proof.
  induction a as [|c a IH]; [reflexivity|].
  change (S (String.length (a +:+ b)) = S (String.length a + String.length b)).
  rewrite IH. reflexivity.
Qed.

Lemma dots_then_LF_run (r rest : string) :
  JsString.forall_chars (fun c => negb (JsString.is_line_terminator c)) r = true ->
  forall seen : nat,
    (0 < seen + String.length r)%nat ->
    JsString.dots_then_LF seen (r +:+ JsString.LF +:+ rest)
    = Some (S (seen + String.length r)).
Proof.
  induction r as [|c r IH]; intros Hr seen Hpos.
  - cbn [String.length] in *. replace (seen + 0)%nat with seen in * by lia.
    change (JsString.dots_then_LF seen (String (ascii_of_nat 10) rest) = Some (S seen)).
    cbn [JsString.dots_then_LF].
    change (JsString.is_line_terminator (ascii_of_nat 10)) with true.
    change (nat_of_ascii (ascii_of_nat 10) =? 10)%nat with true.
    cbn [andb]. destruct (Nat.ltb_spec 0 seen); [reflexivity | lia].
  - cbn [JsString.forall_chars] in Hr. apply andb_true_iff in Hr as [Hc Hr].
    apply negb_true_iff in Hc.
    change (String c r +:+ JsString.LF +:+ rest) with (String c (r +:+ JsString.LF +:+ rest)).
    cbn [JsString.dots_then_LF]. rewrite Hc.
    rewrite (IH Hr (S seen)) by (cbn [String.length] in Hpos; lia).
    cbn [String.length]. f_equal. lia.
Qed.

Lemma remove_armor_lines_skip (s1 s2 : string) :
  JsString.remove_armor_lines (String.length s1) (s1 +:+ s2)
  = JsString.remove_armor_lines 0 s2.
Proof.
  induction s1 as [|c s1 IH]; [reflexivity|].
  change (String c s1 +:+ s2) with (String c (s1 +:+ s2)).
  cbn [String.length JsString.remove_armor_lines]. exact IH.
Qed.

(** A whole armor line, with the line feed before it, is dropped. *)
Lemma armor_line_removed (r rest : string) :
  JsString.forall_chars (fun c => negb (JsString.is_line_terminator c)) r = true ->
  r <> "" ->
  JsString.remove_armor_lines 0 (JsString.LF +:+ "---" +:+ r +:+ JsString.LF +:+ rest)
  = JsString.remove_armor_lines 0 rest.
Proof.
  intros Hr Hne.
  assert (Hlen : (0 < 0 + String.length r)%nat) by (destruct r; [contradiction | cbn; lia]).
  pose proof (dots_then_LF_run r rest Hr 0%nat Hlen) as Hdots.
  destruct r as [|c0 r0]; [contradiction|]. set (r := String c0 r0) in *.
  change (JsString.LF +:+ "---" +:+ r +:+ JsString.LF +:+ rest)
    with (String (ascii_of_nat 10) ("---" +:+ r +:+ JsString.LF +:+ rest)).
  cbn [JsString.remove_armor_lines].
  assert (Hmatch :
    JsString.armor_line_match
      (String (ascii_of_nat 10) ("---" +:+ r +:+ JsString.LF +:+ rest))
    = Some (S (String.length ("---" +:+ r +:+ JsString.LF)))).
  { unfold JsString.armor_line_match.
    change (JsString.startsWith
              (String (ascii_of_nat 10) ("---" +:+ r +:+ JsString.LF +:+ rest))
              (JsString.LF +:+ "---")) with true.
    change (JsString.drop 4 (String (ascii_of_nat 10) ("---" +:+ r +:+ JsString.LF +:+ rest)))
      with (r +:+ JsString.LF +:+ rest).
    cbv iota. rewrite Hdots. f_equal.
    rewrite !string_length_app. cbn [String.length JsString.LF]. lia. }
  rewrite Hmatch.
  replace ("---" +:+ r +:+ JsString.LF +:+ rest)
    with (("---" +:+ r +:+ JsString.LF) +:+ rest).
  - apply remove_armor_lines_skip.
  - change (("---" +:+ r +:+ JsString.LF) +:+ rest)
      with (String "-" (String "-" (String "-" ((r +:+ JsString.LF) +:+ rest)))).
    change ("---" +:+ r +:+ JsString.LF +:+ rest)
      with (String "-" (String "-" (String "-" (r +:+ JsString.LF +:+ rest)))).
    rewrite append_assoc. reflexivity.
Qed.

Lemma forall_chars_app (p : ascii -> bool) (a b : string) :
  JsString.forall_chars p (a +:+ b) = JsString.forall_chars p a && JsString.forall_chars p b.
Proof.
  induction a as [|c a IH]; [reflexivity|].
  change (String c a +:+ b) with (String c (a +:+ b)).
  cbn [JsString.forall_chars]. rewrite IH, andb_assoc. reflexivity.
Qed.

Lemma not_dash (d : ascii) : JsString.is_dash d = false -> Ascii.eqb "-" d = false.
Proof.
  intros Hd. destruct (Ascii.eqb_spec "-" d) as [<-|]; [discriminate | reflexivity].
Qed.

(** Text without dashes goes through, up to the next line feed. *)
Lemma body_kept (body t : string) :
  JsString.forall_chars (fun c => negb (JsString.is_dash c)) body = true ->
  JsString.remove_armor_lines 0 (body +:+ JsString.LF +:+ t)
  = body +:+ JsString.remove_armor_lines 0 (JsString.LF +:+ t).
Proof.
  induction body as [|c body IH]; intros Hb; [reflexivity|].
  cbn [JsString.forall_chars] in Hb. apply andb_true_iff in Hb as [Hc Hb].
  change (String c body +:+ JsString.LF +:+ t) with (String c (body +:+ JsString.LF +:+ t)).
  cbn [JsString.remove_armor_lines].
  assert (Hnone : JsString.armor_line_match (String c (body +:+ JsString.LF +:+ t)) = None).
  { unfold JsString.armor_line_match.
    change (JsString.LF +:+ "---") with (String (ascii_of_nat 10) "---").
    cbn [JsString.startsWith].
    destruct (Ascii.eqb (ascii_of_nat 10) c); [|reflexivity].
    destruct body as [|d body'].
    - reflexivity.
    - cbn [JsString.forall_chars] in Hb. apply andb_true_iff in Hb as [Hd _].
      apply negb_true_iff, not_dash in Hd.
      change (String d body' +:+ JsString.LF +:+ t)
        with (String d (body' +:+ JsString.LF +:+ t)).
      cbn [JsString.startsWith]. rewrite Hd. reflexivity. }
  rewrite Hnone, (IH Hb). reflexivity.
Qed.

(** X13.  [unarmor] takes a PEM-armored key back to its body: for a label
    without line break and a body without dash, as base64 text is, the
    armor lines go and the body comes out with its white space, line
    breaks included, removed. *)
Theorem unarmor_armored (label body : string) :
  JsString.forall_chars (fun c => negb (JsString.is_line_terminator c)) label = true ->
  JsString.forall_chars (fun c => negb (JsString.is_dash c)) body = true ->
  unarmor (armored label body) = JsString.remove_spaces body.
Proof.
  intros Hlabel Hbody. unfold unarmor. f_equal.
  set (r1 := "--BEGIN " +:+ label +:+ "-----").
  set (r2 := "--END " +:+ label +:+ "-----").
  assert (Hshape :
    JsString.LF +:+ armored label body +:+ JsString.LF
    = JsString.LF +:+ "---" +:+ r1 +:+ JsString.LF
      +:+ body +:+ JsString.LF +:+ "---" +:+ r2 +:+ JsString.LF +:+ "").
  { unfold armored, r1, r2. rewrite !append_assoc. reflexivity. }
  assert (Hrun : forall r label',
             r = "--BEGIN " +:+ label' +:+ "-----" \/ r = "--END " +:+ label' +:+ "-----" ->
             JsString.forall_chars (fun c => negb (JsString.is_line_terminator c)) label'
             = true ->
             JsString.forall_chars (fun c => negb (JsString.is_line_terminator c)) r = true
             /\ r <> "").
  { intros r label' [->| ->] Hl; (split; [|discriminate]);
      rewrite !forall_chars_app, Hl; reflexivity. }
  destruct (Hrun r1 label (or_introl eq_refl) Hlabel) as [Hr1 Hne1].
  destruct (Hrun r2 label (or_intror eq_refl) Hlabel) as [Hr2 Hne2].
  rewrite Hshape, (armor_line_removed r1 _ Hr1 Hne1), (body_kept body _ Hbody),
    (armor_line_removed r2 "" Hr2 Hne2).
  cbn [JsString.remove_armor_lines].
  clear. induction body as [|c body IH]; [reflexivity|].
  change (String c body +:+ "") with (String c (body +:+ "")). rewrite IH. reflexivity.
Qed.

(** X14.  Whatever the key, [unarmor] leaves no white space in it. *)
Theorem unarmor_no_space (key : string) :
  JsString.forall_chars (fun c => negb (JsString.is_space c)) (unarmor key) = true.
Proof. unfold unarmor. apply remove_spaces_no_space. Qed.

Lemma unarmor_armored_witness :
  unarmor (armored "PRIVATE KEY"
             ("MC4CAQAwBQYDK2VwBCIEIAAB" +:+ JsString.LF +:+ "AgMEBQYHCAkKCwwNDg8Q "))
  = JsString.remove_spaces
      ("MC4CAQAwBQYDK2VwBCIEIAAB" +:+ JsString.LF +:+ "AgMEBQYHCAkKCwwNDg8Q ").
Proof. apply unarmor_armored; reflexivity. Defined.

End Unarmor.

(** ** The certificate model and the listing *)

Section CertificateModel.
Import WireGuard.
Context `{Externals}.

(** X15.  The identifier [getCertificateModel] gives a certificate is
    stable: an identifier passed in is used as it is and the DTO is not
    touched; otherwise the DTO's own identifier is used, a fresh one being
    stored in the DTO when it has none; and building the model again from
    the DTO as it was left gives the same certificate and leaves the DTO
    alone, whatever the clock and the random generator say then. *)
Theorem getCertificateModel_id_stable (fresh fresh' : string) (dto : CertificateDTO.t)
    (peer : Peer.t) (privateKey id : option string) :
  let certificate := fst (getCertificateModel fresh dto peer privateKey id) in
  let dto' := snd (getCertificateModel fresh dto peer privateKey id) in
  (name_truthy id = true -> Certificate.id certificate = default "" id /\ dto' = dto)
  /\ (name_truthy id = false -> name_truthy (CertificateDTO.id dto) = true ->
      Some (Certificate.id certificate) = CertificateDTO.id dto /\ dto' = dto)
  /\ (name_truthy id = false -> name_truthy (CertificateDTO.id dto) = false ->
      Certificate.id certificate = fresh /\ dto' = CertificateDTO.with_id dto fresh)
  /\ (JsString.truthy fresh = true ->
      getCertificateModel fresh' dto' peer privateKey id = (certificate, dto')).
Proof.
  intros certificate dto'. subst certificate dto'. unfold getCertificateModel.
  destruct (name_truthy id) eqn:Hid; cbn [negb andb fst snd].
  - split; [auto | split; [discriminate | split; [discriminate | reflexivity]]].
  - destruct (name_truthy (CertificateDTO.id dto)) eqn:Hdto; cbn [negb fst snd].
    + split; [discriminate | split; [| split; [discriminate |]]].
      * intros _ _. split; [|reflexivity].
        destruct (CertificateDTO.id dto); [reflexivity | discriminate].
      * intros _. rewrite Hdto. reflexivity.
    + split; [discriminate | split; [discriminate | split]].
      * intros _ _. split; reflexivity.
      * intros Hfresh. cbn [CertificateDTO.with_id CertificateDTO.id name_truthy].
        rewrite Hfresh. reflexivity.
Qed.

Lemma cached_expiration_insert (cache : gmap string Certificate.t) (certificate : Certificate.t)
    (k : string) :
  cached_expiration (<[k := certificate]> cache) k = Certificate.expirationTime certificate.
Proof. unfold cached_expiration. rewrite lookup_insert_eq. apply num_or_0. Qed.

Lemma cache_grows_entry (removed : list string) (cache cache' : gmap string Certificate.t)
    (k : string) (old : Certificate.t) :
  cache_grows removed cache cache' ->
  cache !! k = Some old ->
  exists new, cache' !! k = Some new
              /\ Certificate.expirationTime old <= Certificate.expirationTime new.
Proof.
  intros Hgrow Hold. specialize (Hgrow k). rewrite Hold in Hgrow.
  destruct (cache' !! k) as [new|]; [|discriminate].
  exists new. split; [reflexivity|].
  destruct Hgrow as [->|(_ & _ & Hle)]; [lia | exact Hle].
Qed.

(** What one guarded assignment leaves under the fingerprint. *)
Lemma guarded_entry (removed : list string) (cache : gmap string Certificate.t)
    (certificate : Certificate.t) :
  let k := Certificate.publicKeyFingerprint certificate in
  is_removed removed k = false ->
  0 <= Certificate.expirationTime certificate ->
  exists entry,
    (if is_removed removed k
        || (Certificate.expirationTime certificate <? cached_expiration cache k)
     then cache else <[k := certificate]> cache) !! k = Some entry
    /\ Certificate.expirationTime certificate <= Certificate.expirationTime entry.
Proof.
  intros k Hrem Hpos. rewrite Hrem. cbn [orb].
  destruct (Z.ltb_spec (Certificate.expirationTime certificate) (cached_expiration cache k))
    as [Hlt|Hge].
  - unfold cached_expiration in Hlt. destruct (cache !! k) as [entry|]; [|lia].
    rewrite num_or_0 in Hlt. exists entry. split; [reflexivity | lia].
  - exists certificate. rewrite lookup_insert_eq. split; [reflexivity | lia].
Qed.

Lemma cache_certificates_covers (removed : list string) (certs : list Certificate.t) :
  forall (cache : gmap string Certificate.t) (certificate : Certificate.t),
    In certificate certs ->
    is_removed removed (Certificate.publicKeyFingerprint certificate) = false ->
    0 <= Certificate.expirationTime certificate ->
    exists entry,
      cache_certificates removed certs cache !! Certificate.publicKeyFingerprint certificate
      = Some entry
      /\ Certificate.expirationTime certificate <= Certificate.expirationTime entry.
Proof.
  induction certs as [|c rest IH]; intros cache certificate Hin Hrem Hpos; [contradiction|].
  destruct Hin as [->|Hin].
  - destruct (guarded_entry removed cache certificate Hrem Hpos) as (entry & Hentry & Hle).
    cbn [cache_certificates].
    set (next := if _ || _ then _ else _) in Hentry.
    assert (Hrun : cache_certificates removed rest next
                   = if is_removed removed (Certificate.publicKeyFingerprint certificate)
                        || (Certificate.expirationTime certificate
                            <? cached_expiration cache
                                 (Certificate.publicKeyFingerprint certificate))
                     then cache_certificates removed rest cache
                     else cache_certificates removed rest
                            (<[Certificate.publicKeyFingerprint certificate := certificate]>
                               cache)).
    { unfold next. destruct (_ || _); reflexivity. }
    rewrite <- Hrun.
    destruct (cache_grows_entry removed next _ _ entry
                (cache_certificates_grows removed rest next) Hentry) as (new & Hnew & Hle').
    exists new. split; [exact Hnew | lia].
  - cbn [cache_certificates]. destruct (_ || _); apply IH; assumption.
Qed.

Lemma cache_results_covers (removed : list string) (peer : Peer.t)
    (dtos : list CertificateDTO.t) :
  forall (cache : gmap string Certificate.t) (ids : nat -> string) (dto : CertificateDTO.t),
    In dto dtos ->
    is_removed removed (CertificateDTO.ClientKeyFingerprint dto) = false ->
    0 <= CertificateDTO.ExpirationTime dto ->
    exists entry,
      (cache_results removed peer dtos cache ids).1.1
        !! CertificateDTO.ClientKeyFingerprint dto = Some entry
      /\ CertificateDTO.ExpirationTime dto <= Certificate.expirationTime entry.
Proof.
  induction dtos as [|d rest IH]; intros cache ids dto Hin Hrem Hpos; [contradiction|].
  cbn [cache_results].
  destruct Hin as [->|Hin].
  - rewrite Hrem. cbn [orb].
    destruct (Z.ltb_spec (CertificateDTO.ExpirationTime dto)
                (cached_expiration cache (CertificateDTO.ClientKeyFingerprint dto)))
      as [Hlt|Hge].
    + unfold cached_expiration in Hlt.
      destruct (cache !! CertificateDTO.ClientKeyFingerprint dto) as [entry|] eqn:Hentry;
        [|lia].
      rewrite num_or_0 in Hlt.
      pose proof (cache_results_grows removed peer rest cache ids) as Hgrow.
      destruct (cache_results removed peer rest cache ids) as [[cache' rest'] ids'].
      cbn [fst] in *.
      destruct (cache_grows_entry removed cache cache' _ entry Hgrow Hentry)
        as (new & Hnew & Hle).
      exists new. split; [exact Hnew | lia].
    + destruct (getCertificateModel (ids 0%nat) dto peer None None)
        as [certificate dto'] eqn:Hmodel.
      pose proof (getCertificateModel_fields (ids 0%nat) dto peer None None) as Hf.
      rewrite Hmodel in Hf. cbn [fst] in Hf. destruct Hf as (Hfp & Hexp & _).
      pose proof (cache_results_grows removed peer rest
                    (<[CertificateDTO.ClientKeyFingerprint dto := certificate]> cache)
                    (fun k => ids (S k))) as Hgrow.
      destruct (cache_results removed peer rest _ _) as [[cache' rest'] ids'].
      cbn [fst] in *.
      destruct (cache_grows_entry removed _ cache' (CertificateDTO.ClientKeyFingerprint dto)
                  certificate Hgrow (lookup_insert_eq _ _ _)) as (new & Hnew & Hle).
      exists new. split; [exact Hnew | lia].
  - destruct (_ || _).
    + specialize (IH cache ids dto Hin Hrem Hpos).
      destruct (cache_results removed peer rest cache ids) as [[cache' rest'] ids'].
      exact IH.
    + destruct (getCertificateModel (ids 0%nat) d peer None None) as [certificate d'].
      specialize (IH (<[CertificateDTO.ClientKeyFingerprint d := certificate]> cache)
                     (fun k => ids (S k)) dto Hin Hrem Hpos).
      destruct (cache_results removed peer rest _ _) as [[cache' rest'] ids'].
      exact IH.
Qed.

Lemma Object_values_In (cache : gmap string Certificate.t) (k : string)
    (entry : Certificate.t) :
  cache !! k = Some entry -> In entry (Object_values cache).
Proof.
  intros Hk. unfold Object_values. apply list_elem_of_In, list_elem_of_fmap.
  exists (k, entry). split; [reflexivity|]. apply elem_of_map_to_list. exact Hk.
Qed.

(** X16.  Nothing listed is lost: when no fingerprint at hand is
    [__proto__], for every DTO of the server list and every certificate of
    the state whose fingerprint is not revoked and whose expiration time is
    not negative, [getCertificates] returns a certificate filed under that
    fingerprint which expires no earlier. *)
Theorem getCertificates_covers (peer : Peer.t) (c : Component) (k : string) (expiration : Z) :
  ordinary_keys c ->
  (exists dto, In dto (certificatesResult c)
               /\ CertificateDTO.ClientKeyFingerprint dto = k
               /\ CertificateDTO.ExpirationTime dto = expiration)
  \/ (exists certificate, In certificate (certificates (state c))
                          /\ Certificate.publicKeyFingerprint certificate = k
                          /\ Certificate.expirationTime certificate = expiration) ->
  ~ In k (removedCertificates (state c)) ->
  0 <= expiration ->
  exists entry,
    certificateCache (snd (getCertificates peer c)) !! k = Some entry
    /\ In entry (fst (getCertificates peer c))
    /\ expiration <= Certificate.expirationTime entry.
Proof.
  intros _ Hlisted Hnot Hpos.
  assert (Hrem : is_removed (removedCertificates (state c)) k = false).
  { destruct (is_removed _ k) eqn:Hr; [|reflexivity].
    apply is_removed_In in Hr. contradiction. }
  assert (Hentry : exists entry,
             certificateCache (snd (getCertificates peer c)) !! k = Some entry
             /\ expiration <= Certificate.expirationTime entry).
  { unfold getCertificates.
    pose proof (cache_results_covers (removedCertificates (state c)) peer
                  (certificatesResult c) (certificateCache c) (fresh_ids c)) as Hdto.
    pose proof (cache_results_grows (removedCertificates (state c)) peer
                  (certificatesResult c) (certificateCache c) (fresh_ids c)) as Hgrow.
    destruct (cache_results _ _ _ _ _) as [[cache dtos] ids]. cbn [fst snd certificateCache] in *.
    destruct Hlisted as [(dto & Hin & <- & <-)|(certificate & Hin & <- & <-)].
    - destruct (Hdto dto Hin Hrem Hpos) as (entry & Hk & Hle).
      destruct (cache_grows_entry _ cache _ _ entry
                  (cache_certificates_grows (removedCertificates (state c))
                     (certificates (state c)) cache) Hk) as (new & Hnew & Hle').
      exists new. split; [exact Hnew | lia].
    - apply cache_certificates_covers; assumption. }
  destruct Hentry as (entry & Hk & Hle). exists entry.
  split; [exact Hk | split; [|exact Hle]].
  rewrite getCertificates_returned. eapply Object_values_In. exact Hk.
Qed.

End CertificateModel.

(** ** Rendering again *)

Section RenderAgain.
Import WireGuard.
Context `{Externals}.

Lemma getCertificateModel_again (fresh : string) (dto : CertificateDTO.t) (peer : Peer.t) :
  JsString.truthy fresh = true ->
  let dto' := snd (getCertificateModel fresh dto peer None None) in
  name_truthy (CertificateDTO.id dto') = true
  /\ CertificateDTO.ClientKeyFingerprint dto' = CertificateDTO.ClientKeyFingerprint dto
  /\ CertificateDTO.ExpirationTime dto' = CertificateDTO.ExpirationTime dto
  /\ model_of peer dto' = fst (getCertificateModel fresh dto peer None None).
Proof.
  intros Hfresh. unfold model_of, getCertificateModel. cbn [name_truthy negb andb fst snd].
  destruct (name_truthy (CertificateDTO.id dto)) eqn:Hdto; cbn [negb fst snd].
  - rewrite Hdto. auto.
  - cbn [CertificateDTO.with_id CertificateDTO.id name_truthy CertificateDTO.ClientKeyFingerprint
         CertificateDTO.ExpirationTime].
    rewrite Hfresh. auto.
Qed.

Lemma model_of_fields (peer : Peer.t) (dto : CertificateDTO.t) :
  Certificate.publicKeyFingerprint (model_of peer dto)
  = CertificateDTO.ClientKeyFingerprint dto
  /\ Certificate.expirationTime (model_of peer dto) = CertificateDTO.ExpirationTime dto.
Proof.
  destruct (getCertificateModel_fields "" dto peer None None) as (Hfp & Hexp & _).
  split; assumption.
Qed.

Lemma model_of_identified (fresh : string) (peer : Peer.t) (dto : CertificateDTO.t) :
  name_truthy (CertificateDTO.id dto) = true ->
  getCertificateModel fresh dto peer None None = (model_of peer dto, dto).
Proof.
  intros Hid. unfold model_of, getCertificateModel. cbn [name_truthy negb andb].
  rewrite Hid. reflexivity.
Qed.

(** The loop over the DTOs is the loop over the certificates they stand
    for once they have their identifiers. *)
Lemma cache_results_as_certificates (removed : list string) (peer : Peer.t)
    (dtos : list CertificateDTO.t) :
  forall cache ids,
    ids_truthy ids ->
    (cache_results removed peer dtos cache ids).1.1
    = cache_certificates removed
        (map (model_of peer) (cache_results removed peer dtos cache ids).1.2) cache.
Proof.
  induction dtos as [|dto rest IH]; intros cache ids Hids; cbn [cache_results]; [reflexivity|].
  destruct (is_removed removed _ || _) eqn:Hguard.
  - specialize (IH cache ids Hids).
    destruct (cache_results removed peer rest cache ids) as [[cache' rest'] ids'].
    cbn [fst snd map cache_certificates] in *.
    destruct (model_of_fields peer dto) as [-> ->]. rewrite Hguard. exact IH.
  - destruct (getCertificateModel_again (ids 0%nat) dto peer (Hids 0%nat))
      as (_ & Hfp & Hexp & Hmodel).
    destruct (getCertificateModel (ids 0%nat) dto peer None None) as [certificate dto'].
    cbn [fst snd] in *.
    specialize (IH (<[CertificateDTO.ClientKeyFingerprint dto := certificate]> cache)
                   (fun k => ids (S k)) (fun k => Hids (S k))).
    destruct (cache_results removed peer rest _ _) as [[cache' rest'] ids'].
    cbn [fst snd map cache_certificates] in *.
    destruct (model_of_fields peer dto') as [-> ->]. rewrite Hfp, Hexp, Hguard, Hmodel.
    exact IH.
Qed.

Lemma cache_certificates_app (removed : list string) (a b : list Certificate.t) :
  forall cache,
    cache_certificates removed (a ++ b) cache
    = cache_certificates removed b (cache_certificates removed a cache).
Proof.
  induction a as [|x a IH]; intros cache; cbn [app cache_certificates]; [reflexivity|].
  destruct (_ || _); apply IH.
Qed.

(** The loop, seen from one fingerprint. *)
Lemma cache_certificates_lookup (removed : list string) (certs : list Certificate.t)
    (k : string) :
  forall cache,
    cache_certificates removed certs cache !! k
    = fold_left (file removed k) certs (cache !! k).
Proof.
  induction certs as [|x certs IH]; intros cache; cbn [cache_certificates fold_left];
    [reflexivity|].
  unfold file at 2, assigns.
  destruct (String.eqb_spec (Certificate.publicKeyFingerprint x) k) as [->|Hne];
    cbn [andb].
  - change (entry_expiration (cache !! Certificate.publicKeyFingerprint x))
      with (cached_expiration cache (Certificate.publicKeyFingerprint x)).
    destruct (_ || _); cbn [negb]; rewrite IH; [reflexivity|].
    rewrite lookup_insert_eq. reflexivity.
  - destruct (_ || _); rewrite IH; [reflexivity|].
    rewrite lookup_insert_ne by exact Hne. reflexivity.
Qed.

Lemma file_expiration (removed : list string) (k : string) (entry : option Certificate.t)
    (x : Certificate.t) :
  entry_expiration entry <= entry_expiration (file removed k entry x)
  /\ (Certificate.publicKeyFingerprint x = k ->
      is_removed removed (Certificate.publicKeyFingerprint x) = false ->
      Certificate.expirationTime x <= entry_expiration (file removed k entry x)).
Proof.
  unfold file, assigns.
  destruct (String.eqb_spec (Certificate.publicKeyFingerprint x) k) as [Heq|Hne];
    cbn [andb].
  - destruct (is_removed removed _); cbn [orb negb].
    + split; [lia | discriminate].
    + destruct (Z.ltb_spec (Certificate.expirationTime x) (entry_expiration entry));
        cbn [negb entry_expiration]; rewrite ?num_or_0; split; intros; lia.
  - split; [lia | contradiction].
Qed.

Lemma fold_file_grows (removed : list string) (k : string) (certs : list Certificate.t) :
  forall entry,
    entry_expiration entry <= entry_expiration (fold_left (file removed k) certs entry).
Proof.
  induction certs as [|x certs IH]; intros entry; cbn [fold_left]; [lia|].
  specialize (IH (file removed k entry x)).
  pose proof (proj1 (file_expiration removed k entry x)). lia.
Qed.

Lemma fold_file_bounds (removed : list string) (k : string) (certs : list Certificate.t) :
  forall entry x,
    In x certs ->
    Certificate.publicKeyFingerprint x = k ->
    is_removed removed (Certificate.publicKeyFingerprint x) = false ->
    Certificate.expirationTime x
    <= entry_expiration (fold_left (file removed k) certs entry).
Proof.
  induction certs as [|y certs IH]; intros entry x Hin Hk Hrem; [contradiction|].
  cbn [fold_left]. destruct Hin as [->|Hin].
  - pose proof (proj2 (file_expiration removed k entry x) Hk Hrem).
    pose proof (fold_file_grows removed k certs (file removed k entry x)). lia.
  - apply IH; assumption.
Qed.

Lemma fold_file_level (removed : list string) (k : string) (certs : list Certificate.t) :
  forall entry,
    (forall x, In x certs ->
               Certificate.publicKeyFingerprint x = k ->
               is_removed removed (Certificate.publicKeyFingerprint x) = false ->
               Certificate.expirationTime x <= entry_expiration entry) ->
    entry_expiration (fold_left (file removed k) certs entry) = entry_expiration entry.
Proof.
  induction certs as [|y certs IH]; intros entry Hle; cbn [fold_left]; [reflexivity|].
  assert (Hy : entry_expiration (file removed k entry y) = entry_expiration entry).
  { unfold file, assigns.
    destruct (String.eqb_spec (Certificate.publicKeyFingerprint y) k) as [Heq|Hne];
      cbn [andb]; [|reflexivity].
    destruct (is_removed removed _) eqn:Hrem; cbn [orb negb]; [reflexivity|].
    destruct (Z.ltb_spec (Certificate.expirationTime y) (entry_expiration entry));
      cbn [negb]; [reflexivity|].
    cbn [entry_expiration]. rewrite num_or_0.
    specialize (Hle y (or_introl eq_refl) Heq Hrem). lia. }
  rewrite IH; [exact Hy|].
  intros x Hin Hk Hrem. rewrite Hy. apply Hle; [right|..]; assumption.
Qed.

Lemma fold_file_again (removed : list string) (k : string) (certs : list Certificate.t) :
  forall entry,
    fold_left (file removed k) certs (fold_left (file removed k) certs entry)
    = fold_left (file removed k) certs entry.
Proof.
  induction certs as [|x certs IH] using rev_ind; intros entry; [reflexivity|].
  rewrite !fold_left_app. cbn [fold_left].
  set (before := fold_left (file removed k) certs entry).
  destruct (assigns removed k before x) eqn:Hassigns.
  - assert (Hfile : file removed k before x = Some x) by (unfold file; rewrite Hassigns; reflexivity).
    rewrite Hfile.
    unfold assigns in Hassigns. apply andb_prop in Hassigns as [Hk Hguard].
    apply negb_true_iff, orb_false_iff in Hguard as [Hrem Hlt].
    apply Z.ltb_ge in Hlt.
    assert (Hlevel : entry_expiration (fold_left (file removed k) certs (Some x))
                     = entry_expiration (Some x)).
    { apply fold_file_level. intros y Hin Hyk Hyrem. cbn [entry_expiration].
      rewrite num_or_0.
      pose proof (fold_file_bounds removed k certs entry y Hin Hyk Hyrem).
      fold before in H0. lia. }
    unfold file at 1, assigns. rewrite Hk, Hrem, Hlevel. cbn [entry_expiration andb orb].
    rewrite num_or_0, Z.ltb_irrefl. reflexivity.
  - assert (Hfile : file removed k before x = before)
      by (unfold file; rewrite Hassigns; reflexivity).
    rewrite Hfile. unfold before at 1. rewrite IH. fold before. exact Hfile.
Qed.

(** Running the loop over the certificates a second time changes
    nothing. *)
Lemma cache_certificates_again (removed : list string) (certs : list Certificate.t)
    (cache : gmap string Certificate.t) :
  cache_certificates removed certs (cache_certificates removed certs cache)
  = cache_certificates removed certs cache.
Proof.
  apply map_eq. intros k.
  rewrite (cache_certificates_lookup removed certs k (cache_certificates removed certs cache)).
  rewrite !cache_certificates_lookup. apply fold_file_again.
Qed.

Lemma cache_certificates_expiration (removed : list string) (certs : list Certificate.t)
    (cache : gmap string Certificate.t) (k : string) :
  cached_expiration cache k
  <= cached_expiration (cache_certificates removed certs cache) k.
Proof.
  unfold cached_expiration at 2.
  change (cached_expiration cache k
          <= entry_expiration (cache_certificates removed certs cache !! k)).
  rewrite cache_certificates_lookup. apply fold_file_grows.
Qed.

Lemma settled_grows (removed : list string) (cache cache' : gmap string Certificate.t)
    (dto : CertificateDTO.t) :
  (forall k, cached_expiration cache k <= cached_expiration cache' k) ->
  settled removed cache dto -> settled removed cache' dto.
Proof.
  intros Hle [Hid|Hskip]; [left; exact Hid | right].
  apply orb_true_iff in Hskip as [Hrem|Hlt]; apply orb_true_iff; [left; exact Hrem | right].
  apply Z.ltb_lt in Hlt. apply Z.ltb_lt.
  specialize (Hle (CertificateDTO.ClientKeyFingerprint dto)). lia.
Qed.

(** After the loop every DTO is settled. *)
Lemma cache_results_settles (removed : list string) (peer : Peer.t)
    (dtos : list CertificateDTO.t) :
  forall cache ids,
    ids_truthy ids ->
    Forall (settled removed (cache_results removed peer dtos cache ids).1.1)
           (cache_results removed peer dtos cache ids).1.2.
Proof.
  induction dtos as [|dto rest IH]; intros cache ids Hids; cbn [cache_results];
    [constructor|].
  destruct (is_removed removed _ || _) eqn:Hguard.
  - pose proof (cache_results_as_certificates removed peer rest cache ids Hids) as Hsame.
    specialize (IH cache ids Hids).
    destruct (cache_results removed peer rest cache ids) as [[cache' rest'] ids'].
    cbn [fst snd] in *. constructor; [|exact IH].
    apply (settled_grows removed cache).
    + intros k. rewrite Hsame. apply cache_certificates_expiration.
    + right. exact Hguard.
  - destruct (getCertificateModel_again (ids 0%nat) dto peer (Hids 0%nat)) as (Hid & _).
    destruct (getCertificateModel (ids 0%nat) dto peer None None) as [certificate dto'].
    cbn [fst snd] in *.
    specialize (IH (<[CertificateDTO.ClientKeyFingerprint dto := certificate]> cache)
                   (fun k => ids (S k)) (fun k => Hids (S k))).
    destruct (cache_results removed peer rest _ _) as [[cache' rest'] ids'].
    cbn [fst snd] in *. constructor; [left; exact Hid | exact IH].
Qed.

(** The loop leaves settled DTOs as they are. *)
Lemma cache_results_settled (removed : list string) (peer : Peer.t)
    (dtos : list CertificateDTO.t) :
  forall cache ids,
    Forall (settled removed cache) dtos ->
    (cache_results removed peer dtos cache ids).1.2 = dtos.
Proof.
  induction dtos as [|dto rest IH]; intros cache ids Hall; cbn [cache_results]; [reflexivity|].
  inversion_clear Hall as [|? ? Hdto Hrest].
  destruct (is_removed removed _ || _) eqn:Hguard.
  - specialize (IH cache ids Hrest).
    destruct (cache_results removed peer rest cache ids) as [[cache' rest'] ids'].
    cbn [fst snd] in *. rewrite IH. reflexivity.
  - destruct Hdto as [Hid|Hskip]; [|congruence].
    rewrite (model_of_identified (ids 0%nat) peer dto Hid).
    assert (Hnext : Forall (settled removed
                              (<[CertificateDTO.ClientKeyFingerprint dto := model_of peer dto]>
                                 cache)) rest).
    { eapply Forall_impl; [exact Hrest|]. intros d. apply settled_grows. intros k.
      apply orb_false_iff in Hguard as [_ Hlt]. apply Z.ltb_ge in Hlt.
      destruct (String.eqb_spec (CertificateDTO.ClientKeyFingerprint dto) k) as [<-|Hne].
      - rewrite cached_expiration_insert.
        rewrite (proj2 (model_of_fields peer dto)). exact Hlt.
      - unfold cached_expiration. rewrite lookup_insert_ne by exact Hne. lia. }
    specialize (IH _ (fun k => ids (S k)) Hnext).
    destruct (cache_results removed peer rest _ _) as [[cache' rest'] ids'].
    cbn [fst snd] in *. rewrite IH. reflexivity.
Qed.

Lemma cache_results_ids (removed : list string) (peer : Peer.t)
    (dtos : list CertificateDTO.t) :
  forall cache ids,
    ids_truthy ids -> ids_truthy (cache_results removed peer dtos cache ids).2.
Proof.
  induction dtos as [|dto rest IH]; intros cache ids Hids; cbn [cache_results]; [exact Hids|].
  destruct (_ || _).
  - specialize (IH cache ids Hids).
    destruct (cache_results removed peer rest cache ids) as [[cache' rest'] ids'].
    exact IH.
  - destruct (getCertificateModel (ids 0%nat) dto peer None None) as [certificate dto'].
    specialize (IH (<[CertificateDTO.ClientKeyFingerprint dto := certificate]> cache)
                   (fun k => ids (S k)) (fun k => Hids (S k))).
    destruct (cache_results removed peer rest _ _) as [[cache' rest'] ids'].
    exact IH.
Qed.

(** X17.  Rendering again when nothing has changed changes nothing: a
    second call of [getCertificates] returns the list the first one
    returned and leaves the cache, the DTOs and the state as the first
    call left them, provided the identifiers the first call hands out are
    not empty. *)
Theorem getCertificates_again (peer : Peer.t) (c : Component) :
  ids_truthy (fresh_ids c) ->
  let once := snd (getCertificates peer c) in
  let twice := snd (getCertificates peer once) in
  fst (getCertificates peer once) = fst (getCertificates peer c)
  /\ certificateCache twice = certificateCache once
  /\ certificatesResult twice = certificatesResult once
  /\ state twice = state once.
Proof.
  intros Hids once twice.
  assert (Hcache : certificateCache twice = certificateCache once
                   /\ certificatesResult twice = certificatesResult once).
  { subst twice once.
    pose proof (cache_results_as_certificates (removedCertificates (state c)) peer
                  (certificatesResult c) (certificateCache c) (fresh_ids c) Hids) as Hfirst.
    pose proof (cache_results_settles (removedCertificates (state c)) peer
                  (certificatesResult c) (certificateCache c) (fresh_ids c) Hids) as Hsettled.
    pose proof (cache_results_ids (removedCertificates (state c)) peer
                  (certificatesResult c) (certificateCache c) (fresh_ids c) Hids) as Hids'.
    unfold getCertificates.
    destruct (cache_results (removedCertificates (state c)) peer (certificatesResult c)
                (certificateCache c) (fresh_ids c)) as [[cache dtos] ids].
    cbn [fst snd certificateCache certificatesResult fresh_ids state] in *.
    set (removed := removedCertificates (state c)) in *.
    set (certs := certificates (state c)) in *.
    assert (Hready : Forall (settled removed (cache_certificates removed certs cache)) dtos).
    { eapply Forall_impl; [exact Hsettled|]. intros d. apply settled_grows.
      intros k. apply cache_certificates_expiration. }
    pose proof (cache_results_settled removed peer dtos _ ids Hready) as Hdtos.
    pose proof (cache_results_as_certificates removed peer dtos
                  (cache_certificates removed certs cache) ids Hids') as Hsecond.
    destruct (cache_results removed peer dtos (cache_certificates removed certs cache) ids)
      as [[cache2 dtos2] ids2].
    cbn [fst snd certificateCache certificatesResult] in *. subst dtos2.
    split; [|reflexivity].
    rewrite Hsecond, Hfirst.
    rewrite <- (cache_certificates_app removed (map (model_of peer) dtos) certs
                  (certificateCache c)).
    rewrite <- (cache_certificates_app removed (map (model_of peer) dtos) certs).
    apply cache_certificates_again. }
  destruct Hcache as [Hcache Hdtos].
  split; [|split; [exact Hcache | split; [exact Hdtos|]]].
  - rewrite !getCertificates_returned. fold once. fold twice. rewrite Hcache. reflexivity.
  - subst twice. apply getCertificates_state.
Qed.

End RenderAgain.

(** ** Creating and extending a certificate *)

Section Creating.
Import WireGuard.
Context `{Externals}.

Lemma default_DeviceName_fields (dto : CertificateDTO.t) (deviceName : string) :
  let dto' := default_DeviceName dto deviceName in
  CertificateDTO.DeviceName dto'
  = (if name_truthy (CertificateDTO.DeviceName dto) then CertificateDTO.DeviceName dto
     else Some deviceName)
  /\ CertificateDTO.Features dto' = CertificateDTO.Features dto
  /\ CertificateDTO.ClientKey dto' = CertificateDTO.ClientKey dto
  /\ CertificateDTO.ClientKeyFingerprint dto' = CertificateDTO.ClientKeyFingerprint dto
  /\ CertificateDTO.SerialNumber dto' = CertificateDTO.SerialNumber dto
  /\ CertificateDTO.ExpirationTime dto' = CertificateDTO.ExpirationTime dto.
Proof.
  unfold default_DeviceName. destruct (name_truthy (CertificateDTO.DeviceName dto)); cbn; repeat split; reflexivity.
Qed.

(** What [getCertificateModel] builds when it is given a private key. *)
Lemma getCertificateModel_with_key (fresh : string) (dto : CertificateDTO.t) (peer : Peer.t)
    (privateKey : string) :
  let certificate := fst (getCertificateModel fresh dto peer (Some privateKey) None) in
  Certificate.privateKey certificate = JsString.or privateKey privateKeyPlaceholder
  /\ Certificate.name certificate = CertificateDTO.DeviceName dto
  /\ Certificate.features certificate = CertificateDTO.Features dto
  /\ Certificate.config certificate
     = getConfigTemplate (JsString.or privateKey privateKeyPlaceholder)
         (CertificateDTO.DeviceName dto) (CertificateDTO.Features dto) peer.
Proof.
  unfold getCertificateModel. destruct (negb (name_truthy None) && _); cbn; auto.
Qed.

(** X18.  When no creation is under way, the key pair is obtained, its
    private key can be converted and the server answers the request,
    [add] appends one certificate to the certificates of the render that
    created the callback.  That certificate carries the X25519 private key
    derived from the key pair (the placeholder if it is empty), never the
    private key of the pair itself, and the public key and fingerprint of
    the server's answer; its name is the server's, or the value of the name
    input if the server gave none; its configuration is built from these.
    The certificate becomes the current one, the name input is cleared,
    one notification is raised, one request was sent, the cache is not
    touched and [creating] is false again. *)
Theorem add_creates (curve : option CURVE.t) (r : Render.t) (addedPeer : option Peer.t)
    (f : Form) (keys : Keys.t) (w' : World) (x25519PrivateKey : string)
    (dto : CertificateDTO.t) :
  Render.creating r = false ->
  getKeyPair curve (world f) = (Ok keys, w') ->
  getX25519PrivateKey (Keys.privateKey keys) = Ok x25519PrivateKey ->
  generateCertificate_reply f (add_request r addedPeer f keys) = Ok dto ->
  exists (newCertificate : Certificate.t) (f' : Form),
    add curve r addedPeer f = (Ok tt, f')
    /\ certificates (state (component f')) = certificates (Render.state r) ++ [newCertificate]
    /\ Certificate.privateKey newCertificate
       = JsString.or x25519PrivateKey privateKeyPlaceholder
    /\ Certificate.publicKey newCertificate = CertificateDTO.ClientKey dto
    /\ Certificate.publicKeyFingerprint newCertificate = CertificateDTO.ClientKeyFingerprint dto
    /\ Certificate.name newCertificate
       = (if name_truthy (CertificateDTO.DeviceName dto) then CertificateDTO.DeviceName dto
          else Some (JsString.or_opt (nameInput f) ""))
    /\ Certificate.config newCertificate
       = getConfigTemplate (Certificate.privateKey newCertificate)
           (Certificate.name newCertificate) (CertificateDTO.Features dto) (Render.peer r)
    /\ currentCertificate f' = Some (Certificate.id newCertificate)
    /\ creating f' = false
    /\ nameInput f' = match nameInput f with Some _ => Some "" | None => None end
    /\ generateCertificate_requests f'
       = generateCertificate_requests f ++ [add_request r addedPeer f keys]
    /\ notifications (component f')
       = notifications (component f)
         ++ [created_notice
               (JsString.or
                  (JsString.or_opt (Certificate.name newCertificate)
                                   (Certificate.publicKeyFingerprint newCertificate))
                  (Certificate.publicKey newCertificate))]
    /\ certificateCache (component f') = certificateCache (component f)
    /\ removedCertificates (state (component f')) = removedCertificates (state (component f))
    /\ world f' = w'.
Proof.
  intros Hcreating Hkeys Hx Hreply.
  set (deviceName := JsString.or_opt (nameInput f) "").
  set (certificate := default_DeviceName dto deviceName).
  exists (fst (getCertificateModel (fresh_ids (component f) 0%nat) certificate (Render.peer r)
                 (Some x25519PrivateKey) None)).
  eexists. split.
  { unfold add. rewrite Hcreating. unfold bind at 1. unfold modify at 1.
    unfold try_finally, add_try, bind, in_world. cbn [world setCreating].
    rewrite Hkeys. unfold lift. rewrite Hx.
    unfold gets, queryCertificate.
    match goal with
    | |- context [generateCertificate_reply ?g ?q] =>
        change (generateCertificate_reply g q)
          with (generateCertificate_reply f (add_request r addedPeer f keys))
    end.
    rewrite Hreply. reflexivity. }
  destruct (default_DeviceName_fields dto deviceName)
    as (Hname & Hfeatures & Hkey & Hfp & _ & _).
  fold certificate in Hname, Hfeatures, Hkey, Hfp.
  destruct (getCertificateModel_fields (fresh_ids (component f) 0%nat) certificate
              (Render.peer r) (Some x25519PrivateKey) None) as (Hfp' & _ & _ & Hkey').
  destruct (getCertificateModel_with_key (fresh_ids (component f) 0%nat) certificate
              (Render.peer r) x25519PrivateKey) as (Hprivate & Hname' & Hfeatures' & Hconfig).
  cbn zeta in *.
  repeat match goal with |- _ /\ _ => split end; first [congruence | reflexivity].
Qed.

(** X19.  When [add] fails, whatever the step that failed (the key pair,
    the conversion of its private key, or the request), the component, the
    current certificate, the name input and the scroll position are as
    they were and [creating] is false again; the error is the one of the
    step that failed. *)
Theorem add_fails (curve : option CURVE.t) (r : Render.t) (addedPeer : option Peer.t)
    (f f' : Form) (e : Error) :
  Render.creating r = false ->
  add curve r addedPeer f = (Throw e, f') ->
  untouched f f'
  /\ creating f' = false
  /\ ((exists w', getKeyPair curve (world f) = (Throw e, w'))
      \/ (exists keys w',
             getKeyPair curve (world f) = (Ok keys, w')
             /\ (getX25519PrivateKey (Keys.privateKey keys) = Throw e
                 \/ generateCertificate_reply f (add_request r addedPeer f keys) = Throw e))).
Proof.
  intros Hcreating. unfold add. rewrite Hcreating. unfold bind at 1. unfold modify at 1.
  unfold try_finally, add_try, bind, in_world. cbn [world setCreating].
  destruct (getKeyPair curve (world f)) as [[keys|e0] w'] eqn:Hkeys.
  - unfold lift. destruct (getX25519PrivateKey (Keys.privateKey keys)) as [x|e1] eqn:Hx.
    + unfold gets, queryCertificate.
      match goal with
      | |- context [generateCertificate_reply ?g ?q] =>
          change (generateCertificate_reply g q)
            with (generateCertificate_reply f (add_request r addedPeer f keys))
      end.
      destruct (generateCertificate_reply f (add_request r addedPeer f keys))
        as [dto|e2] eqn:Hreply.
      * discriminate.
      * intros [= <- <-]. split; [repeat split|split; [reflexivity|]].
        right. exists keys, w'. auto.
    + intros [= <- <-]. split; [repeat split|split; [reflexivity|]].
      right. exists keys, w'. auto.
  - intros [= <- <-]. split; [repeat split|split; [reflexivity|]].
    left. exists w'. reflexivity.
Qed.

Context `{Helpers}.

(** X20.  Extending a certificate asks the server to renew the
    certificate of the same public key, under the same name and with the
    same features, and appends to the certificates of the render a
    certificate that keeps the private key of the one extended (the
    placeholder if it had none) and takes its public key and expiration
    time from the server's answer; it becomes the current one.  When the
    server refuses, the error is the server's and nothing but the request
    is left behind.  In both cases [creating] is false again, and neither
    the generator nor the key server is used. *)
Theorem getExtendCallback_renews (r : Render.t) (certificate : Certificate.t) (f : Form) :
  Render.creating r = false ->
  exists (res : result unit) (f' : Form),
    getExtendCallback r certificate f = (res, f')
    /\ creating f' = false
    /\ world f' = world f
    /\ generateCertificate_requests f'
       = generateCertificate_requests f ++ [extend_request r certificate]
    /\ match generateCertificate_reply f (extend_request r certificate) with
       | Throw e => res = Throw e /\ untouched f f'
       | Ok dto =>
           exists newCertificate,
             res = Ok tt
             /\ certificates (state (component f'))
                = certificates (Render.state r) ++ [newCertificate]
             /\ Certificate.privateKey newCertificate
                = JsString.or (Certificate.privateKey certificate) privateKeyPlaceholder
             /\ Certificate.publicKey newCertificate = CertificateDTO.ClientKey dto
             /\ Certificate.expirationTime newCertificate = CertificateDTO.ExpirationTime dto
             /\ currentCertificate f' = Some (Certificate.id newCertificate)
             /\ notifications (component f')
                = notifications (component f)
                  ++ [extended_notice (CertificateDTO.ExpirationTime dto)]
             /\ certificateCache (component f') = certificateCache (component f)
             /\ nameInput f' = nameInput f
       end.
Proof.
  intros Hcreating.
  destruct (generateCertificate_reply f (extend_request r certificate)) as [dto|e] eqn:Hreply.
  - set (deviceName := JsString.or_opt (nameInput f) "").
    set (renewed := default_DeviceName dto deviceName).
    destruct (default_DeviceName_fields dto deviceName) as (_ & _ & Hkey & _ & _ & Hexp).
    fold renewed in Hkey, Hexp.
    destruct (getCertificateModel_fields (fresh_ids (component f) 0%nat) renewed
                (Render.peer r) (Some (Certificate.privateKey certificate)) None)
      as (_ & Hexp' & _ & Hkey').
    destruct (getCertificateModel_with_key (fresh_ids (component f) 0%nat) renewed
                (Render.peer r) (Certificate.privateKey certificate)) as (Hprivate & _).
    cbn zeta in *.
    eexists. eexists. split.
    { unfold getExtendCallback. rewrite Hcreating. unfold bind at 1. unfold modify at 1.
      unfold try_finally, extend_try, bind, queryCertificate.
      match goal with
      | |- context [generateCertificate_reply ?g ?q] =>
          change (generateCertificate_reply g q)
            with (generateCertificate_reply f (extend_request r certificate))
      end.
      rewrite Hreply. reflexivity. }
    split; [reflexivity | split; [reflexivity | split; [reflexivity|]]].
    exists (fst (getCertificateModel (fresh_ids (component f) 0%nat) renewed (Render.peer r)
                   (Some (Certificate.privateKey certificate)) None)).
    repeat match goal with |- _ /\ _ => split end;
      first [congruence | reflexivity | idtac].
    change (notifications (component f)
            ++ [extended_notice
                  (Certificate.expirationTime
                     (fst (getCertificateModel (fresh_ids (component f) 0%nat) renewed
                             (Render.peer r) (Some (Certificate.privateKey certificate))
                             None)))]
            = notifications (component f)
              ++ [extended_notice (CertificateDTO.ExpirationTime dto)]).
    rewrite Hexp', Hexp. reflexivity.
  - eexists. eexists. split.
    { unfold getExtendCallback. rewrite Hcreating. unfold bind at 1. unfold modify at 1.
      unfold try_finally, extend_try, bind, queryCertificate.
      match goal with
      | |- context [generateCertificate_reply ?g ?q] =>
          change (generateCertificate_reply g q)
            with (generateCertificate_reply f (extend_request r certificate))
      end.
      rewrite Hreply. reflexivity. }
    split; [reflexivity | split; [reflexivity | split; [reflexivity|]]].
    split; [reflexivity | repeat split].
Qed.

End Creating.

(** ** Key pair: generation on the device *)

Section OnDevice.
Import WireGuard.
Context `{Externals}.

(** X21.  When the platform has BigInt and one of the first 1024 samples
    of the generator is a valid scalar whose public point can be
    computed, [getKeyPair] returns the first such sample and its public
    point, both in base 64; nothing is written to the console and the
    server is not asked for a key. *)
Theorem getKeyPair_on_device (c : CURVE.t) (w : World) (k : nat) (publicKey : list byte) :
  (k < 1024)%nat ->
  valid_scalar (CURVE.n c) (bytesToNumberLE (sample w k)) = true ->
  (forall j, (j < k)%nat -> valid_scalar (CURVE.n c) (bytesToNumberLE (sample w j)) = false) ->
  Point_fromPrivateKey_toRawBytes (sample w k) = Ok publicKey ->
  exists w',
    getKeyPair (Some c) w
    = (Ok {| Keys.privateKey := uint8ArrayToBase64String (sample w k);
             Keys.publicKey := uint8ArrayToBase64String publicKey |}, w')
    /\ console w' = console w
    /\ getKey_requests w' = getKey_requests w.
Proof.
  intros Hk Hvalid Hfirst Hpoint.
  destruct (randomPrivateKey_loop_first (CURVE.n c) 1024 w k Hk Hvalid Hfirst) as (w' & Hloop).
  rewrite <- randomPrivateKey_Some in Hloop.
  destruct (randomPrivateKey_frame (Some c) w w' _ Hloop) as (Hconsole & _ & Hrequests).
  exists w'. split; [|split; assumption].
  unfold getKeyPair, try_catch, getKeyPair_try, bind. rewrite Hloop.
  unfold getPublicKey, lift. rewrite Hpoint. reflexivity.
Qed.

End OnDevice.

(** ** The features sent with a request *)

Section FeatureValues.
Import WireGuard.

Lemma feature_set_feature (o : Features) (key : string) (value : FeatureValue) (k : string) :
  feature (set_feature o key value) k
  = if String.eqb key k then Some value else feature o k.
Proof.
  induction o as [|[k' v'] rest IH]; cbn [set_feature feature].
  - destruct (String.eqb key k); reflexivity.
  - destruct (String.eqb_spec k' key) as [->|Hne]; cbn [feature].
    + destruct (String.eqb key k); reflexivity.
    + rewrite IH. destruct (String.eqb_spec k' k) as [->|Hne'].
      * destruct (String.eqb_spec key k) as [->|_]; [contradiction | reflexivity].
      * reflexivity.
Qed.

(** X22.  The features [getFeatureValues] sends name the peer the
    configuration is for, the added peer when there is one and the
    current peer otherwise, and the platform selected, whatever the
    features configuration says under these four keys; every other key
    has the value of the features configuration.  So a configuration
    built from them uses the Windows routes exactly when the platform
    selected is Windows. *)
Theorem getFeatureValues_peer (r : Render.t) (addedPeer : option Peer.t) :
  let peerFeatures := default (Render.peer r) addedPeer in
  let features := getFeatureValues r addedPeer in
  feature features "peerName" = Some (FStr (Peer.name peerFeatures))
  /\ feature features "peerIp" = Some (FStr (Peer.ip peerFeatures))
  /\ feature features "peerPublicKey" = Some (FStr (Peer.publicKey peerFeatures))
  /\ feature features "platform" = Some (FStr (PLATFORM_value (Render.platform r)))
  /\ (forall key,
        ~ In key ["peerName"; "peerIp"; "peerPublicKey"; "platform"] ->
        feature features key = feature (Render.selected r) key)
  /\ (platform_is_windows (Some features) = true <-> Render.platform r = WINDOWS).
Proof.
  intros peerFeatures features. subst features. unfold getFeatureValues, Object_assign.
  fold peerFeatures. cbn [fold_left fst snd].
  assert (Hplatform :
            feature (set_feature
                       (set_feature
                          (set_feature
                             (set_feature (Render.selected r) "peerName"
                                (FStr (Peer.name peerFeatures)))
                             "peerIp" (FStr (Peer.ip peerFeatures)))
                          "peerPublicKey" (FStr (Peer.publicKey peerFeatures)))
                       "platform" (FStr (PLATFORM_value (Render.platform r)))) "platform"
            = Some (FStr (PLATFORM_value (Render.platform r)))).
  { rewrite !feature_set_feature. reflexivity. }
  split; [rewrite !feature_set_feature; reflexivity|].
  split; [rewrite !feature_set_feature; reflexivity|].
  split; [rewrite !feature_set_feature; reflexivity|].
  split; [exact Hplatform|].
  split.
  - intros key Hkey. rewrite !feature_set_feature.
    destruct (String.eqb_spec "platform" key) as [<-|_]; [exfalso; apply Hkey; cbn; auto|].
    destruct (String.eqb_spec "peerPublicKey" key) as [<-|_]; [exfalso; apply Hkey; cbn; auto|].
    destruct (String.eqb_spec "peerIp" key) as [<-|_]; [exfalso; apply Hkey; cbn; auto|].
    destruct (String.eqb_spec "peerName" key) as [<-|_]; [exfalso; apply Hkey; cbn; auto|].
    reflexivity.
  - unfold platform_is_windows, opt_feature. rewrite Hplatform.
    destruct (Render.platform r); cbn; split; intros; congruence.
Qed.

End FeatureValues.

(** ** The best server *)

Section BestLogical.
Import WireGuard.

Lemma head_sort_by_Score (l : list LogicalServer.t) :
  match head (sort_by_Score l) with
  | None => l = []
  | Some best =>
      exists before after,
        l = before ++ best :: after
        /\ (forall x, In x before -> (LogicalServer.Score best < LogicalServer.Score x)%Q)
        /\ (forall x, In x after -> (LogicalServer.Score best <= LogicalServer.Score x)%Q)
  end.
Proof.
  induction l as [|a rest IH]; [reflexivity|].
  cbn [sort_by_Score]. destruct (sort_by_Score rest) as [|b sorted]; cbn [head] in IH.
  - subst rest. exists [], []. split; [reflexivity|]. split; intros x [].
  - destruct IH as (before & after & -> & Hbefore & Hafter). cbn [sort_insert].
    destruct (Qle_bool (LogicalServer.Score a) (LogicalServer.Score b)) eqn:Hle; cbn [head].
    + apply Qle_bool_iff in Hle. exists [], (before ++ b :: after).
      split; [reflexivity|]. split; [intros x []|].
      intros x Hx. apply in_app_or in Hx as [Hx|[<-|Hx]].
      * apply Qlt_le_weak. eapply Qle_lt_trans; [exact Hle | apply Hbefore, Hx].
      * exact Hle.
      * eapply Qle_trans; [exact Hle | apply Hafter, Hx].
    + assert (Hlt : (LogicalServer.Score b < LogicalServer.Score a)%Q).
      { apply Qnot_le_lt. intros Hle'. apply Qle_bool_iff in Hle'. congruence. }
      exists (a :: before), after. split; [reflexivity|]. split; [|exact Hafter].
      intros x [<-|Hx]; [exact Hlt | apply Hbefore, Hx].
Qed.

(** X23.  [bestLogical] is undefined exactly when no logical server is
    within the user's tier with none of the two low feature bits set;
    otherwise it is such a server whose score is the least, and among the
    servers of that score the one that comes first in the list. *)
Theorem bestLogical_least (maxTier : Z) (servers : list LogicalServer.t) :
  match bestLogical maxTier servers with
  | None => forall logical, In logical servers -> eligible maxTier logical = false
  | Some best =>
      In best servers
      /\ eligible maxTier best = true
      /\ exists before after,
           List.filter (eligible maxTier) servers = before ++ best :: after
           /\ (forall x, In x before -> (LogicalServer.Score best < LogicalServer.Score x)%Q)
           /\ (forall x, In x after -> (LogicalServer.Score best <= LogicalServer.Score x)%Q)
  end.
Proof.
  unfold bestLogical, bestLogicals.
  pose proof (head_sort_by_Score (List.filter (eligible maxTier) servers)) as Hhead.
  destruct (head (sort_by_Score (List.filter (eligible maxTier) servers))) as [best|].
  - destruct Hhead as (before & after & Heq & Hbefore & Hafter).
    assert (Hin : In best (List.filter (eligible maxTier) servers)).
    { rewrite Heq. apply in_or_app. right. left. reflexivity. }
    apply filter_In in Hin as [Hin Heligible].
    split; [exact Hin | split; [exact Heligible|]].
    exists before, after. auto.
  - intros logical Hin. destruct (eligible maxTier logical) eqn:Heligible; [|reflexivity].
    assert (Hin' : In logical (List.filter (eligible maxTier) servers))
      by (apply filter_In; auto).
    rewrite Hhead in Hin'. contradiction.
Qed.

Lemma logicals_In (logicalInfoLoading : bool) (LogicalServers : list LogicalServer.t)
    (logical : LogicalServer.t) :
  In logical (logicals logicalInfoLoading LogicalServers) ->
  logicalInfoLoading = false
  /\ exists original servers,
       In original LogicalServers
       /\ logical = with_key_servers original
       /\ LogicalServer.Servers logical = Some servers
       /\ servers <> []
       /\ (forall server, In server servers <->
             In server (default [] (LogicalServer.Servers original))
             /\ name_truthy (Server.X25519PublicKey server) = true).
Proof.
  unfold logicals. intros Hin. apply filter_In in Hin as [Hin Hlen].
  apply in_map_iff in Hin as (original & <- & Hin).
  destruct logicalInfoLoading; [contradiction|]. split; [reflexivity|].
  exists original.
  exists (List.filter (fun server => name_truthy (Server.X25519PublicKey server))
            (default [] (LogicalServer.Servers original))).
  split; [exact Hin | split; [reflexivity | split; [reflexivity | split]]].
  - intros Hnil. cbn in Hlen. rewrite Hnil in Hlen. discriminate.
  - intros server. apply filter_In.
Qed.

(** X24.  The server lists are empty while the server information is
    loading.  After that the best logical server, when there is one, is one
    of the servers the API listed, with its name, its tier, its features
    and its score, restricted to its servers that have an X25519 public
    key, of which there is at least one. *)
Theorem bestLogical_has_server (logicalInfoLoading : bool) (maxTier : Z)
    (LogicalServers : list LogicalServer.t) (best : LogicalServer.t) :
  bestLogical maxTier (logicals logicalInfoLoading LogicalServers) = Some best ->
  logicalInfoLoading = false
  /\ exists original servers,
       In original LogicalServers
       /\ LogicalServer.Name best = LogicalServer.Name original
       /\ LogicalServer.Tier best = LogicalServer.Tier original
       /\ LogicalServer.Features best = LogicalServer.Features original
       /\ LogicalServer.Score best = LogicalServer.Score original
       /\ LogicalServer.Servers best = Some servers
       /\ servers <> []
       /\ (forall server, In server servers <->
             In server (default [] (LogicalServer.Servers original))
             /\ name_truthy (Server.X25519PublicKey server) = true).
Proof.
  intros Hbest.
  assert (Hin : In best (logicals logicalInfoLoading LogicalServers)).
  { unfold bestLogical, bestLogicals in Hbest.
    pose proof (head_sort_by_Score
                  (List.filter (eligible maxTier) (logicals logicalInfoLoading LogicalServers)))
      as Hhead.
    rewrite Hbest in Hhead. destruct Hhead as (before & after & Heq & _).
    assert (Hin : In best (List.filter (eligible maxTier)
                             (logicals logicalInfoLoading LogicalServers))).
    { rewrite Heq. apply in_or_app. right. left. reflexivity. }
    apply filter_In in Hin as [Hin _]. exact Hin. }
  apply logicals_In in Hin as (Hloaded & original & servers & Hin & -> & Hservers & Hne & Hkeys).
  split; [exact Hloaded|]. exists original, servers.
  repeat match goal with |- _ /\ _ => split end; try reflexivity; assumption.
Qed.

End BestLogical.

(** ** The extensions at work *)

Section CertificateModelRun.
Import WireGuard.

Lemma getCertificateModel_id_stable_witness :
  Certificate.id
    (fst (@getCertificateModel legacy_browser "c1700000000100-0.0" extended_phone default_peer
            None None))
  = "c1700000000100-0.0"
  /\ @getCertificateModel legacy_browser "c1700000009999-0.9"
       (snd (@getCertificateModel legacy_browser "c1700000000100-0.0" extended_phone
               default_peer None None))
       default_peer None None
     = (fst (@getCertificateModel legacy_browser "c1700000000100-0.0" extended_phone
               default_peer None None),
        snd (@getCertificateModel legacy_browser "c1700000000100-0.0" extended_phone
               default_peer None None)).
Proof.
  pose proof (@getCertificateModel_id_stable legacy_browser "c1700000000100-0.0"
                "c1700000009999-0.9" extended_phone default_peer None None)
    as (_ & _ & Hfresh & Hagain).
  split.
  - exact (proj1 (Hfresh eq_refl eq_refl)).
  - exact (Hagain eq_refl).
Defined.

Lemma getCertificates_covers_witness :
  exists entry,
    certificateCache (snd (@getCertificates legacy_browser default_peer revoked_page))
      !! "fp-phone" = Some entry
    /\ In entry (fst (@getCertificates legacy_browser default_peer revoked_page))
    /\ 1900000000 <= Certificate.expirationTime entry.
Proof.
  apply (@getCertificates_covers legacy_browser default_peer revoked_page "fp-phone"
           1900000000).
  - split; [reflexivity | split; repeat constructor; discriminate].
  - left. exists extended_phone. split; [right; left; reflexivity | split; reflexivity].
  - intros [Heq|[]]. discriminate.
  - lia.
Defined.

Lemma getCertificates_again_witness :
  fst (@getCertificates legacy_browser default_peer
         (snd (@getCertificates legacy_browser default_peer revoked_page)))
  = fst (@getCertificates legacy_browser default_peer revoked_page).
Proof.
  exact (proj1 (@getCertificates_again legacy_browser default_peer revoked_page
                  (fun k => eq_refl))).
Defined.

End CertificateModelRun.

Section CreatingRun.
Import WireGuard.

Lemma add_creates_witness :
  exists newCertificate f',
    @add legacy_browser None settings_render None (settings_form (Ok issued)) = (Ok tt, f')
    /\ certificates (state (component f')) = [laptop; phone; newCertificate]
    /\ Certificate.name newCertificate = Some "tablet"
    /\ Certificate.publicKeyFingerprint newCertificate = "fp-tablet"
    /\ creating f' = false
    /\ nameInput f' = Some "".
Proof.
  edestruct (@add_creates legacy_browser None settings_render None (settings_form (Ok issued)))
    as (newCertificate & f' & Hrun & Hcerts & _ & _ & Hfp & Hname & _ & _ & Hcreating & Hinput & _).
  - reflexivity.
  - vm_compute. reflexivity.
  - vm_compute. reflexivity.
  - reflexivity.
  - exists newCertificate, f'. repeat split; assumption.
Defined.

(** The private key of the certificate created on that page is the
    X25519 key derived from the key the server generated. *)
Example add_settings_page :
  map Certificate.privateKey
    (certificates
       (state (component
                 (snd (@add legacy_browser None settings_render None
                         (settings_form (Ok issued)))))))
  = ["*****"; "*****"; "sEpcyHRhx2p1Zrrr3S1P13o0s/yvE1Qntnk47RLldHQ="].
Proof. vm_compute. reflexivity. Qed.

Lemma add_fails_witness :
  untouched (settings_form (Throw too_many))
    (snd (@add legacy_browser None settings_render None (settings_form (Throw too_many))))
  /\ creating
       (snd (@add legacy_browser None settings_render None (settings_form (Throw too_many))))
     = false.
Proof.
  destruct (@add_fails legacy_browser None settings_render None
              (settings_form (Throw too_many))
              (snd (@add legacy_browser None settings_render None
                      (settings_form (Throw too_many))))
              too_many eq_refl) as (Huntouched & Hcreating & _).
  - vm_compute. reflexivity.
  - split; assumption.
Defined.

Lemma getExtendCallback_renews_witness :
  exists f',
    @getExtendCallback legacy_browser plain_time settings_render phone
      (settings_form (Ok extended_phone))
    = (Ok tt, f')
    /\ creating f' = false
    /\ generateCertificate_requests f' = [extend_request settings_render phone].
Proof.
  destruct (@getExtendCallback_renews legacy_browser plain_time settings_render phone
              (settings_form (Ok extended_phone)) eq_refl)
    as (res & f' & Hrun & Hcreating & _ & Hrequests & newCertificate & -> & _).
  exists f'. split; [exact Hrun | split; [exact Hcreating | exact Hrequests]].
Defined.

(** The extension keeps the placeholder the phone had for a private key
    and takes the new expiration time. *)
Example extend_settings_page :
  map (fun certificate =>
         (Certificate.privateKey certificate, Certificate.expirationTime certificate))
    (certificates
       (state (component
                 (snd (@getExtendCallback legacy_browser plain_time settings_render phone
                         (settings_form (Ok extended_phone)))))))
  = [("*****", 1800000000); ("*****", 1800000500); ("*****", 1900000000)].
Proof. vm_compute. reflexivity. Qed.

End CreatingRun.

Section OnDeviceRun.
Import WireGuard.

(** The reference implementation of the curve on the first test vector
    of RFC 8032, and on the key pair the server serves above. *)
Example Ed25519_rfc8032_test_1 :
  Ed25519.fromPrivateKey_toRawBytes rfc8032_secret = Ok rfc8032_public.
Proof. vm_compute. reflexivity. Qed.

Lemma getKeyPair_on_device_witness :
  exists keys w',
    @getKeyPair capable_browser (Some ed25519) skipping_generator = (Ok keys, w')
    /\ Keys.privateKey keys = "AgICAgICAgICAgICAgICAgICAgICAgICAgICAgICAgI="
    /\ console w' = []
    /\ getKey_requests w' = 0%nat.
Proof.
  edestruct (@getKeyPair_on_device capable_browser ed25519 skipping_generator 1%nat)
    as (w' & Hrun & Hconsole & Hrequests).
  - lia.
  - vm_compute. reflexivity.
  - intros j Hj. assert (j = 0%nat) as -> by lia. vm_compute. reflexivity.
  - vm_compute. reflexivity.
  - eexists. exists w'. split; [exact Hrun|]. split; [vm_compute; reflexivity|].
    split; assumption.
Defined.

End OnDeviceRun.

Section FeatureValuesRun.
Import WireGuard.

Lemma getFeatureValues_peer_witness :
  feature (getFeatureValues settings_render None) "NetShieldLevel" = Some (FNum 1)
  /\ feature (getFeatureValues settings_render None) "platform" = Some (FStr "Android").
Proof.
  pose proof (getFeatureValues_peer settings_render None) as (_ & _ & _ & Hplatform & Hother & _).
  split; [|exact Hplatform].
  rewrite Hother; [reflexivity|].
  cbn. intros [Heq|[Heq|[Heq|[Heq|[]]]]]; discriminate.
Defined.

End FeatureValuesRun.

Section BestLogicalRun.
Import WireGuard.

Example bestLogical_server_list :
  option_map LogicalServer.Name (bestLogical 0 (logicals false server_list))
  = Some "NL-FREE#1".
Proof. vm_compute. reflexivity. Qed.

Lemma bestLogical_least_witness :
  exists best,
    bestLogical 0 (logicals false server_list) = Some best
    /\ eligible 0 best = true
    /\ forall logical,
         In logical (logicals false server_list) ->
         eligible 0 logical = true ->
         (LogicalServer.Score best <= LogicalServer.Score logical)%Q.
Proof.
  pose proof (bestLogical_least 0 (logicals false server_list)) as Hbest.
  destruct (bestLogical 0 (logicals false server_list)) as [best|] eqn:Hsome.
  - destruct Hbest as (_ & Heligible & before & after & Heq & Hbefore & Hafter).
    exists best. split; [reflexivity | split; [exact Heligible|]].
    intros logical Hin Hlogical.
    assert (Hin' : In logical (List.filter (eligible 0) (logicals false server_list)))
      by (apply filter_In; auto).
    rewrite Heq in Hin'. apply in_app_or in Hin' as [Hin'|[<-|Hin']].
    + apply Qlt_le_weak, Hbefore, Hin'.
    + apply Qle_refl.
    + apply Hafter, Hin'.
  - vm_compute in Hsome. discriminate.
Defined.

Lemma bestLogical_has_server_witness :
  exists best servers,
    bestLogical 0 (logicals false server_list) = Some best
    /\ LogicalServer.Servers best = Some servers
    /\ servers <> [].
Proof.
  destruct (bestLogical 0 (logicals false server_list)) as [best|] eqn:Hsome.
  - destruct (bestLogical_has_server false 0 server_list best Hsome)
      as (_ & original & servers & _ & _ & _ & _ & _ & Hservers & Hne & _).
    exists best, servers. split; [reflexivity | split; assumption].
  - vm_compute in Hsome. discriminate.
Defined.

End BestLogicalRun.

(** ** Revoked for good *)

Section RevokedForGood.
Import WireGuard.
Context `{Externals}.

Lemma step_gone (fingerprint : string) (s s' : Session) :
  step s s' -> gone fingerprint s -> gone fingerprint s'.
Proof.
  intros Hstep (Hstate & Hrenders & Hpending & Hcache).
  destruct Hstep as [peer s | r certificate s Hr Hc | before after p confirmation server s Hp
                    | dtos s | r certificate notice s Hr].
  - unfold gone. cbn [page renders pending rendered]. rewrite getCertificates_state.
    split; [exact Hstate | split; [|split; [exact Hpending|]]].
    + intros r [<-|Hr]; [exact Hstate | apply Hrenders, Hr].
    + intros k cert Hk.
      pose proof (getCertificates_grows peer (page s) k) as Hgrow. rewrite Hk in Hgrow.
      destruct (certificateCache (page s) !! k) as [old|] eqn:Hold.
      * destruct Hgrow as [->|(Hf & Hnot & _)]; [eapply Hcache; exact Hold|].
        rewrite Hf. intros ->. contradiction.
      * destruct Hgrow as [Hf Hnot]. rewrite Hf. intros ->. contradiction.
  - unfold gone. cbn [page renders pending clicked].
    split; [exact Hstate | split; [exact Hrenders | split; [|exact Hcache]]].
    intros p Hp. apply in_app_or in Hp as [Hp|[<-|[]]]; [apply Hpending, Hp|].
    apply Hrenders, Hr.
  - assert (Hin : In p (pending s)) by (rewrite Hp; apply in_or_app; right; left; reflexivity).
    unfold gone. cbn [page renders pending finished].
    destruct (askForRevocation_cache (closure p) (revoked p) confirmation server (page s))
      as [[-> ->]|[-> ->]].
    + split; [exact Hstate | split; [exact Hrenders | split; [|exact Hcache]]].
      intros q Hq. apply Hpending. rewrite Hp.
      apply in_app_or in Hq as [Hq|Hq]; apply in_or_app; [left | right; right]; exact Hq.
    + split; [apply in_or_app; left; apply Hpending, Hin|].
      split; [exact Hrenders | split].
      * intros q Hq. apply Hpending. rewrite Hp.
        apply in_app_or in Hq as [Hq|Hq]; apply in_or_app; [left | right; right]; exact Hq.
      * intros k cert Hk. apply delete_lookup_Some in Hk as [Hk _]. eapply Hcache, Hk.
  - exact (conj Hstate (conj Hrenders (conj Hpending Hcache))).
  - exact (conj Hstate (conj Hrenders (conj Hpending Hcache))).
Qed.

Lemma steps_gone (fingerprint : string) (s s' : Session) :
  steps s s' -> gone fingerprint s -> gone fingerprint s'.
Proof.
  induction 1 as [s | s s' s'' Hstep _ IH]; intros Hgone; [exact Hgone|].
  apply IH. eapply step_gone; eassumption.
Qed.

(** X25.  A certificate revoked stays out of the list as long as what
    follows belongs to renders that come after the revocation: once the
    server has confirmed the revocation with a count that is not zero, and
    whatever state the callback had captured, no later render returns a
    certificate with that fingerprint, whatever happens in between (the
    server list fetched again and still listing the certificate,
    certificates created or extended, other revocations), provided the
    callbacks that run from then on were created by renders that took
    place after the revocation. *)
Theorem revoked_never_listed (s s' : Session) (render : State)
    (certificate cert : Certificate.t) (server : CertificateDeletionParams -> result Z)
    (Count : Z) (peer : Peer.t) :
  reachable s ->
  server (getDeleteFilter certificate) = Ok Count ->
  Count <> 0 ->
  steps (afresh (askForRevocation render certificate (Ok tt) server (page s))) s' ->
  In cert (fst (getCertificates peer (page s'))) ->
  Certificate.publicKeyFingerprint cert <> Certificate.publicKeyFingerprint certificate.
Proof.
  intros Hreach Hserver HCount Hsteps Hin.
  set (fingerprint := Certificate.publicKeyFingerprint certificate).
  assert (Hrun : certificateCache (askForRevocation render certificate (Ok tt) server (page s))
                 = delete fingerprint (certificateCache (page s))
                 /\ removedCertificates
                      (state (askForRevocation render certificate (Ok tt) server (page s)))
                    = removedCertificates render ++ [fingerprint]).
  { unfold askForRevocation. rewrite Hserver.
    destruct (Z.eqb_spec Count 0) as [|_]; [contradiction|]. split; reflexivity. }
  destruct Hrun as [Hcache Hremoved].
  assert (Hgone : gone fingerprint
                    (afresh (askForRevocation render certificate (Ok tt) server (page s)))).
  { unfold gone, afresh. cbn [page renders pending]. rewrite Hcache, Hremoved.
    split; [apply in_or_app; right; left; reflexivity|].
    split; [intros r []|]. split; [intros p []|].
    intros k cert0 Hk Heq. apply delete_lookup_Some in Hk as [Hk Hne].
    apply Hne. rewrite <- Heq. symmetry. exact (reachable_keyed s Hreach k cert0 Hk). }
  pose proof (step_gone fingerprint _ _ (step_render peer s')
                (steps_gone fingerprint _ _ Hsteps Hgone)) as (_ & _ & _ & Hclean).
  cbn [page rendered] in Hclean.
  rewrite getCertificates_returned in Hin.
  unfold Object_values in Hin. apply list_elem_of_In, list_elem_of_fmap in Hin.
  destruct Hin as ([k cert0] & -> & Hk). apply elem_of_map_to_list in Hk.
  exact (Hclean k cert0 Hk).
Qed.

End RevokedForGood.

Section RevokedForGoodRun.
Import WireGuard.

Lemma revoked_never_listed_witness :
  List.Forall (fun cert => Certificate.publicKeyFingerprint cert <> "fp-laptop")
    (fst (@getCertificates legacy_browser default_peer
            (page (fetched devices
                     (afresh (askForRevocation (state (page overlap_1))
                                (shown 0 listed_laptop) (Ok tt) one_deleted
                                (page overlap_5))))))).
Proof.
  apply List.Forall_forall. intros cert Hin.
  refine (@revoked_never_listed legacy_browser overlap_5 _ (state (page overlap_1))
            (shown 0 listed_laptop) cert one_deleted 1 default_peer _ eq_refl _ _ Hin).
  - eapply reachable_step; [|apply step_click; [left; reflexivity|]].
    + eapply reachable_step; [|apply step_render].
      eapply reachable_step; [|apply step_click; [left; reflexivity|]].
      * eapply reachable_step; [|apply step_render].
        eapply reachable_step; [apply reachable_started | apply step_fetch].
      * split; [vm_compute; auto | split; [reflexivity | vm_compute; discriminate]].
    + split; [vm_compute; auto | split; [reflexivity | vm_compute; discriminate]].
  - lia.
  - eapply steps_next; [apply step_fetch | apply steps_done].
Defined.

(** The server still lists the laptop; a page rendered afresh shows the
    phone and the tablet only. *)
Example revoked_laptop_not_listed :
  map (fun fingerprint =>
         existsb (fun cert => String.eqb (Certificate.publicKeyFingerprint cert) fingerprint)
           (fst (@getCertificates legacy_browser default_peer
                   (page (fetched devices
                            (afresh (askForRevocation (state (page overlap_1))
                                       (shown 0 listed_laptop) (Ok tt) one_deleted
                                       (page overlap_5))))))))
      ["fp-laptop"; "fp-phone"; "fp-tablet"]
  = [false; true; true].
Proof. vm_compute. reflexivity. Qed.

End RevokedForGoodRun.
